(** * camerashuttercount: the PTP client of [src/camera.ts]

    A shallow embedding of the protocol client (container framing, session
    life cycle, device-info and Canon event decoding, vendor cascade and the
    orchestrating query) together with the properties its specification
    states about it.

    Conventions.
    - A JavaScript number that holds an integer is a [Z]; a [DataView] is the
      list of its bytes; a JavaScript string is the list of its UTF-16 code
      units.
    - An operation that can throw returns a [Result]; asynchronous methods of
      [PtpDevice] live in the monad [M], which threads the object's fields and
      the history of WebUSB calls and reads the device's answers from an
      oracle [Env].
    - [console.log], [console.warn] and the [setTimeout] pauses have no effect
      on the values computed and are left out. *)

From Stdlib Require Import ZArith List Lia Bool.
From Stdlib Require Import Strings.Byte Strings.Ascii Strings.String.
Import ListNotations.
Open Scope Z_scope.

(* ================================================================== *)
(** ** Errors and results *)

Inductive Error : Type :=
| DOMException                                   (* a WebUSB promise rejected *)
| RangeError                                     (* DataView / TypedArray bounds *)
| Err_WebUSBNotSupported
| Err_NoPtpInterface
| Err_BulkEndpointsNotFound
| Err_InvalidResponsePacket
| Err_InvalidDataPacketHeader (len : option Z)
| Err_ExpectedDataPacket (type : Z)
| Err_GetDeviceInfoFailed (respCode : Z)
| Err_GetDeviceInfoNotOK
| Err_OpenSessionFailedAfterRetry (respCode : Z)
| Err_OpenSessionFailed (respCode : Z).

Inductive Result (A : Type) : Type :=
| Ok (a : A)
| Throw (err : Error).
Arguments Ok {A} a.
Arguments Throw {A} err.

Definition rbind {A B} (r : Result A) (k : A -> Result B) : Result B :=
  match r with
  | Ok a => k a
  | Throw err => Throw err
  end.

Declare Scope result_scope.
Delimit Scope result_scope with result.
Notation "x <-? r ; k" := (rbind r (fun x => k))
  (at level 61, r at next level, right associativity) : result_scope.

(* ================================================================== *)
(** ** Constants (lines 20-53) *)

Definition PTP_USB_CLASS : Z := 6.
Definition PTP_HEADER_SIZE : Z := 12.

Definition PTP_OC_GetDeviceInfo : Z := 0x1001.
Definition PTP_OC_OpenSession : Z := 0x1002.
Definition PTP_OC_CloseSession : Z := 0x1003.
Definition PTP_OC_GetDevicePropValue : Z := 0x1015.

Definition PTP_RC_OK : Z := 0x2001.

Definition PTP_USB_CONTAINER_COMMAND : Z := 0x0001.
Definition PTP_USB_CONTAINER_DATA : Z := 0x0002.
Definition PTP_USB_CONTAINER_RESPONSE : Z := 0x0003.

Definition PTP_VENDOR_CANON : Z := 0x0000000b.
Definition PTP_VENDOR_FUJI : Z := 0x0000000e.

Definition PTP_DPC_CANON_EOS_ShutterCounter : Z := 0xd1ac.
Definition PTP_DPC_CANON_EOS_ShutterReleaseCounter : Z := 0xd167.
Definition PTP_DPC_FUJI_TotalShotCount : Z := 0xd310.

Definition PTP_OC_CANON_EOS_SetRemoteMode : Z := 0x9114.
Definition PTP_OC_CANON_EOS_SetEventMode : Z := 0x9115.
Definition PTP_OC_CANON_EOS_GetEvent : Z := 0x9116.
Definition PTP_OC_CANON_EOS_PCHDDCapacity : Z := 0x911a.
Definition PTP_OC_CANON_EOS_SetRequestOLCInfoGroup : Z := 0x913d.
Definition PTP_OC_CANON_EOS_RequestDevicePropValue : Z := 0x9127.
Definition PTP_EC_CANON_EOS_PropValueChanged : Z := 0xc189.
Definition PTP_RC_SessionAlreadyOpened : Z := 0x201e.

(** [CAPTURED_PROP_CHANGES.has] *)
Definition CAPTURED_PROP_CHANGES_has (propCode : Z) : bool :=
  (propCode =? PTP_DPC_CANON_EOS_ShutterCounter)
  || (propCode =? PTP_DPC_CANON_EOS_ShutterReleaseCounter).

(* ================================================================== *)
(** ** DataView *)

Definition DataView : Type := list byte.

Definition byteLength (view : DataView) : Z := Z.of_nat (List.length view).

(** The byte at index [i], as a number; 0 outside the view (the guarded
    readers below never look there). *)
Definition byteAt (view : DataView) (i : Z) : Z :=
  Z.of_N (Byte.to_N (nth (Z.to_nat i) view x00)).

Definition inRange (view : DataView) (offset size : Z) : bool :=
  (0 <=? offset) && (offset + size <=? byteLength view).

Definition getUint8 (view : DataView) (offset : Z) : Result Z :=
  if inRange view offset 1 then Ok (byteAt view offset) else Throw RangeError.

(** [getUint16(offset, true)]: little-endian. *)
Definition getUint16 (view : DataView) (offset : Z) : Result Z :=
  if inRange view offset 2
  then Ok (byteAt view offset + 256 * byteAt view (offset + 1))
  else Throw RangeError.

(** [getUint32(offset, true)]: little-endian. *)
Definition getUint32 (view : DataView) (offset : Z) : Result Z :=
  if inRange view offset 4
  then Ok (byteAt view offset
           + 256 * byteAt view (offset + 1)
           + 65536 * byteAt view (offset + 2)
           + 16777216 * byteAt view (offset + 3))
  else Throw RangeError.

(** The byte holding [z mod 256]. *)
Definition byte_of_Z (z : Z) : byte :=
  match Byte.of_N (Z.to_N (z mod 256)) with
  | Some b => b
  | None => x00
  end.

(** What [setUint16(_, v, true)] writes. *)
Definition le16 (v : Z) : list byte :=
  [byte_of_Z v; byte_of_Z (v / 256)].

(** What [setUint32(_, v, true)] writes: [v] modulo 2^32, low byte first. *)
Definition le32 (v : Z) : list byte :=
  [byte_of_Z v; byte_of_Z (v / 256); byte_of_Z (v / 65536);
   byte_of_Z (v / 16777216)].

(** [Uint8Array.prototype.set(src, offset)] on a buffer of fixed length. *)
Definition typedArraySet (buf src : list byte) (offset : Z) : Result (list byte) :=
  if (0 <=? offset) && (offset + byteLength src <=? byteLength buf)
  then Ok (firstn (Z.to_nat offset) buf ++ src
           ++ skipn (Z.to_nat offset + List.length src) buf)
  else Throw RangeError.

(* ================================================================== *)
(** ** Packet codec *)

(** [encodePacket] (lines 131-150); the transaction id is the field of the
    object, passed here explicitly. *)
Definition encodePacket (transactionId type code : Z) (params : list Z)
  : list byte :=
  let length := PTP_HEADER_SIZE + Z.of_nat (List.length params) * 4 in
  le32 length ++ le16 type ++ le16 code ++ le32 transactionId
  ++ flat_map le32 params.

(** JavaScript strings: sequences of UTF-16 code units. *)
Definition jsstring : Type := list Z.

Definition js (s : string) : jsstring :=
  map (fun c => Z.of_N (N_of_ascii c)) (list_ascii_of_string s).

Record PtpString : Type := mkPtpString { text : jsstring; newOffset : Z }.

Section ParseLoops.
Local Open Scope result_scope.

(** The [for] loop of [parsePtpString] (lines 254-258): [n] iterations are
    left, [i] is the loop counter. *)
Fixpoint parsePtpString_loop (view : DataView) (offset : Z) (n : nat) (i : Z)
  (str : jsstring) : Result jsstring :=
  match n with
  | O => Ok str
  | S n' =>
      if offset + 1 + i * 2 + 2 >? byteLength view then Ok str
      else
        charCode <-? getUint16 view (offset + 1 + i * 2);
        parsePtpString_loop view offset n' (i + 1)
          (if charCode =? 0 then str else str ++ [charCode])
  end.

(** [parsePtpString] (lines 245-260). *)
Definition parsePtpString (view : DataView) (offset : Z) : Result PtpString :=
  if offset >=? byteLength view then Ok (mkPtpString [] offset)
  else
    numChars <-? getUint8 view offset;
    if numChars =? 0 then Ok (mkPtpString [] (offset + 1))
    else
      str <-? parsePtpString_loop view offset (Z.to_nat numChars) 0 [];
      Ok (mkPtpString str (offset + 1 + numChars * 2)).

Record DeviceInfo : Type := mkDeviceInfo {
  vendorExtensionId : Z;
  manufacturer : jsstring;
  model : jsstring;
  version : jsstring;
  serial : jsstring
}.

(** [parseDeviceInfo] (lines 262-316). *)
Definition parseDeviceInfo (view : DataView) : Result DeviceInfo :=
  let offset := PTP_HEADER_SIZE in
  standardVersion <-? getUint16 view offset;
  let offset := offset + 2 in
  vendorExtensionId <-? getUint32 view offset;
  let offset := offset + 4 in
  vendorExtensionVersion <-? getUint16 view offset;
  let offset := offset + 2 in
  vendorExtensionDesc <-? parsePtpString view offset;
  let offset := newOffset vendorExtensionDesc in
  functionalMode <-? getUint16 view offset;
  let offset := offset + 2 in
  opsLen <-? getUint32 view offset;
  let offset := offset + 4 in
  let offset := offset + opsLen * 2 in
  eventsLen <-? getUint32 view offset;
  let offset := offset + 4 in
  let offset := offset + eventsLen * 2 in
  propsLen <-? getUint32 view offset;
  let offset := offset + 4 in
  let offset := offset + propsLen * 2 in
  capsLen <-? getUint32 view offset;
  let offset := offset + 4 in
  let offset := offset + capsLen * 2 in
  imgsLen <-? getUint32 view offset;
  let offset := offset + 4 in
  let offset := offset + imgsLen * 2 in
  manufacturer <-? parsePtpString view offset;
  let offset := newOffset manufacturer in
  model <-? parsePtpString view offset;
  let offset := newOffset model in
  deviceVersion <-? parsePtpString view offset;
  let offset := newOffset deviceVersion in
  serialNumber <-? parsePtpString view offset;
  Ok (mkDeviceInfo vendorExtensionId (text manufacturer) (text model)
        (text deviceVersion) (text serialNumber)).

Record PropValueChange : Type := mkPropValueChange { propCode : Z; value : Z }.

(** The [while] loop of [parseCanonPropChanges] (lines 379-399).  Every pass
    that continues advances [offset] by [size >= 8], so [fuel] bounds the
    passes; see [parseCanonPropChanges_loop_fuel]. *)
Fixpoint parseCanonPropChanges_loop (fuel : nat) (dataView : DataView)
  (offset : Z) (changes : list PropValueChange)
  : Result (list PropValueChange) :=
  let totalLength := byteLength dataView in
  match fuel with
  | O => Ok changes
  | S fuel' =>
      if offset + 8 <=? totalLength then
        size <-? getUint32 dataView offset;
        type <-? getUint32 dataView (offset + 4);
        if size <? 8 then Ok changes
        else if (size =? 8) && (type =? 0) then Ok changes
        else if offset + size >? totalLength then Ok changes
        else
          changes' <-?
            (if type =? PTP_EC_CANON_EOS_PropValueChanged then
               propCode <-? getUint32 dataView (offset + 8);
               let valueOffset := offset + PTP_HEADER_SIZE in
               if CAPTURED_PROP_CHANGES_has propCode then
                 if size >=? 16 then
                   value <-? getUint32 dataView valueOffset;
                   Ok (changes ++ [mkPropValueChange propCode value])
                 else Ok changes
               else Ok changes
             else Ok changes);
          parseCanonPropChanges_loop fuel' dataView (offset + size) changes'
      else Ok changes
  end.

(** [parseCanonPropChanges] (lines 374-401). *)
Definition parseCanonPropChanges (dataView : DataView)
  : Result (list PropValueChange) :=
  parseCanonPropChanges_loop (List.length dataView) dataView PTP_HEADER_SIZE [].

End ParseLoops.

(** The first element satisfying [p]: [Array.prototype.find]. *)
Definition array_find {A} (p : A -> bool) (l : list A) : option A := List.find p l.


Fixpoint startsWith (sub s : jsstring) : bool :=
  match sub, s with
  | [], _ => true
  | _ :: _, [] => false
  | a :: sub', b :: s' => (a =? b) && startsWith sub' s'
  end.

(** [String.prototype.includes] on code units. *)
Fixpoint includes (s sub : jsstring) : bool :=
  startsWith sub s
  || match s with
     | [] => false
     | _ :: s' => includes s' sub
     end.

(* ================================================================== *)
(** ** The device and its environment *)

(** The calls made on [this.device], in the order they are made. *)
Inductive UsbCall : Type :=
| Call_open
| Call_selectConfiguration (configurationValue : Z)
| Call_claimInterface (interfaceNumber : Z)
| Call_releaseInterface (interfaceNumber : Z)
| Call_close
| Call_transferIn (endpoint length : Z)
| Call_transferOut (endpoint : Z) (data : list byte).

(** What [connect] looks for in the configuration: the interface of class 6
    and its bulk endpoints, when present. *)
Record USBInterface : Type := mkUSBInterface {
  itf_interfaceNumber : Z;
  itf_bulkIn : option Z;
  itf_bulkOut : option Z
}.

(** The device as an oracle: each answer may depend on everything asked so
    far (the history ends with the call being answered).  [Throw] is a
    rejected promise; the [data] of a transfer result may be missing. *)
Record Env : Type := mkEnv {
  navigator_usb : bool;
  usb_requestDevice : Result unit;
  usb_open : list UsbCall -> Result unit;
  usb_configuration_null : list UsbCall -> bool;
  usb_selectConfiguration : list UsbCall -> Result unit;
  usb_ptpInterface : list UsbCall -> option USBInterface;
  usb_claimInterface : list UsbCall -> Result unit;
  usb_opened : list UsbCall -> bool;
  usb_releaseInterface : list UsbCall -> Result unit;
  usb_close : list UsbCall -> Result unit;
  usb_transferIn : list UsbCall -> Result (option DataView);
  usb_transferOut : list UsbCall -> Result unit
}.

(** The fields of a [PtpDevice] object (lines 76-85), with the history of the
    calls made on its [device]. *)
Record PtpDevice : Type := mkPtpDevice {
  inEndpoint : Z;
  outEndpoint : Z;
  transactionId : Z;
  interfaceNumber : option Z;
  calls : list UsbCall
}.

Definition newPtpDevice : PtpDevice := mkPtpDevice 0 0 0 None [].

(** Asynchronous code: reads the oracle, updates the object, returns or
    throws. *)
Definition M (A : Type) : Type := Env -> PtpDevice -> Result A * PtpDevice.

Definition ret {A} (a : A) : M A := fun _ d => (Ok a, d).
Definition throw {A} (err : Error) : M A := fun _ d => (Throw err, d).
Definition lift {A} (r : Result A) : M A := fun _ d => (r, d).

Definition bind {A B} (m : M A) (k : A -> M B) : M B :=
  fun e d =>
    match m e d with
    | (Ok a, d') => k a e d'
    | (Throw err, d') => (Throw err, d')
    end.

(** [try { m } catch (err) { h err }] *)
Definition try_catch {A} (m : M A) (h : Error -> M A) : M A :=
  fun e d =>
    match m e d with
    | (Ok a, d') => (Ok a, d')
    | (Throw err, d') => h err e d'
    end.

(** [try { m } finally { f }]: [f] always runs; if it throws, its error
    replaces the outcome of [m]. *)
Definition try_finally {A} (m : M A) (f : M unit) : M A :=
  fun e d =>
    match m e d with
    | (r, d') =>
        match f e d' with
        | (Ok _, d'') => (r, d'')
        | (Throw err, d'') => (Throw err, d'')
        end
    end.

Declare Scope m_scope.
Delimit Scope m_scope with m.
Notation "x <- m ;; k" := (bind m (fun x => k))
  (at level 61, m at next level, right associativity) : m_scope.
Notation "m ;; k" := (bind m (fun _ => k))
  (at level 61, right associativity) : m_scope.

(** One call on [this.device]: recorded, then answered by the oracle. *)
Definition usb_call {A} (c : PtpDevice -> UsbCall)
  (answer : Env -> list UsbCall -> Result A) : M A :=
  fun e d =>
    let h := calls d ++ [c d] in
    (answer e h,
     mkPtpDevice (inEndpoint d) (outEndpoint d) (transactionId d)
       (interfaceNumber d) h).

(** An attribute of [this.device] read without a call. *)
Definition usb_read {A} (attr : Env -> list UsbCall -> A) : M A :=
  fun e d => (Ok (attr e (calls d)), d).

Definition get_transactionId : M Z := fun _ d => (Ok (transactionId d), d).
Definition set_transactionId (t : Z) : M unit :=
  fun _ d =>
    (Ok tt, mkPtpDevice (inEndpoint d) (outEndpoint d) t (interfaceNumber d)
              (calls d)).
Definition get_interfaceNumber : M (option Z) :=
  fun _ d => (Ok (interfaceNumber d), d).
Definition set_interfaceNumber (n : option Z) : M unit :=
  fun _ d =>
    (Ok tt, mkPtpDevice (inEndpoint d) (outEndpoint d) (transactionId d) n
              (calls d)).
Definition set_endpoints (i o : Z) : M unit :=
  fun _ d =>
    (Ok tt, mkPtpDevice i o (transactionId d) (interfaceNumber d) (calls d)).

Definition transferIn (length : Z) : M (option DataView) :=
  usb_call (fun d => Call_transferIn (inEndpoint d) length) usb_transferIn.

Definition transferOut (buffer : list byte) : M unit :=
  usb_call (fun d => Call_transferOut (outEndpoint d) buffer) usb_transferOut.

Section Client.
Local Open Scope m_scope.

(* ------------------------------------------------------------------ *)
(** *** PtpDevice *)

(** [connect] (lines 87-117). *)
Definition connect : M unit :=
  usb_call (fun _ => Call_open) usb_open;;
  configurationNull <- usb_read usb_configuration_null;;
  (if configurationNull : bool
   then usb_call (fun _ => Call_selectConfiguration 1) usb_selectConfiguration
   else ret tt);;
  interfaceItem <- usb_read usb_ptpInterface;;
  match interfaceItem with
  | None => throw Err_NoPtpInterface
  | Some item =>
      set_interfaceNumber (Some (itf_interfaceNumber item));;
      usb_call (fun _ => Call_claimInterface (itf_interfaceNumber item))
        usb_claimInterface;;
      match itf_bulkIn item, itf_bulkOut item with
      | Some inEp, Some outEp => set_endpoints inEp outEp
      | _, _ => throw Err_BulkEndpointsNotFound
      end
  end.

(** [close] (lines 119-129). *)
Definition close : M unit :=
  try_catch
    (opened <- usb_read usb_opened;;
     interfaceNumber <- get_interfaceNumber;;
     match opened, interfaceNumber with
     | true, Some n =>
         usb_call (fun _ => Call_releaseInterface n) usb_releaseInterface
     | _, _ => ret tt
     end)
    (fun _ => ret tt);;
  set_interfaceNumber None;;
  usb_call (fun _ => Call_close) usb_close.

(** [receiveResponse] (lines 152-158). *)
Definition receiveResponse : M DataView :=
  res <- transferIn 512;;
  match res with
  | None => throw Err_InvalidResponsePacket
  | Some data =>
      if byteLength data <? PTP_HEADER_SIZE
      then throw Err_InvalidResponsePacket
      else ret data
  end.

(** The header loop of [receiveData] (lines 163-168): [n] attempts left,
    [headerView] as the previous attempt left it. *)
Fixpoint receiveData_header (n : nat) (headerView : option DataView)
  : M (option DataView) :=
  match n with
  | O => ret headerView
  | S n' =>
      headerView <- transferIn 1024;;
      match headerView with
      | Some v =>
          if byteLength v >? 0 then ret headerView
          else receiveData_header n' headerView
      | None => receiveData_header n' headerView
      end
  end.

(** The chunk loop of [receiveData] (lines 200-216).  A pass that continues
    adds at least one byte, so [length - offset] passes are enough; [fuel]
    counts them. *)
Fixpoint receiveData_chunks (fuel : nat) (length : Z) (fullBuffer : list byte)
  (offset : Z) : M (list byte) :=
  match fuel with
  | O => ret fullBuffer
  | S fuel' =>
      if offset <? length then
        nextChunk <- transferIn (length - offset);;
        match nextChunk with
        | None => ret fullBuffer
        | Some data =>
            if byteLength data =? 0 then ret fullBuffer
            else
              fullBuffer <- lift (typedArraySet fullBuffer data offset);;
              receiveData_chunks fuel' length fullBuffer
                (offset + byteLength data)
        end
      else ret fullBuffer
  end.

(** [receiveData] (lines 160-219). *)
Definition receiveData : M DataView :=
  headerView <- receiveData_header 3 None;;
  match headerView with
  | None => throw (Err_InvalidDataPacketHeader None)
  | Some headerView =>
      if byteLength headerView <? PTP_HEADER_SIZE
      then throw (Err_InvalidDataPacketHeader (Some (byteLength headerView)))
      else
        length <- lift (getUint32 headerView 0);;
        type <- lift (getUint16 headerView 4);;
        if negb (type =? PTP_USB_CONTAINER_DATA) then
          if type =? PTP_USB_CONTAINER_RESPONSE then ret headerView
          else throw (Err_ExpectedDataPacket type)
        else if byteLength headerView >=? length then ret headerView
        else
          fullBuffer <-
            lift (typedArraySet (repeat x00 (Z.to_nat length)) headerView 0);;
          let offset := byteLength headerView in
          receiveData_chunks (Z.to_nat (length - offset)) length fullBuffer
            offset
  end.

(** [sendCommand] (lines 221-225). *)
Definition sendCommand (code : Z) (params : list Z) : M unit :=
  t <- get_transactionId;;
  set_transactionId (t + 1);;
  t <- get_transactionId;;
  let buffer := encodePacket t PTP_USB_CONTAINER_COMMAND code params in
  transferOut buffer.

(** [getDeviceInfo] (lines 227-243). *)
Definition getDeviceInfo : M DeviceInfo :=
  sendCommand PTP_OC_GetDeviceInfo [];;
  dataPacket <- receiveData;;
  type <- lift (getUint16 dataPacket 4);;
  if type =? PTP_USB_CONTAINER_RESPONSE then
    respCode <- lift (getUint16 dataPacket 6);;
    throw (Err_GetDeviceInfoFailed respCode)
  else
    responsePacket <- receiveResponse;;
    respCode <- lift (getUint16 responsePacket 6);;
    if negb (respCode =? PTP_RC_OK) then throw Err_GetDeviceInfoNotOK
    else lift (parseDeviceInfo dataPacket).

(** [closeSession] (lines 340-343). *)
Definition closeSession : M unit :=
  sendCommand PTP_OC_CloseSession [];;
  receiveResponse;;
  ret tt.

(** [openSession] (lines 318-338). *)
Definition openSession : M unit :=
  set_transactionId (-1);;
  sendCommand PTP_OC_OpenSession [1];;
  response <- receiveResponse;;
  respCode <- lift (getUint16 response 6);;
  if negb (respCode =? PTP_RC_OK) then
    if respCode =? PTP_RC_SessionAlreadyOpened then
      closeSession;;
      set_transactionId (-1);;
      sendCommand PTP_OC_OpenSession [1];;
      retryResp <- receiveResponse;;
      retryCode <- lift (getUint16 retryResp 6);;
      if negb (retryCode =? PTP_RC_OK)
      then throw (Err_OpenSessionFailedAfterRetry retryCode)
      else ret tt
    else throw (Err_OpenSessionFailed respCode)
  else ret tt.

(** [getDevicePropValue] (lines 345-372); [None] is [null]. *)
Definition getDevicePropValue (propCode : Z) : M (option Z) :=
  sendCommand PTP_OC_GetDevicePropValue [propCode];;
  dataPacket <- receiveData;;
  type <- lift (getUint16 dataPacket 4);;
  if type =? PTP_USB_CONTAINER_RESPONSE then ret None
  else
    responsePacket <- receiveResponse;;
    respCode <- lift (getUint16 responsePacket 6);;
    if negb (respCode =? PTP_RC_OK) then ret None
    else if byteLength dataPacket >=? 16 then
      v <- lift (getUint32 dataPacket PTP_HEADER_SIZE);;
      ret (Some v)
    else ret None.

(** The [try] block of [getCanonPropChanges] (lines 405-415). *)
Definition getCanonPropChanges_try : M (list PropValueChange) :=
  sendCommand PTP_OC_CANON_EOS_GetEvent [];;
  data <- receiveData;;
  type <- lift (getUint16 data 4);;
  if type =? PTP_USB_CONTAINER_RESPONSE then ret []
  else
    receiveResponse;;
    if byteLength data <=? PTP_HEADER_SIZE then ret []
    else lift (parseCanonPropChanges data).

(** [getCanonPropChanges] (lines 403-420). *)
Definition getCanonPropChanges : M (list PropValueChange) :=
  try_catch getCanonPropChanges_try (fun _ => ret []).

(* ------------------------------------------------------------------ *)
(** *** Canon *)

(** [initCanon] (lines 423-448): the [catch] logs and rethrows. *)
Definition initCanon : M unit :=
  try_catch
    (sendCommand PTP_OC_CANON_EOS_SetRemoteMode [1];;
     receiveResponse;;
     sendCommand PTP_OC_CANON_EOS_SetEventMode [1];;
     receiveResponse;;
     sendCommand PTP_OC_CANON_EOS_SetRequestOLCInfoGroup [0x1fff];;
     receiveResponse;;
     sendCommand PTP_OC_CANON_EOS_PCHDDCapacity [0x0fffffff; 0x1000; 0x1];;
     receiveResponse;;
     ret tt)
    (fun err => throw err).

Definition isShutterEvent (e : PropValueChange) : bool :=
  (propCode e =? PTP_DPC_CANON_EOS_ShutterCounter)
  || (propCode e =? PTP_DPC_CANON_EOS_ShutterReleaseCounter).

(** The [for] loop of [drainShutterEvents] (lines 453-462): [n] passes
    left.  Leaving the loop leads to [return null]. *)
Fixpoint drainShutterEvents_loop (n : nat) : M (option Z) :=
  match n with
  | O => ret None
  | S n' =>
      evts <- getCanonPropChanges;;
      match array_find isShutterEvent evts with
      | Some shutterEvt => ret (Some (value shutterEvt))
      | None =>
          if (Z.of_nat (List.length evts) =? 0) then ret None
          else drainShutterEvents_loop n'
      end
  end.

(** [drainShutterEvents] (lines 450-467). *)
Definition drainShutterEvents : M (option Z) :=
  try_catch (drainShutterEvents_loop 5) (fun _ => ret None).

(** The [for] loop of [queryAndPollShutterProp] (lines 478-485). *)
Fixpoint queryAndPollShutterProp_loop (propCode' : Z) (n : nat)
  : M (option Z) :=
  match n with
  | O => ret None
  | S n' =>
      evts <- getCanonPropChanges;;
      match array_find (fun e => propCode e =? propCode') evts with
      | Some evt => ret (Some (value evt))
      | None => queryAndPollShutterProp_loop propCode' n'
      end
  end.

(** [queryAndPollShutterProp] (lines 469-490). *)
Definition queryAndPollShutterProp (propCode : Z) : M (option Z) :=
  try_catch
    (sendCommand PTP_OC_CANON_EOS_RequestDevicePropValue [propCode];;
     receiveResponse;;
     queryAndPollShutterProp_loop propCode 5)
    (fun _ => ret None).

(** [getCanonShutterCount] (lines 492-513). *)
Definition getCanonShutterCount : M Z :=
  count <- drainShutterEvents;;
  match count with
  | Some count => ret count
  | None =>
  count <- queryAndPollShutterProp PTP_DPC_CANON_EOS_ShutterCounter;;
  match count with
  | Some count => ret count
  | None =>
  count <- getDevicePropValue PTP_DPC_CANON_EOS_ShutterCounter;;
  match count with
  | Some count => ret count
  | None =>
  count <- queryAndPollShutterProp PTP_DPC_CANON_EOS_ShutterReleaseCounter;;
  match count with
  | Some count => ret count
  | None =>
  count <- getDevicePropValue PTP_DPC_CANON_EOS_ShutterReleaseCounter;;
  match count with
  | Some count => ret count
  | None => ret (-1)
  end end end end end.

(** [exitCanon] (lines 515-530). *)
Definition exitCanon : M unit :=
  try_catch
    (sendCommand PTP_OC_CANON_EOS_SetRemoteMode [1];;
     receiveResponse;;
     ret tt)
    (fun _ => ret tt);;
  try_catch
    (sendCommand PTP_OC_CANON_EOS_SetEventMode [0];;
     receiveResponse;;
     ret tt)
    (fun _ => ret tt).

(* ------------------------------------------------------------------ *)
(** *** The query *)

Record CameraInfo : Type := mkCameraInfo {
  ci_manufacturer : jsstring;
  ci_model : jsstring;
  ci_version : jsstring;
  ci_serial : jsstring;
  shutterCount : Z
}.

(** [String.prototype.toLowerCase] is the host's Unicode lower-casing; the
    query is parametric in it. *)
Variable toLowerCase : jsstring -> jsstring.

(** The vendor chosen by lines 551-557. *)
Definition vendorOf (deviceInfo : DeviceInfo) : Z :=
  let vendorId := vendorExtensionId deviceInfo in
  if includes (toLowerCase (manufacturer deviceInfo)) (js "canon")
  then PTP_VENDOR_CANON
  else if includes (toLowerCase (manufacturer deviceInfo)) (js "fuji")
  then PTP_VENDOR_FUJI
  else vendorId.

(** The vendor strategies, lines 559-570; the value is [shutterCount]. *)
Definition vendorShutterCount (vendorId : Z) : M Z :=
  let shutterCount := -1 in
  if vendorId =? PTP_VENDOR_CANON then
    try_finally (initCanon;; getCanonShutterCount) exitCanon
  else if vendorId =? PTP_VENDOR_FUJI then
    val <- getDevicePropValue PTP_DPC_FUJI_TotalShotCount;;
    match val with
    | Some val => ret val
    | None => ret shutterCount
    end
  else ret shutterCount.

(** The outer [try] block of [getCameraInfo] (lines 543-583). *)
Definition getCameraInfo_try : M CameraInfo :=
  connect;;
  openSession;;
  deviceInfo <- getDeviceInfo;;
  shutterCount <- vendorShutterCount (vendorOf deviceInfo);;
  closeSession;;
  close;;
  ret (mkCameraInfo (manufacturer deviceInfo) (model deviceInfo)
         (version deviceInfo) (serial deviceInfo) shutterCount).

(** Lines 542-586: the query on a [PtpDevice] just constructed. *)
Definition getCameraInfo_device : M CameraInfo :=
  try_finally getCameraInfo_try close.

(** [getCameraInfo] (lines 532-587). *)
Definition getCameraInfo (e : Env) : Result CameraInfo * PtpDevice :=
  if negb (navigator_usb e) then (Throw Err_WebUSBNotSupported, newPtpDevice)
  else
    match usb_requestDevice e with
    | Throw err => (Throw err, newPtpDevice)
    | Ok _ => getCameraInfo_device e newPtpDevice
    end.

End Client.

(* ================================================================== *)
(** ** Vocabulary of the statements *)

(* ------------------------------------------------------------------ *)
(** *** Decoding *)

(** The [i]-th code unit of the string whose count byte is at [offset]. *)
Definition codeUnitAt (view : DataView) (offset i : Z) : Z :=
  byteAt view (offset + 1 + i * 2) + 256 * byteAt view (offset + 1 + i * 2 + 1).

(** [k] code units from index [i] on. *)
Fixpoint codeUnits (view : DataView) (offset i : Z) (k : nat) : jsstring :=
  match k with
  | O => []
  | S k' => codeUnitAt view offset i :: codeUnits view offset (i + 1) k'
  end.

(** How many whole code units from index [i] on lie inside the view. *)
Definition unitsThatFit (view : DataView) (offset i : Z) : nat :=
  Z.to_nat ((byteLength view - offset - 1) / 2 - i).

Definition nonNul (c : Z) : bool := negb (c =? 0).

(** The offset after a count-prefixed array of 16-bit codes that starts at
    [offset] and declares [count] entries. *)
Definition skipArray (offset count : Z) : Z := offset + 4 + count * 2.

(** The fixed-width reads of [parseDeviceInfo], in their order, succeed with
    these values: standard version, vendor extension id and version at 12,
    14 and 18, the description string at 20, the functional mode behind it,
    and the counts of the five arrays, each behind the array before it. *)
Definition fixedFields (view : DataView) (sv vid vv : Z) (desc : PtpString)
  (fm opsLen eventsLen propsLen capsLen imgsLen : Z) : Prop :=
  getUint16 view 12 = Ok sv
  /\ getUint32 view 14 = Ok vid
  /\ getUint16 view 18 = Ok vv
  /\ parsePtpString view 20 = Ok desc
  /\ getUint16 view (newOffset desc) = Ok fm
  /\ getUint32 view (newOffset desc + 2) = Ok opsLen
  /\ getUint32 view (skipArray (newOffset desc + 2) opsLen) = Ok eventsLen
  /\ getUint32 view
       (skipArray (skipArray (newOffset desc + 2) opsLen) eventsLen)
     = Ok propsLen
  /\ getUint32 view
       (skipArray
          (skipArray (skipArray (newOffset desc + 2) opsLen) eventsLen)
          propsLen)
     = Ok capsLen
  /\ getUint32 view
       (skipArray
          (skipArray
             (skipArray (skipArray (newOffset desc + 2) opsLen) eventsLen)
             propsLen) capsLen)
     = Ok imgsLen.

(** [getUint32] without the bounds check: the little-endian word at
    [offset], bytes outside the view counting as 0. *)
Definition wordAt (view : DataView) (offset : Z) : Z :=
  byteAt view offset + 256 * byteAt view (offset + 1)
  + 65536 * byteAt view (offset + 2) + 16777216 * byteAt view (offset + 3).

(** Event decoding as the specification words it: walk the records by their
    declared size; stop at a size below 8, at the sentinel (size 8, type 0)
    and at a record that runs past the end; keep the records of type
    PropValueChanged with a watched property code and a size of at least
    16, with the word at offset 12 as value. *)
Fixpoint decodeEvents (fuel : nat) (view : DataView) (offset : Z)
  : list PropValueChange :=
  match fuel with
  | O => []
  | S fuel' =>
      let size := wordAt view offset in
      let type := wordAt view (offset + 4) in
      if (byteLength view <? offset + 8) || (size <? 8)
         || ((size =? 8) && (type =? 0)) || (byteLength view <? offset + size)
      then []
      else
        (if (type =? PTP_EC_CANON_EOS_PropValueChanged)
            && CAPTURED_PROP_CHANGES_has (wordAt view (offset + 8))
            && (16 <=? size)
         then [mkPropValueChange (wordAt view (offset + 8))
                 (wordAt view (offset + 12))]
         else [])
        ++ decodeEvents fuel' view (offset + size)
  end.

(* ------------------------------------------------------------------ *)
(** *** Commands on the wire *)

(** The buffers handed to [transferOut], in order. *)
Definition outs (l : list UsbCall) : list (list byte) :=
  flat_map (fun c => match c with
                     | Call_transferOut _ b => [b]
                     | _ => []
                     end) l.

(** The operation code and the transaction id of an encoded container
    (header bytes 6-7 and 8-11, little-endian). *)
Definition hdr_code (b : list byte) : Z := byteAt b 6 + 256 * byteAt b 7.

Definition hdr_tid (b : list byte) : Z :=
  byteAt b 8 + 256 * byteAt b 9 + 65536 * byteAt b 10
  + 16777216 * byteAt b 11.

(** Transaction ids that go up by one from [t], as the 32-bit header field
    holds them. *)
Fixpoint consec (t : Z) (bs : list (list byte)) : Prop :=
  match bs with
  | [] => True
  | b :: r => hdr_tid b = (t + 1) mod 4294967296 /\ consec (t + 1) r
  end.

(** [sends P n m]: whatever the device answers, [m] only adds calls to the
    history; it hands at most [n] containers to [transferOut], each with an
    operation code in [P]; their transaction ids go up by one from the
    counter, which ends at the id of the last one. *)
Definition sends (P : Z -> Prop) (n : nat) {A} (m : M A) : Prop :=
  forall e d, exists l,
    calls (snd (m e d)) = calls d ++ l
    /\ (List.length (outs l) <= n)%nat
    /\ transactionId (snd (m e d))
       = transactionId d + Z.of_nat (List.length (outs l))
    /\ consec (transactionId d) (outs l)
    /\ Forall (fun b => P (hdr_code b)) (outs l).

(** The two commands of the session life cycle as they go on the wire. *)
Definition openCmd : list byte :=
  encodePacket 0 PTP_USB_CONTAINER_COMMAND PTP_OC_OpenSession [1].

Definition closeCmd : list byte :=
  encodePacket 1 PTP_USB_CONTAINER_COMMAND PTP_OC_CloseSession [].

(** Transaction ids along a session: an OpenSession command carries 0, any
    other command one more than the command before it ([prev]). *)
Fixpoint tids_chained (prev : Z) (bs : list (list byte)) : Prop :=
  match bs with
  | [] => True
  | b :: r =>
      (if hdr_code b =? PTP_OC_OpenSession
       then hdr_tid b = 0
       else hdr_tid b = prev + 1)
      /\ tids_chained (hdr_tid b) r
  end.

(** The commands of one query: the first is an OpenSession with id 0 and
    the ids are chained from there. *)
Definition session_tids (bs : list (list byte)) : Prop :=
  match bs with
  | [] => True
  | b :: r =>
      hdr_code b = PTP_OC_OpenSession /\ hdr_tid b = 0 /\ tids_chained 0 r
  end.

(** The device [d] with session counter [t] and history [h]. *)
Definition with_session (d : PtpDevice) (t : Z) (h : list UsbCall) : PtpDevice :=
  mkPtpDevice (inEndpoint d) (outEndpoint d) t (interfaceNumber d) h.

(* ------------------------------------------------------------------ *)
(** *** The cascade *)

(** The five strategies in the order in which [getCanonShutterCount] names
    them. *)
Definition canonStages : list (M (option Z)) :=
  [drainShutterEvents;
   queryAndPollShutterProp PTP_DPC_CANON_EOS_ShutterCounter;
   getDevicePropValue PTP_DPC_CANON_EOS_ShutterCounter;
   queryAndPollShutterProp PTP_DPC_CANON_EOS_ShutterReleaseCounter;
   getDevicePropValue PTP_DPC_CANON_EOS_ShutterReleaseCounter].

(** A cascade as the specification words it: try the stages in order, return
    the first value, report -1 when none gives one. *)
Fixpoint firstValue (stages : list (M (option Z))) : M Z :=
  match stages with
  | [] => ret (-1)
  | stage :: rest =>
      bind stage (fun count =>
                    match count with
                    | Some count => ret count
                    | None => firstValue rest
                    end)
  end.

(** Run from [d], each of the stages returns [null]; [d'] is the device
    after the last of them. *)
Fixpoint yield_nothing (stages : list (M (option Z))) (e : Env)
  (d d' : PtpDevice) : Prop :=
  match stages with
  | [] => d' = d
  | stage :: rest =>
      exists d1, stage e d = (Ok None, d1) /\ yield_nothing rest e d1 d'
  end.

(* ================================================================== *)
(** ** Sample containers and scripted devices *)

(** A data container for operation [code] around [payload]. *)
Definition dataContainer (code transactionId : Z) (payload : list byte)
  : DataView :=
  le32 (PTP_HEADER_SIZE + byteLength payload) ++ le16 PTP_USB_CONTAINER_DATA
  ++ le16 code ++ le32 transactionId ++ payload.

(** A response container with the given code, as a transfer result. *)
Definition response (code : Z) : Result (option DataView) :=
  Ok (Some (encodePacket 0 PTP_USB_CONTAINER_RESPONSE code [])).

(** One PropValueChanged record of size 16. *)
Definition changeRecord (propCode value : Z) : list byte :=
  le32 16 ++ le32 PTP_EC_CANON_EOS_PropValueChanged ++ le32 propCode
  ++ le32 value.

(** A GetEvent data container holding the records given. *)
Definition eventData (records : list byte) : Result (option DataView) :=
  Ok (Some (dataContainer PTP_OC_CANON_EOS_GetEvent 5 records)).

(** A GetDevicePropValue data container carrying one little-endian u32. *)
Definition propData (v : Z) : Result (option DataView) :=
  Ok (Some (dataContainer PTP_OC_GetDevicePropValue 0 (le32 v))).

(** A PTP string: count (with the terminating NUL), code units, NUL. *)
Definition ptpString (s : string) : list byte :=
  byte_of_Z (Z.of_nat (String.length s) + 1)
  :: flat_map le16 (js s) ++ [x00; x00].

(** A GetDeviceInfo data container with five empty arrays. *)
Definition deviceInfoData (vendorExtensionId : Z) (manufacturer model : string)
  : Result (option DataView) :=
  Ok (Some (dataContainer PTP_OC_GetDeviceInfo 1
              (le16 100 ++ le32 vendorExtensionId ++ le16 100 ++ [x00]
               ++ le16 0
               ++ le32 0 ++ le32 0 ++ le32 0 ++ le32 0 ++ le32 0
               ++ ptpString manufacturer ++ ptpString model
               ++ ptpString "1.0" ++ ptpString "SN1"))).

(** A GetDeviceInfo data container that stops right after the (empty) array
    of supported operations: 27 bytes. *)
Definition shortDeviceInfo : DataView :=
  dataContainer PTP_OC_GetDeviceInfo 1
    (le16 100 ++ le32 PTP_VENDOR_CANON ++ le16 100 ++ [x00] ++ le16 0
     ++ le32 0).

(** A payload with five empty arrays and four trailing PTP strings
    "C", "M", "V", "S". *)
Definition sampleDeviceInfo : DataView :=
  dataContainer PTP_OC_GetDeviceInfo 1
    (le16 100 ++ le32 PTP_VENDOR_CANON ++ le16 100 ++ [x00] ++ le16 0
     ++ le32 0 ++ le32 0 ++ le32 0 ++ le32 0 ++ le32 0
     ++ ptpString "C" ++ ptpString "M" ++ ptpString "V" ++ ptpString "S").

(** A 36-byte event container: one well-formed ShutterCounter change
    (size 16, value 1234), then a PropValueChanged record of declared size 8
    that ends the buffer. *)
Definition shortRecordPayload : DataView :=
  dataContainer PTP_OC_CANON_EOS_GetEvent 5
    (changeRecord PTP_DPC_CANON_EOS_ShutterCounter 1234
     ++ le32 8 ++ le32 PTP_EC_CANON_EOS_PropValueChanged).

Definition isTransferIn (c : UsbCall) : bool :=
  match c with
  | Call_transferIn _ _ => true
  | _ => false
  end.

Definition isTransferOut (c : UsbCall) : bool :=
  match c with
  | Call_transferOut _ _ => true
  | _ => false
  end.

(** A device with one PTP interface (number 0, bulk endpoints 1 and 2) that
    accepts every call, answers the [n]-th [transferIn] with the [n]-th
    entry of [ins] and rejects the reads after the last entry; the [n]-th
    [transferOut] is rejected when [n] is listed in [badOuts]. *)
Definition scriptedDevice (ins : list (Result (option DataView)))
  (badOuts : list nat) : Env :=
  mkEnv true (Ok tt)
    (fun _ => Ok tt) (fun _ => false) (fun _ => Ok tt)
    (fun _ => Some (mkUSBInterface 0 (Some 1) (Some 2)))
    (fun _ => Ok tt) (fun _ => true) (fun _ => Ok tt) (fun _ => Ok tt)
    (fun h => nth (List.length (filter isTransferIn h) - 1) ins
                (Throw DOMException))
    (fun h => if existsb (Nat.eqb (List.length (filter isTransferOut h)))
                   badOuts
              then Throw DOMException else Ok tt).

(** A device on which [device.close()] is rejected, and every read too. *)
Definition closeRejecting : Env :=
  mkEnv true (Ok tt)
    (fun _ => Ok tt) (fun _ => false) (fun _ => Ok tt)
    (fun _ => Some (mkUSBInterface 0 (Some 1) (Some 2)))
    (fun _ => Ok tt) (fun _ => true) (fun _ => Ok tt)
    (fun _ => Throw DOMException)
    (fun _ => Throw DOMException) (fun _ => Ok tt).

(** A connected device: endpoints 1 and 2, interface 0, counter at [t]. *)
Definition connected (t : Z) : PtpDevice := mkPtpDevice 1 2 t (Some 0) [].

(** The first OpenSession is refused with "session already open"; the
    CloseSession and the second OpenSession are accepted. *)
Definition conflictDevice : Env :=
  scriptedDevice
    [response PTP_RC_SessionAlreadyOpened; response PTP_RC_OK;
     response PTP_RC_OK] [].

(** The drain finds nothing to drain; the request for 0xD1AC is accepted and
    the first poll after it reports the counter at 1234. *)
Definition pollingCanon : Env :=
  scriptedDevice
    [eventData []; response PTP_RC_OK;
     response PTP_RC_OK;
     eventData (changeRecord PTP_DPC_CANON_EOS_ShutterCounter 1234);
     response PTP_RC_OK] [].


(** Lower-casing of the ASCII letters, an instance of [toLowerCase] for
    the examples. *)
Definition asciiToLowerCase (s : jsstring) : jsstring :=
  map (fun c => if (65 <=? c) && (c <=? 90) then c + 32 else c) s.

(* ------------------------------------------------------------------ *)
(** *** Transfers *)

(** A read that brought nothing: no [data], or a view of zero bytes. *)
Definition emptyRead (r : Result (option DataView)) : Prop :=
  r = Ok None \/ r = Ok (Some []).

(* ------------------------------------------------------------------ *)
(** *** Values *)

(** A change as the decoder can produce it: one of the two watched property
    codes, with a 32-bit value. *)
Definition watchedChange (c : PropValueChange) : Prop :=
  CAPTURED_PROP_CHANGES_has (propCode c) = true
  /\ 0 <= value c < 4294967296.

(** A shutter count as a query can report it: the sentinel -1 or a 32-bit
    value. *)
Definition countOrUnavailable (v : Z) : Prop :=
  v = -1 \/ 0 <= v < 4294967296.

(* ------------------------------------------------------------------ *)
(** *** Command sequences *)

(** The command container [sendCommand code params] puts on the wire when
    the counter stands at [t] before the call. *)
Definition commandAfter (t code : Z) (params : list Z) : list byte :=
  encodePacket (t + 1) PTP_USB_CONTAINER_COMMAND code params.


(** The two commands of the Canon exit sequence, from counter [t]. *)
Definition exitCommands (t : Z) : list (list byte) :=
  [commandAfter t PTP_OC_CANON_EOS_SetRemoteMode [1];
   commandAfter (t + 1) PTP_OC_CANON_EOS_SetEventMode [0]].

(** A Canon camera found with its session still open that never reports a
    counter: every strategy runs to its end. *)
Definition busiestCanon : Env :=
  scriptedDevice
    ([response PTP_RC_SessionAlreadyOpened; response PTP_RC_OK;
      response PTP_RC_OK;
      deviceInfoData PTP_VENDOR_CANON "Canon Inc." "EOS"; response PTP_RC_OK;
      response PTP_RC_OK; response PTP_RC_OK; response PTP_RC_OK;
      response PTP_RC_OK;
      eventData []; response PTP_RC_OK]
     ++ [response PTP_RC_OK;
         eventData []; response PTP_RC_OK; eventData []; response PTP_RC_OK;
         eventData []; response PTP_RC_OK; eventData []; response PTP_RC_OK;
         eventData []; response PTP_RC_OK;
         response 0x200a]
     ++ [response PTP_RC_OK;
         eventData []; response PTP_RC_OK; eventData []; response PTP_RC_OK;
         eventData []; response PTP_RC_OK; eventData []; response PTP_RC_OK;
         eventData []; response PTP_RC_OK;
         response 0x200a]
     ++ [response PTP_RC_OK; response PTP_RC_OK; response PTP_RC_OK]) [].

(* ------------------------------------------------------------------ *)
(** *** The interface *)

Definition isTransfer (c : UsbCall) : bool :=
  isTransferIn c || isTransferOut c.

(** [keeps m]: [m] leaves the claimed interface number alone and makes
    only bulk transfers. *)
Definition keeps {A} (m : M A) : Prop :=
  forall e d,
    interfaceNumber (snd (m e d)) = interfaceNumber d
    /\ exists l,
        calls (snd (m e d)) = calls d ++ l
        /\ Forall (fun c => isTransfer c = true) l.

(* ------------------------------------------------------------------ *)
(** *** Exchanges *)

(** The history once [sendCommand code params] has handed its container to
    [transferOut]. *)
Definition afterCommand (d : PtpDevice) (code : Z) (params : list Z)
  : list UsbCall :=
  calls d ++ [Call_transferOut (outEndpoint d)
                (commandAfter (transactionId d) code params)].

(** The device accepts the command and answers the first read of the data
    phase with [v], a response container. *)
Definition refusedInDataPhase (e : Env) (d : PtpDevice) (code : Z)
  (params : list Z) (v : DataView) : Prop :=
  usb_transferOut e (afterCommand d code params) = Ok tt
  /\ usb_transferIn e (afterCommand d code params
                       ++ [Call_transferIn (inEndpoint d) 1024]) = Ok (Some v)
  /\ PTP_HEADER_SIZE <= byteLength v
  /\ getUint16 v 4 = Ok PTP_USB_CONTAINER_RESPONSE.

(** The reads of the chunk loop of [receiveData] when the chunks [pieces]
    arrive one per read: each asks for the bytes still missing. *)
Fixpoint chunkReads (ep total got : Z) (pieces : list DataView)
  : list UsbCall :=
  match pieces with
  | [] => []
  | p :: ps =>
      Call_transferIn ep (total - got)
      :: chunkReads ep total (got + byteLength p) ps
  end.

(** The device answers these reads, made after the history [h], with the
    [pieces] in order. *)
Fixpoint delivers (e : Env) (h : list UsbCall) (ep total got : Z)
  (pieces : list DataView) : Prop :=
  match pieces with
  | [] => True
  | p :: ps =>
      usb_transferIn e (h ++ [Call_transferIn ep (total - got)]) = Ok (Some p)
      /\ delivers e (h ++ [Call_transferIn ep (total - got)]) ep total
           (got + byteLength p) ps
  end.

(* ------------------------------------------------------------------ *)
(** *** Event streams *)

(** The records of a GetEvent payload as a camera lays them out: a property
    change (size, type 0xC189, property code, value, further bytes) or a
    record of another type. *)
Inductive CanonEvent : Type :=
| PropChanged (propCode value : Z) (extra : list byte)
| OtherEvent (type : Z) (payload : list byte).

Definition encodeEvent (ev : CanonEvent) : list byte :=
  match ev with
  | PropChanged propCode value extra =>
      le32 (16 + byteLength extra) ++ le32 PTP_EC_CANON_EOS_PropValueChanged
      ++ le32 propCode ++ le32 value ++ extra
  | OtherEvent type payload =>
      le32 (8 + byteLength payload) ++ le32 type ++ payload
  end.

(** The fields fit their 32 bits; a record of another type is not the
    end-of-stream record. *)
Definition wellFormedEvent (ev : CanonEvent) : Prop :=
  match ev with
  | PropChanged propCode value extra =>
      0 <= propCode < 4294967296 /\ 0 <= value < 4294967296
      /\ 16 + byteLength extra < 4294967296
  | OtherEvent type payload =>
      0 <= type < 4294967296 /\ type <> PTP_EC_CANON_EOS_PropValueChanged
      /\ 8 + byteLength payload < 4294967296
      /\ (type = 0 -> payload <> [])
  end.

(** The changes of the watched properties among the records, in order. *)
Definition changesOf (evs : list CanonEvent) : list PropValueChange :=
  flat_map (fun ev =>
              match ev with
              | PropChanged propCode value _ =>
                  if CAPTURED_PROP_CHANGES_has propCode
                  then [mkPropValueChange propCode value]
                  else []
              | OtherEvent _ _ => []
              end) evs.

(** What may follow the last record: fewer than 8 bytes, or the
    end-of-stream record (size 8, type 0) and anything after it. *)
Definition endOfEvents (tail : list byte) : Prop :=
  byteLength tail < 8 \/ exists junk, tail = le32 8 ++ le32 0 ++ junk.

(* ------------------------------------------------------------------ *)
(** *** The DeviceInfo dataset *)

(** A PTP string as a device writes it: the empty string is a single zero
    byte, any other string is the number of code units with the terminating
    NUL, the code units, the NUL. *)
Definition encodePtpString (s : jsstring) : list byte :=
  match s with
  | [] => [x00]
  | _ :: _ =>
      byte_of_Z (Z.of_nat (List.length s) + 1)
      :: flat_map le16 s ++ le16 0
  end.

(** A string that this layout can hold: at most 254 code units, none of
    them NUL. *)
Definition ptpText (s : jsstring) : Prop :=
  (List.length s <= 254)%nat /\ Forall (fun c => 0 < c < 65536) s.

(** An array of 16-bit codes: a 32-bit count, then the codes. *)
Definition encodeCodeArray (codes : list Z) : list byte :=
  le32 (Z.of_nat (List.length codes)) ++ flat_map le16 codes.

(** The fields of the DeviceInfo dataset in the order of the wire. *)
Record DeviceInfoDataset : Type := mkDeviceInfoDataset {
  ds_standardVersion : Z;
  ds_vendorExtensionId : Z;
  ds_vendorExtensionVersion : Z;
  ds_vendorExtensionDesc : jsstring;
  ds_functionalMode : Z;
  ds_operationsSupported : list Z;
  ds_eventsSupported : list Z;
  ds_devicePropertiesSupported : list Z;
  ds_captureFormats : list Z;
  ds_imageFormats : list Z;
  ds_manufacturer : jsstring;
  ds_model : jsstring;
  ds_deviceVersion : jsstring;
  ds_serialNumber : jsstring
}.

Definition encodeDeviceInfo (ds : DeviceInfoDataset) : list byte :=
  le16 (ds_standardVersion ds)
  ++ le32 (ds_vendorExtensionId ds)
  ++ le16 (ds_vendorExtensionVersion ds)
  ++ encodePtpString (ds_vendorExtensionDesc ds)
  ++ le16 (ds_functionalMode ds)
  ++ encodeCodeArray (ds_operationsSupported ds)
  ++ encodeCodeArray (ds_eventsSupported ds)
  ++ encodeCodeArray (ds_devicePropertiesSupported ds)
  ++ encodeCodeArray (ds_captureFormats ds)
  ++ encodeCodeArray (ds_imageFormats ds)
  ++ encodePtpString (ds_manufacturer ds)
  ++ encodePtpString (ds_model ds)
  ++ encodePtpString (ds_deviceVersion ds)
  ++ encodePtpString (ds_serialNumber ds).

(** The vendor id and the array counts fit their 32 bits and the strings
    fit the layout. *)
Definition wellFormedDataset (ds : DeviceInfoDataset) : Prop :=
  0 <= ds_vendorExtensionId ds < 4294967296
  /\ ptpText (ds_vendorExtensionDesc ds)
  /\ Forall (fun codes : list Z => Z.of_nat (List.length codes) < 4294967296)
       [ds_operationsSupported ds; ds_eventsSupported ds;
        ds_devicePropertiesSupported ds; ds_captureFormats ds;
        ds_imageFormats ds]
  /\ Forall ptpText
       [ds_manufacturer ds; ds_model ds; ds_deviceVersion ds;
        ds_serialNumber ds].

(** What [parseDeviceInfo] keeps of the dataset. *)
Definition keptFields (ds : DeviceInfoDataset) : DeviceInfo :=
  mkDeviceInfo (ds_vendorExtensionId ds) (ds_manufacturer ds) (ds_model ds)
    (ds_deviceVersion ds) (ds_serialNumber ds).

(** The device accepts the command, answers the first read of the data
    phase with [data] and the read after it with [resp], a container of at
    least 12 bytes. *)
Definition answeredWithData (e : Env) (d : PtpDevice) (code : Z)
  (params : list Z) (data resp : DataView) : Prop :=
  let h := afterCommand d code params ++ [Call_transferIn (inEndpoint d) 1024]
  in
  usb_transferOut e (afterCommand d code params) = Ok tt
  /\ usb_transferIn e h = Ok (Some data)
  /\ usb_transferIn e (h ++ [Call_transferIn (inEndpoint d) 512])
     = Ok (Some resp)
  /\ PTP_HEADER_SIZE <= byteLength resp.

(** The header of a data container: the 12 bytes before the payload. *)
Definition dataHeader (code transactionId : Z) (payload : list byte)
  : list byte :=
  le32 (PTP_HEADER_SIZE + byteLength payload) ++ le16 PTP_USB_CONTAINER_DATA
  ++ le16 code ++ le32 transactionId.

(* ================================================================== *)
(** ** Bytes and words *)

Lemma byteAt_range (view : DataView) (i : Z) : 0 <= byteAt view i < 256.
Proof.
  unfold byteAt.
  pose proof (Byte.to_N_bounded (nth (Z.to_nat i) view x00)). lia.
Qed.

Lemma byte_of_Z_value (z : Z) : Z.of_N (Byte.to_N (byte_of_Z z)) = z mod 256.
Proof.
  unfold byte_of_Z.
  pose proof (Z.mod_pos_bound z 256 ltac:(lia)) as Hb.
  destruct (Byte.of_N (Z.to_N (z mod 256))) as [b|] eqn:E.
  - apply Byte.to_of_N in E. rewrite E. lia.
  - apply Byte.of_N_None_iff in E. lia.
Qed.

Lemma Ok_inj {A} (a b : A) : Ok a = Ok b -> a = b.
Proof. congruence. Qed.

Lemma getUint8_range view offset x :
  getUint8 view offset = Ok x -> 0 <= x < 256.
Proof.
  unfold getUint8. destruct (inRange view offset 1); [|discriminate].
  intros [= <-]. apply byteAt_range.
Qed.

Lemma getUint16_range view offset x :
  getUint16 view offset = Ok x -> 0 <= x < 65536.
Proof.
  unfold getUint16. destruct (inRange view offset 2); [|discriminate].
  intros E%Ok_inj. subst x.
  pose proof (byteAt_range view offset).
  pose proof (byteAt_range view (offset + 1)). lia.
Qed.

Lemma getUint32_range view offset x :
  getUint32 view offset = Ok x -> 0 <= x < 4294967296.
Proof.
  unfold getUint32. destruct (inRange view offset 4); [|discriminate].
  intros E%Ok_inj. subst x.
  pose proof (byteAt_range view offset).
  pose proof (byteAt_range view (offset + 1)).
  pose proof (byteAt_range view (offset + 2)).
  pose proof (byteAt_range view (offset + 3)). lia.
Qed.

Lemma inRange_true view offset size :
  inRange view offset size = true
  <-> 0 <= offset /\ offset + size <= byteLength view.
Proof. unfold inRange. rewrite andb_true_iff, !Z.leb_le. tauto. Qed.

Lemma getUint16_in view offset :
  0 <= offset -> offset + 2 <= byteLength view ->
  getUint16 view offset
  = Ok (byteAt view offset + 256 * byteAt view (offset + 1)).
Proof.
  intros H1 H2. unfold getUint16.
  replace (inRange view offset 2) with true; [reflexivity|].
  symmetry. apply inRange_true. lia.
Qed.

Lemma getUint32_in view offset :
  0 <= offset -> offset + 4 <= byteLength view ->
  exists x, getUint32 view offset = Ok x.
Proof.
  intros H1 H2. unfold getUint32.
  replace (inRange view offset 4) with true; [eauto|].
  symmetry. apply inRange_true. lia.
Qed.

Lemma byteLength_nonneg (view : DataView) : 0 <= byteLength view.
Proof. unfold byteLength. lia. Qed.

(* ================================================================== *)
(** ** PTP strings *)

Lemma parsePtpString_loop_spec view offset :
  0 <= offset ->
  forall n i str,
    0 <= i ->
    parsePtpString_loop view offset n i str
    = Ok (str ++ filter nonNul
                   (codeUnits view offset i
                      (Nat.min n (unitsThatFit view offset i)))).
Proof.
  intros Hoff. induction n as [|n IH]; intros i str Hi; simpl.
  - now rewrite app_nil_r.
  - unfold unitsThatFit in *.
    pose proof (Z.div_mod (byteLength view - offset - 1) 2 ltac:(lia)) as Hdm.
    pose proof (Z.mod_pos_bound (byteLength view - offset - 1) 2 ltac:(lia)).
    destruct (offset + 1 + i * 2 + 2 >? byteLength view) eqn:E.
    + apply Z.gtb_lt in E.
      replace (Z.to_nat ((byteLength view - offset - 1) / 2 - i)) with O by lia.
      simpl. now rewrite app_nil_r.
    + assert (Hle : offset + 1 + i * 2 + 2 <= byteLength view).
      { destruct (Z.gtb_spec (offset + 1 + i * 2 + 2) (byteLength view));
          [discriminate | lia]. }
      rewrite getUint16_in by lia. cbn [rbind].
      rewrite IH by lia.
      fold (codeUnitAt view offset i).
      destruct (Z.to_nat ((byteLength view - offset - 1) / 2 - i)) as [|k] eqn:Ek;
        [lia|].
      replace (Z.to_nat ((byteLength view - offset - 1) / 2 - (i + 1)))
        with k by lia.
      cbn [Nat.min codeUnits filter]. unfold nonNul at 2.
      destruct (codeUnitAt view offset i =? 0); cbn [negb].
      * reflexivity.
      * now rewrite <- app_assoc.
Qed.

Lemma parsePtpString_past_end view offset :
  byteLength view <= offset ->
  parsePtpString view offset = Ok (mkPtpString [] offset).
Proof.
  intros H. unfold parsePtpString.
  destruct (Z.geb_spec offset (byteLength view)); [reflexivity | lia].
Qed.

(** Inside the view the decoder reads the count byte and returns the
    non-NUL code units among those that fit. *)
Lemma parsePtpString_inside view offset :
  0 <= offset < byteLength view ->
  parsePtpString view offset
  = Ok (mkPtpString
          (filter nonNul
             (codeUnits view offset 0
                (Nat.min (Z.to_nat (byteAt view offset))
                   (unitsThatFit view offset 0))))
          (offset + 1 + byteAt view offset * 2)).
Proof.
  intros H. unfold parsePtpString.
  destruct (Z.geb_spec offset (byteLength view)); [lia|].
  unfold getUint8.
  replace (inRange view offset 1) with true
    by (symmetry; apply inRange_true; lia).
  simpl. destruct (Z.eqb_spec (byteAt view offset) 0) as [E|E].
  - rewrite E. cbn [Z.to_nat Nat.min codeUnits filter].
    now replace (offset + 1 + 0 * 2) with (offset + 1) by lia.
  - cbn [rbind]. rewrite parsePtpString_loop_spec by lia. reflexivity.
Qed.

Lemma parsePtpString_total view offset :
  0 <= offset ->
  exists r, parsePtpString view offset = Ok r /\ offset <= newOffset r.
Proof.
  intros H. destruct (Z_lt_le_dec offset (byteLength view)).
  - rewrite parsePtpString_inside by lia. eexists; split; [reflexivity|].
    simpl. pose proof (byteAt_range view offset). lia.
  - rewrite parsePtpString_past_end by lia. eexists; split; [reflexivity|].
    simpl. lia.
Qed.

Lemma byteLength_app (a b : DataView) :
  byteLength (a ++ b) = byteLength a + byteLength b.
Proof. unfold byteLength. rewrite length_app. lia. Qed.

Lemma byteAt_app_l (view ext : DataView) (i : Z) :
  0 <= i < byteLength view -> byteAt (view ++ ext) i = byteAt view i.
Proof.
  intros H. unfold byteAt, byteLength in *. rewrite app_nth1 by lia.
  reflexivity.
Qed.

Lemma codeUnits_app view offset (k1 k2 : nat) :
  forall i,
    codeUnits view offset i (k1 + k2)
    = codeUnits view offset i k1
      ++ codeUnits view offset (i + Z.of_nat k1) k2.
Proof.
  induction k1 as [|k1 IH]; intros i; cbn [Nat.add codeUnits app].
  - now replace (i + Z.of_nat 0) with i by lia.
  - rewrite IH. now replace (i + 1 + Z.of_nat k1) with (i + Z.of_nat (S k1)) by lia.
Qed.

(** Code units that lie inside [view] are not changed by bytes that follow
    it. *)
Lemma codeUnits_app_l view ext offset :
  0 <= offset ->
  forall (k : nat) i,
    0 <= i ->
    (k <= unitsThatFit view offset i)%nat ->
    codeUnits (view ++ ext) offset i k = codeUnits view offset i k.
Proof.
  intros Hoff. induction k as [|k IH]; intros i Hi Hk; cbn [codeUnits].
  - reflexivity.
  - unfold unitsThatFit in *.
    pose proof (Z.div_mod (byteLength view - offset - 1) 2 ltac:(lia)).
    pose proof (Z.mod_pos_bound (byteLength view - offset - 1) 2 ltac:(lia)).
    rewrite IH by lia. unfold codeUnitAt.
    rewrite !byteAt_app_l by lia. reflexivity.
Qed.

(** What a truncated buffer gives is a prefix of what the longer buffer
    gives, and the offset moves alike. *)
Lemma parsePtpString_truncated_prefix view ext offset r r' :
  0 <= offset < byteLength view ->
  parsePtpString view offset = Ok r ->
  parsePtpString (view ++ ext) offset = Ok r' ->
  newOffset r' = newOffset r /\ exists rest, text r' = text r ++ rest.
Proof.
  intros H E E'.
  pose proof (byteLength_nonneg ext) as Hext.
  rewrite parsePtpString_inside in E by lia.
  rewrite parsePtpString_inside in E' by (rewrite byteLength_app; lia).
  rewrite byteAt_app_l in E' by lia.
  apply Ok_inj in E, E'. subst r r'. cbn [text newOffset].
  split; [reflexivity|].
  set (n := Z.to_nat (byteAt view offset)).
  assert (Hfit : (unitsThatFit view offset 0
                  <= unitsThatFit (view ++ ext) offset 0)%nat).
  { unfold unitsThatFit. rewrite byteLength_app.
    pose proof (Z.div_le_mono (byteLength view - offset - 1)
                  (byteLength view + byteLength ext - offset - 1) 2
                  ltac:(lia) ltac:(lia)).
    lia. }
  set (k1 := Nat.min n (unitsThatFit view offset 0)).
  set (k2 := Nat.min n (unitsThatFit (view ++ ext) offset 0)).
  replace k2 with (k1 + (k2 - k1))%nat by (subst k1 k2; lia).
  rewrite codeUnits_app, filter_app.
  rewrite (codeUnits_app_l view ext offset) by (subst k1; lia).
  eexists. reflexivity.
Qed.

(** C7.  [parsePtpString] decodes a count-prefixed little-endian UTF-16
    string.  At every non-negative offset it returns a result and never
    throws.  A count byte of zero gives the empty string and moves the offset
    by exactly 1.  The buffer [04 'A' 00 'B' 00 'C' 00 00 00] gives "ABC"
    and moves the offset by 9.  When the buffer ends inside the string, the
    text is made of the (non-NUL) code units that still fit entirely and the
    offset still moves past the declared count: the text is a prefix of what
    any longer buffer with the same beginning gives. *)
Theorem parsePtpString_decodes (view : DataView) (offset : Z) :
  0 <= offset ->
  (exists r, parsePtpString view offset = Ok r)
  /\ (getUint8 view offset = Ok 0 ->
      parsePtpString view offset = Ok (mkPtpString [] (offset + 1)))
  /\ parsePtpString [x04; x41; x00; x42; x00; x43; x00; x00; x00] 0
     = Ok (mkPtpString (js "ABC") 9)
  /\ (offset < byteLength view ->
      parsePtpString view offset
      = Ok (mkPtpString
              (filter nonNul
                 (codeUnits view offset 0
                    (Nat.min (Z.to_nat (byteAt view offset))
                       (unitsThatFit view offset 0))))
              (offset + 1 + byteAt view offset * 2))
      /\ forall ext r r',
          parsePtpString view offset = Ok r ->
          parsePtpString (view ++ ext) offset = Ok r' ->
          newOffset r' = newOffset r
          /\ exists rest, text r' = text r ++ rest).
Proof.
  intros H. repeat split.
  - destruct (parsePtpString_total view offset H) as [r [Hr _]]. eauto.
  - unfold parsePtpString, getUint8.
    destruct (inRange view offset 1) eqn:E; [|discriminate].
    apply inRange_true in E. intros E0%Ok_inj.
    destruct (Z.geb_spec offset (byteLength view)); [lia|].
    cbn [rbind]. rewrite E0. reflexivity.
  - apply parsePtpString_inside. lia.
  - eapply parsePtpString_truncated_prefix; eauto.
  - eapply parsePtpString_truncated_prefix; eauto.
Qed.

(** A buffer that ends in the middle of "ABC": only 'A' fits. *)
Lemma parsePtpString_decodes_witness :
  (exists r, parsePtpString [x04; x41; x00; x42] 0 = Ok r)
  /\ parsePtpString [x00; x41] 0 = Ok (mkPtpString [] 1)
  /\ parsePtpString [x04; x41; x00; x42] 0 = Ok (mkPtpString (js "A") 9)
  /\ (exists rest, js "ABC" = js "A" ++ rest).
Proof.
  split; [|split; [|split]].
  - apply (parsePtpString_decodes [x04; x41; x00; x42] 0). lia.
  - apply (parsePtpString_decodes [x00; x41] 0); [lia | reflexivity].
  - pose proof (proj2 (proj2 (proj2
                  (parsePtpString_decodes [x04; x41; x00; x42] 0 ltac:(lia))))
                  eq_refl) as H.
    exact (proj1 H).
  - pose proof (proj2 (proj2 (proj2
                  (parsePtpString_decodes [x04; x41; x00; x42] 0 ltac:(lia))))
                  eq_refl) as H.
    exact (proj2 (proj2 H [x00; x43; x00; x00; x00]
                    (mkPtpString (js "A") 9) (mkPtpString (js "ABC") 9)
                    eq_refl eq_refl)).
Defined.

Lemma parsePtpString_newOffset view offset r :
  0 <= offset -> parsePtpString view offset = Ok r -> offset <= newOffset r.
Proof.
  intros H E. destruct (parsePtpString_total view offset H) as [r' [E' Hle]].
  congruence.
Qed.

(* ================================================================== *)
(** ** Device info *)

(** C8, as stated, fails: on a payload that ends before the count of the
    second array the parse throws instead of returning truncated strings. *)
Lemma parseDeviceInfo_short_payload_throws :
  byteLength shortDeviceInfo = 27
  /\ parseDeviceInfo shortDeviceInfo = Throw RangeError
  /\ fst (getDeviceInfo
            (scriptedDevice [Ok (Some shortDeviceInfo); response PTP_RC_OK] [])
            (connected 0))
     = Throw RangeError.
Proof. repeat split; vm_compute; reflexivity. Qed.

Lemma getUint16_throw view offset err :
  getUint16 view offset = Throw err ->
  err = RangeError /\ ~ (0 <= offset /\ offset + 2 <= byteLength view).
Proof.
  unfold getUint16. destruct (inRange view offset 2) eqn:E; [discriminate|].
  intros H. split; [congruence|]. intros Hin.
  apply inRange_true in Hin. congruence.
Qed.

Lemma getUint32_throw view offset err :
  getUint32 view offset = Throw err ->
  err = RangeError /\ ~ (0 <= offset /\ offset + 4 <= byteLength view).
Proof.
  unfold getUint32. destruct (inRange view offset 4) eqn:E; [discriminate|].
  intros H. split; [congruence|]. intros Hin.
  apply inRange_true in Hin. congruence.
Qed.

Lemma getUint16_ok view offset x :
  getUint16 view offset = Ok x ->
  0 <= offset /\ offset + 2 <= byteLength view.
Proof.
  unfold getUint16. destruct (inRange view offset 2) eqn:E; [|discriminate].
  intros _. now apply inRange_true.
Qed.

Lemma getUint32_ok view offset x :
  getUint32 view offset = Ok x ->
  0 <= offset /\ offset + 4 <= byteLength view.
Proof.
  unfold getUint32. destruct (inRange view offset 4) eqn:E; [|discriminate].
  intros _. now apply inRange_true.
Qed.

(** When the fixed-width reads succeed, so does the parse. *)
Lemma parseDeviceInfo_fields view sv vid vv desc fm opsLen eventsLen propsLen
  capsLen imgsLen :
  fixedFields view sv vid vv desc fm opsLen eventsLen propsLen capsLen
    imgsLen ->
  exists m mo v s : PtpString,
    parsePtpString view
      (skipArray
         (skipArray
            (skipArray
               (skipArray (skipArray (newOffset desc + 2) opsLen) eventsLen)
               propsLen) capsLen) imgsLen)
    = Ok m
    /\ parsePtpString view (newOffset m) = Ok mo
    /\ parsePtpString view (newOffset mo) = Ok v
    /\ parsePtpString view (newOffset v) = Ok s
    /\ parseDeviceInfo view
       = Ok (mkDeviceInfo vid (text m) (text mo) (text v) (text s)).
Proof.
  intros (Hsv & Hvid & Hvv & Hdesc & Hfm & Hops & Hev & Hpr & Hca & Him).
  pose proof (parsePtpString_newOffset view 20 desc ltac:(lia) Hdesc) as Hd.
  apply getUint32_range in Hops as Ro, Hev as Re, Hpr as Rp, Hca as Rc,
    Him as Ri.
  unfold skipArray in *.
  set (o6 := newOffset desc + 2 + 4 + opsLen * 2 + 4 + eventsLen * 2 + 4
             + propsLen * 2 + 4 + capsLen * 2 + 4 + imgsLen * 2) in *.
  assert (H6 : 0 <= o6) by (subst o6; lia).
  destruct (parsePtpString_total view o6 H6) as [m [Em Hm]].
  destruct (parsePtpString_total view (newOffset m) ltac:(lia))
    as [mo [Emo Hmo]].
  destruct (parsePtpString_total view (newOffset mo) ltac:(lia))
    as [v [Ev Hv]].
  destruct (parsePtpString_total view (newOffset v) ltac:(lia)) as [s [Es Hs]].
  exists m, mo, v, s. repeat (split; [assumption|]).
  unfold parseDeviceInfo, PTP_HEADER_SIZE. cbv zeta.
  change (12 + 2) with 14. change (14 + 4) with 18. change (18 + 2) with 20.
  rewrite Hsv. cbn [rbind]. rewrite Hvid. cbn [rbind].
  rewrite Hvv. cbn [rbind]. rewrite Hdesc. cbn [rbind].
  rewrite Hfm. cbn [rbind]. rewrite Hops. cbn [rbind].
  rewrite Hev. cbn [rbind]. rewrite Hpr. cbn [rbind].
  rewrite Hca. cbn [rbind]. rewrite Him. cbn [rbind].
  fold o6. rewrite Em. cbn [rbind]. rewrite Emo. cbn [rbind].
  rewrite Ev. cbn [rbind]. rewrite Es. reflexivity.
Qed.

(** When one of them does not, the parse throws RangeError. *)
Lemma parseDeviceInfo_field_missing view :
  ~ (exists sv vid vv desc fm opsLen eventsLen propsLen capsLen imgsLen,
        fixedFields view sv vid vv desc fm opsLen eventsLen propsLen capsLen
          imgsLen) ->
  parseDeviceInfo view = Throw RangeError.
Proof.
  intros Hno. unfold parseDeviceInfo, PTP_HEADER_SIZE. cbv zeta.
  change (12 + 2) with 14. change (14 + 4) with 18. change (18 + 2) with 20.
  destruct (getUint16 view 12) as [sv|err] eqn:E1; cbn [rbind];
    [|apply getUint16_throw in E1; now destruct E1 as [-> _]].
  destruct (getUint32 view 14) as [vid|err] eqn:E2; cbn [rbind];
    [|apply getUint32_throw in E2; now destruct E2 as [-> _]].
  destruct (getUint16 view 18) as [vv|err] eqn:E3; cbn [rbind];
    [|apply getUint16_throw in E3; now destruct E3 as [-> _]].
  destruct (parsePtpString_total view 20 ltac:(lia)) as [desc [E4 _]].
  rewrite E4. cbn [rbind].
  destruct (getUint16 view (newOffset desc)) as [fm|err] eqn:E5; cbn [rbind];
    [|apply getUint16_throw in E5; now destruct E5 as [-> _]].
  destruct (getUint32 view (newOffset desc + 2)) as [opsLen|err] eqn:E6;
    cbn [rbind]; [|apply getUint32_throw in E6; now destruct E6 as [-> _]].
  destruct (getUint32 view (newOffset desc + 2 + 4 + opsLen * 2))
    as [eventsLen|err] eqn:E7;
    cbn [rbind]; [|apply getUint32_throw in E7; now destruct E7 as [-> _]].
  destruct (getUint32 view
              (newOffset desc + 2 + 4 + opsLen * 2 + 4 + eventsLen * 2))
    as [propsLen|err] eqn:E8;
    cbn [rbind]; [|apply getUint32_throw in E8; now destruct E8 as [-> _]].
  destruct (getUint32 view
              (newOffset desc + 2 + 4 + opsLen * 2 + 4 + eventsLen * 2 + 4
               + propsLen * 2))
    as [capsLen|err] eqn:E9;
    cbn [rbind]; [|apply getUint32_throw in E9; now destruct E9 as [-> _]].
  destruct (getUint32 view
              (newOffset desc + 2 + 4 + opsLen * 2 + 4 + eventsLen * 2 + 4
               + propsLen * 2 + 4 + capsLen * 2))
    as [imgsLen|err] eqn:E10;
    cbn [rbind]; [|apply getUint32_throw in E10; now destruct E10 as [-> _]].
  exfalso. apply Hno.
  exists sv, vid, vv, desc, fm, opsLen, eventsLen, propsLen, capsLen, imgsLen.
  unfold fixedFields, skipArray. repeat split; assumption.
Qed.

(** C8 (amended).  After the 12-byte header the parser reads, in this order,
    the standard version (u16), the vendor extension id (u32), the vendor
    extension version (u16), the vendor extension description (PTP string),
    the functional mode (u16) and five arrays, each a u32 count followed by
    count*2 bytes that are skipped, and then the four strings manufacturer,
    model, device version and serial number.  Whenever those fixed-width
    reads lie inside the buffer the parse succeeds with exactly these
    strings and the vendor extension id that was read.  A string whose
    offset is at or past the end of the buffer is empty; a string that
    starts inside the buffer is made of the non-NUL code units, among those
    its count byte declares, that lie entirely inside the buffer.  When the
    fixed-width reads do not all succeed, and a read fails exactly when its
    bytes do not all lie inside the buffer, the parse throws RangeError. *)
Theorem parseDeviceInfo_layout (view : DataView) :
  (forall sv vid vv desc fm opsLen eventsLen propsLen capsLen imgsLen,
      fixedFields view sv vid vv desc fm opsLen eventsLen propsLen capsLen
        imgsLen ->
      exists m mo v s : PtpString,
        parsePtpString view
          (skipArray
             (skipArray
                (skipArray
                   (skipArray (skipArray (newOffset desc + 2) opsLen)
                      eventsLen) propsLen) capsLen) imgsLen)
        = Ok m
        /\ parsePtpString view (newOffset m) = Ok mo
        /\ parsePtpString view (newOffset mo) = Ok v
        /\ parsePtpString view (newOffset v) = Ok s
        /\ parseDeviceInfo view
           = Ok (mkDeviceInfo vid (text m) (text mo) (text v) (text s)))
  /\ (forall o, byteLength view <= o ->
                parsePtpString view o = Ok (mkPtpString [] o))
  /\ (forall o,
         0 <= o < byteLength view ->
         parsePtpString view o
         = Ok (mkPtpString
                 (filter nonNul
                    (codeUnits view o 0
                       (Nat.min (Z.to_nat (byteAt view o))
                          (unitsThatFit view o 0))))
                 (o + 1 + byteAt view o * 2)))
  /\ (~ (exists sv vid vv desc fm opsLen eventsLen propsLen capsLen imgsLen,
            fixedFields view sv vid vv desc fm opsLen eventsLen propsLen
              capsLen imgsLen) ->
      parseDeviceInfo view = Throw RangeError)
  /\ (forall o,
         (0 <= o /\ o + 2 <= byteLength view ->
          exists x, getUint16 view o = Ok x)
         /\ (~ (0 <= o /\ o + 2 <= byteLength view) ->
             getUint16 view o = Throw RangeError)
         /\ (0 <= o /\ o + 4 <= byteLength view ->
             exists x, getUint32 view o = Ok x)
         /\ (~ (0 <= o /\ o + 4 <= byteLength view) ->
             getUint32 view o = Throw RangeError)).
Proof.
  split; [intros; eapply parseDeviceInfo_fields; eassumption|].
  split; [intros o Ho; now apply parsePtpString_past_end|].
  split; [intros o Ho; now apply parsePtpString_inside|].
  split; [apply parseDeviceInfo_field_missing|].
  intros o. repeat split.
  - intros [H1 H2]. rewrite getUint16_in by assumption. eauto.
  - intros H. destruct (getUint16 view o) as [x|err] eqn:E.
    + apply getUint16_ok in E. contradiction.
    + apply getUint16_throw in E. now destruct E as [-> _].
  - intros [H1 H2]. now apply getUint32_in.
  - intros H. destruct (getUint32 view o) as [x|err] eqn:E.
    + apply getUint32_ok in E. contradiction.
    + apply getUint32_throw in E. now destruct E as [-> _].
Qed.

(** The sample payload parses; a string past its end is empty; a string cut
    by the end of the buffer keeps the code units that fit; the 27-byte
    payload, which ends where the count of the second array should be,
    makes the parse throw. *)
Lemma parseDeviceInfo_layout_witness :
  (exists m mo v s : PtpString,
      parsePtpString sampleDeviceInfo 43 = Ok m
      /\ parsePtpString sampleDeviceInfo (newOffset m) = Ok mo
      /\ parsePtpString sampleDeviceInfo (newOffset mo) = Ok v
      /\ parsePtpString sampleDeviceInfo (newOffset v) = Ok s
      /\ parseDeviceInfo sampleDeviceInfo
         = Ok (mkDeviceInfo PTP_VENDOR_CANON (text m) (text mo) (text v)
                 (text s)))
  /\ parsePtpString sampleDeviceInfo 100 = Ok (mkPtpString [] 100)
  /\ parsePtpString [x04; x41; x00; x42] 0 = Ok (mkPtpString (js "A") 9)
  /\ parseDeviceInfo shortDeviceInfo = Throw RangeError
  /\ getUint32 shortDeviceInfo 27 = Throw RangeError.
Proof.
  split; [|split; [|split; [|split]]].
  - apply (proj1 (parseDeviceInfo_layout sampleDeviceInfo)
             100 PTP_VENDOR_CANON 100 (mkPtpString [] 21) 0 0 0 0 0 0).
    repeat split; reflexivity.
  - apply (proj1 (proj2 (parseDeviceInfo_layout sampleDeviceInfo)) 100).
    vm_compute. congruence.
  - apply (proj1 (proj2 (proj2
             (parseDeviceInfo_layout [x04; x41; x00; x42]))) 0).
    vm_compute. split; [congruence | reflexivity].
  - apply (proj1 (proj2 (proj2 (proj2
             (parseDeviceInfo_layout shortDeviceInfo))))).
    intros (sv & vid & vv & desc & fm & opsLen & eventsLen & propsLen
            & capsLen & imgsLen & H).
    destruct H as (_ & _ & _ & Hd & _ & Ho & He & _).
    vm_compute in Hd. apply Ok_inj in Hd. subst desc.
    cbn [newOffset] in Ho, He.
    vm_compute in Ho. apply Ok_inj in Ho. subst opsLen.
    vm_compute in He. discriminate He.
  - apply (proj2 (proj2 (proj2
             (proj2 (proj2 (proj2 (proj2
                (parseDeviceInfo_layout shortDeviceInfo)))) 27)))).
    vm_compute. intros [_ H]. now apply H.
Defined.

Example parseDeviceInfo_sample :
  parseDeviceInfo sampleDeviceInfo
  = Ok (mkDeviceInfo PTP_VENDOR_CANON (js "C") (js "M") (js "V") (js "S")).
Proof. reflexivity. Qed.

(* ================================================================== *)
(** ** Canon event records *)

(** One more pass than [byteLength - offset] changes nothing: the loop of
    [parseCanonPropChanges] has left before its fuel is used up. *)
Lemma parseCanonPropChanges_loop_fuel dataView :
  forall fuel fuel' offset changes,
    byteLength dataView - offset <= Z.of_nat fuel ->
    byteLength dataView - offset <= Z.of_nat fuel' ->
    parseCanonPropChanges_loop fuel dataView offset changes
    = parseCanonPropChanges_loop fuel' dataView offset changes.
Proof.
  induction fuel as [|fuel IH]; intros fuel' offset changes H H'.
  - destruct fuel' as [|fuel']; [reflexivity|]. cbn [parseCanonPropChanges_loop].
    destruct (Z.leb_spec (offset + 8) (byteLength dataView)); [lia | reflexivity].
  - destruct fuel' as [|fuel'].
    + cbn [parseCanonPropChanges_loop].
      destruct (Z.leb_spec (offset + 8) (byteLength dataView)); [lia | reflexivity].
    + cbn [parseCanonPropChanges_loop].
      destruct (offset + 8 <=? byteLength dataView); [|reflexivity].
      destruct (getUint32 dataView offset) as [size|]; [|reflexivity].
      cbn [rbind].
      destruct (getUint32 dataView (offset + 4)) as [type|]; [|reflexivity].
      cbn [rbind].
      destruct (Z.ltb_spec size 8); [reflexivity|].
      destruct ((size =? 8) && (type =? 0)); [reflexivity|].
      destruct (offset + size >? byteLength dataView); [reflexivity|].
      match goal with
      | |- rbind ?r _ = rbind ?r _ => destruct r; [|reflexivity]
      end.
      cbn [rbind]. apply IH; lia.
Qed.

Lemma getUint32_wordAt view offset x :
  getUint32 view offset = Ok x -> x = wordAt view offset.
Proof.
  unfold getUint32, wordAt. destruct (inRange view offset 4); [|discriminate].
  intros E%Ok_inj. now subst x.
Qed.

(** Whenever the decoder returns, it returns what the specification
    describes. *)
Lemma parseCanonPropChanges_loop_decodes view :
  forall fuel offset changes l,
    0 <= offset ->
    parseCanonPropChanges_loop fuel view offset changes = Ok l ->
    l = changes ++ decodeEvents fuel view offset.
Proof.
  induction fuel as [|fuel IH]; intros offset changes l Hoff H;
    cbn [parseCanonPropChanges_loop decodeEvents] in *.
  - apply Ok_inj in H. subst l. now rewrite app_nil_r.
  - cbv zeta. destruct (Z.leb_spec (offset + 8) (byteLength view)) as [Hin|Hout].
    2:{ apply Ok_inj in H. subst l.
        destruct (Z.ltb_spec (byteLength view) (offset + 8)); [|lia].
        cbn [orb]. now rewrite app_nil_r. }
    destruct (Z.ltb_spec (byteLength view) (offset + 8)); [lia|]. cbn [orb].
    destruct (getUint32 view offset) as [size|] eqn:Es; [|discriminate].
    destruct (getUint32 view (offset + 4)) as [type|] eqn:Et; [|discriminate].
    cbn [rbind] in H.
    pose proof (getUint32_range _ _ _ Es) as Rs.
    apply getUint32_wordAt in Es, Et. rewrite <- Es, <- Et.
    destruct (size <? 8); [apply Ok_inj in H; subst l; cbn [orb];
                           now rewrite app_nil_r|].
    destruct ((size =? 8) && (type =? 0));
      [apply Ok_inj in H; subst l; cbn [orb]; now rewrite app_nil_r|].
    cbn [orb].
    destruct (Z.gtb_spec (offset + size) (byteLength view)) as [Hover|Hfit].
    { apply Ok_inj in H. subst l.
      destruct (Z.ltb_spec (byteLength view) (offset + size)); [|lia].
      now rewrite app_nil_r. }
    destruct (Z.ltb_spec (byteLength view) (offset + size)); [lia|].
    destruct (type =? PTP_EC_CANON_EOS_PropValueChanged); cbn [andb].
    + destruct (getUint32 view (offset + 8)) as [pc|] eqn:Ep; [|discriminate].
      cbn [rbind] in H. apply getUint32_wordAt in Ep. rewrite <- Ep.
      destruct (CAPTURED_PROP_CHANGES_has pc); cbn [andb].
      * destruct (Z.geb_spec size 16) as [Hs|Hs].
        -- destruct (Z.leb_spec 16 size); [|lia].
           unfold PTP_HEADER_SIZE in H.
           destruct (getUint32 view (offset + 12)) as [v|] eqn:Ev;
             [|discriminate].
           cbn [rbind] in H. apply getUint32_wordAt in Ev. rewrite <- Ev.
           apply IH in H; [|lia]. now rewrite H, <- app_assoc.
        -- destruct (Z.leb_spec 16 size); [lia|].
           cbn [rbind] in H. apply IH in H; [|lia]. exact H.
      * cbn [rbind] in H. apply IH in H; [|lia]. exact H.
    + cbn [rbind] in H. apply IH in H; [|lia]. exact H.
Qed.

Lemma parseCanonPropChanges_decodes view l :
  parseCanonPropChanges view = Ok l ->
  l = decodeEvents (List.length view) view PTP_HEADER_SIZE.
Proof.
  unfold parseCanonPropChanges. intros H.
  apply parseCanonPropChanges_loop_decodes in H; [exact H|].
  unfold PTP_HEADER_SIZE. lia.
Qed.

(** C5.  On [shortRecordPayload] the decoder does not skip the short
    PropValueChanged record: it reads the property code at offset 8 of the
    record before looking at the size, which is past the end of the buffer,
    so the whole decoding throws and the earlier ShutterCounter change is
    lost: [getCanonPropChanges] reports no event at all.  The decoding that
    the specification describes gives that change, and so does the decoder
    on the payload without the short record. *)
Theorem parseCanonPropChanges_short_record_throws :
  byteLength shortRecordPayload = 36
  /\ parseCanonPropChanges shortRecordPayload = Throw RangeError
  /\ decodeEvents 36 shortRecordPayload PTP_HEADER_SIZE
     = [mkPropValueChange PTP_DPC_CANON_EOS_ShutterCounter 1234]
  /\ parseCanonPropChanges
       (dataContainer PTP_OC_CANON_EOS_GetEvent 5
          (changeRecord PTP_DPC_CANON_EOS_ShutterCounter 1234))
     = Ok [mkPropValueChange PTP_DPC_CANON_EOS_ShutterCounter 1234]
  /\ fst (getCanonPropChanges
            (scriptedDevice [Ok (Some shortRecordPayload); response PTP_RC_OK]
               [])
            (connected 1))
     = Ok [].
Proof. repeat split; vm_compute; reflexivity. Qed.

(** Decoding stops at the sentinel (size 8, type 0); an unwatched property
    code of the same shape is ignored. *)
Example parseCanonPropChanges_sentinel :
  parseCanonPropChanges
    (dataContainer PTP_OC_CANON_EOS_GetEvent 5
       (changeRecord 0xd101 7
        ++ changeRecord PTP_DPC_CANON_EOS_ShutterReleaseCounter 4321
        ++ le32 8 ++ le32 0
        ++ changeRecord PTP_DPC_CANON_EOS_ShutterCounter 99))
  = Ok [mkPropValueChange PTP_DPC_CANON_EOS_ShutterReleaseCounter 4321].
Proof. vm_compute. reflexivity. Qed.

(* ================================================================== *)
(** ** Commands on the wire *)

Lemma le_bytes_mod (z : Z) :
  z mod 256 + 256 * ((z / 256) mod 256) + 65536 * ((z / 65536) mod 256)
  + 16777216 * ((z / 16777216) mod 256)
  = z mod 4294967296.
Proof.
  change 4294967296 with (256 * (256 * (256 * 256))).
  rewrite (Z.rem_mul_r z 256 (256 * (256 * 256))) by lia.
  rewrite (Z.rem_mul_r (z / 256) 256 (256 * 256)) by lia.
  rewrite (Z.rem_mul_r (z / 256 / 256) 256 256) by lia.
  rewrite !Z.div_div by lia.
  change (256 * 256) with 65536. change (65536 * 256) with 16777216. lia.
Qed.

Lemma hdr_tid_encodePacket t type code params :
  hdr_tid (encodePacket t type code params) = t mod 4294967296.
Proof.
  unfold hdr_tid, byteAt.
  change (Z.to_nat 8) with 8%nat. change (Z.to_nat 9) with 9%nat.
  change (Z.to_nat 10) with 10%nat. change (Z.to_nat 11) with 11%nat.
  unfold encodePacket, le32, le16. cbn [app nth].
  rewrite !byte_of_Z_value. apply le_bytes_mod.
Qed.

Lemma hdr_code_encodePacket t type code params :
  hdr_code (encodePacket t type code params) = code mod 65536.
Proof.
  unfold hdr_code, byteAt.
  change (Z.to_nat 6) with 6%nat. change (Z.to_nat 7) with 7%nat.
  unfold encodePacket, le32, le16. cbn [app nth].
  rewrite !byte_of_Z_value.
  change 65536 with (256 * 256). rewrite Z.rem_mul_r by lia. lia.
Qed.

Lemma outs_app l1 l2 : outs (l1 ++ l2) = outs l1 ++ outs l2.
Proof. unfold outs. apply flat_map_app. Qed.

Lemma consec_app t a b :
  consec t (a ++ b) <-> consec t a /\ consec (t + Z.of_nat (List.length a)) b.
Proof.
  revert t. induction a as [|x a IH]; intros t; cbn [app consec List.length].
  - replace (t + Z.of_nat 0) with t by lia. tauto.
  - rewrite IH.
    replace (t + 1 + Z.of_nat (List.length a))
      with (t + Z.of_nat (S (List.length a))) by lia.
    tauto.
Qed.

Lemma sends_silent {A} (m : M A) P :
  (forall e d, calls (snd (m e d)) = calls d
               /\ transactionId (snd (m e d)) = transactionId d) ->
  sends P 0 m.
Proof.
  intros H e d. destruct (H e d) as [Hc Ht]. exists [].
  rewrite app_nil_r. cbn. repeat split; auto; lia.
Qed.

Lemma sends_ret {A} (a : A) P : sends P 0 (ret a).
Proof. apply sends_silent. intros; split; reflexivity. Qed.

Lemma sends_throw {A} err P : sends P 0 (@throw A err).
Proof. apply sends_silent. intros; split; reflexivity. Qed.

Lemma sends_lift {A} (r : Result A) P : sends P 0 (lift r).
Proof. apply sends_silent. intros; split; reflexivity. Qed.

Lemma sends_usb_read {A} (attr : Env -> list UsbCall -> A) P :
  sends P 0 (usb_read attr).
Proof. apply sends_silent. intros; split; reflexivity. Qed.

Lemma sends_get_interfaceNumber P : sends P 0 get_interfaceNumber.
Proof. apply sends_silent. intros; split; reflexivity. Qed.

Lemma sends_set_interfaceNumber n P : sends P 0 (set_interfaceNumber n).
Proof. apply sends_silent. intros; split; reflexivity. Qed.

Lemma sends_set_endpoints i o P : sends P 0 (set_endpoints i o).
Proof. apply sends_silent. intros; split; reflexivity. Qed.

Lemma sends_weaken {A} (m : M A) (P Q : Z -> Prop) (n k : nat) :
  sends P n m -> (n <= k)%nat -> (forall c, P c -> Q c) -> sends Q k m.
Proof.
  intros H Hn HPQ e d. destruct (H e d) as [l (Hc & Hl & Ht & Hs & Hf)].
  exists l. repeat split; auto; [lia|].
  eapply Forall_impl; [|exact Hf]. intros b. apply HPQ.
Qed.

Lemma sends_le {A} (m : M A) P (n k : nat) :
  sends P n m -> (n <= k)%nat -> sends P k m.
Proof. intros H Hn. eapply sends_weaken; eauto. Qed.

Lemma sends_bind {A B} (m : M A) (k : A -> M B) P (n1 n2 : nat) :
  sends P n1 m -> (forall a, sends P n2 (k a)) -> sends P (n1 + n2) (bind m k).
Proof.
  intros Hm Hk e d. unfold bind.
  destruct (Hm e d) as [l1 (Hc1 & Hl1 & Ht1 & Hs1 & Hf1)].
  destruct (m e d) as [[a|err] d1]; cbn [snd] in *.
  - destruct (Hk a e d1) as [l2 (Hc2 & Hl2 & Ht2 & Hs2 & Hf2)].
    exists (l1 ++ l2). rewrite outs_app, length_app.
    repeat split.
    + rewrite Hc2, Hc1. now rewrite app_assoc.
    + lia.
    + rewrite Ht2, Ht1. lia.
    + apply consec_app. split; [assumption|]. now rewrite <- Ht1.
    + apply Forall_app. split; assumption.
  - exists l1. repeat split; auto. lia.
Qed.

Lemma sends_try_catch {A} (m : M A) (h : Error -> M A) P (n1 n2 : nat) :
  sends P n1 m -> (forall err, sends P n2 (h err)) ->
  sends P (n1 + n2) (try_catch m h).
Proof.
  intros Hm Hh e d. unfold try_catch.
  destruct (Hm e d) as [l1 (Hc1 & Hl1 & Ht1 & Hs1 & Hf1)].
  destruct (m e d) as [[a|err] d1]; cbn [snd] in *.
  - exists l1. repeat split; auto. lia.
  - destruct (Hh err e d1) as [l2 (Hc2 & Hl2 & Ht2 & Hs2 & Hf2)].
    exists (l1 ++ l2). rewrite outs_app, length_app.
    repeat split.
    + rewrite Hc2, Hc1. now rewrite app_assoc.
    + lia.
    + rewrite Ht2, Ht1. lia.
    + apply consec_app. split; [assumption|]. now rewrite <- Ht1.
    + apply Forall_app. split; assumption.
Qed.

Lemma sends_try_finally {A} (m : M A) (f : M unit) P (n1 n2 : nat) :
  sends P n1 m -> sends P n2 f -> sends P (n1 + n2) (try_finally m f).
Proof.
  intros Hm Hf e d. unfold try_finally.
  destruct (Hm e d) as [l1 (Hc1 & Hl1 & Ht1 & Hs1 & Hf1)].
  destruct (m e d) as [r d1]; cbn [snd] in *.
  destruct (Hf e d1) as [l2 (Hc2 & Hl2 & Ht2 & Hs2 & Hf2)].
  exists (l1 ++ l2). rewrite outs_app, length_app.
  assert (calls (snd (f e d1)) = calls d ++ l1 ++ l2)
    by (rewrite Hc2, Hc1; now rewrite app_assoc).
  assert (consec (transactionId d) (outs l1 ++ outs l2))
    by (apply consec_app; split; [assumption | now rewrite <- Ht1]).
  assert (Forall (fun b => P (hdr_code b)) (outs l1 ++ outs l2))
    by (apply Forall_app; split; assumption).
  destruct (f e d1) as [[u|err] d2]; cbn [snd] in *;
    repeat split; auto; lia.
Qed.

(** The chunk loop of [receiveData] has left before its fuel is used up:
    more fuel than [length - offset] changes nothing. *)
Lemma receiveData_chunks_fuel (e : Env) (length : Z) :
  forall fuel fuel' fullBuffer offset d,
    length - offset <= Z.of_nat fuel ->
    length - offset <= Z.of_nat fuel' ->
    receiveData_chunks fuel length fullBuffer offset e d
    = receiveData_chunks fuel' length fullBuffer offset e d.
Proof.
  induction fuel as [|fuel IH]; intros fuel' fullBuffer offset d H H'.
  - destruct fuel' as [|fuel']; [reflexivity|]. cbn [receiveData_chunks].
    destruct (Z.ltb_spec offset length); [lia | reflexivity].
  - destruct fuel' as [|fuel']; cbn [receiveData_chunks].
    + destruct (Z.ltb_spec offset length); [lia | reflexivity].
    + destruct (offset <? length); [|reflexivity].
      unfold bind. destruct (transferIn (length - offset) e d) as [[[data|]|err] d1];
        try reflexivity.
      destruct (Z.eqb_spec (byteLength data) 0); [reflexivity|].
      unfold lift.
      destruct (typedArraySet fullBuffer data offset); [|reflexivity].
      pose proof (byteLength_nonneg data). apply IH; lia.
Qed.

(** A call on the device other than [transferOut]. *)
Lemma sends_usb_call {A} (c : PtpDevice -> UsbCall)
  (answer : Env -> list UsbCall -> Result A) P :
  (forall d, outs [c d] = []) -> sends P 0 (usb_call c answer).
Proof.
  intros Hc e d. exists [c d]. rewrite Hc. cbn. repeat split; auto; lia.
Qed.

Lemma sends_transferIn length P : sends P 0 (transferIn length).
Proof. apply sends_usb_call. reflexivity. Qed.

Lemma sends_sendCommand code params :
  0 <= code < 65536 -> sends (eq code) 1 (sendCommand code params).
Proof.
  intros Hcode e d.
  exists [Call_transferOut (outEndpoint d)
            (encodePacket (transactionId d + 1) PTP_USB_CONTAINER_COMMAND code
               params)].
  unfold sendCommand, bind, get_transactionId, set_transactionId, transferOut,
    usb_call.
  cbn [snd calls transactionId outEndpoint inEndpoint interfaceNumber outs
         flat_map app List.length consec].
  repeat split; auto; try lia.
  - apply hdr_tid_encodePacket.
  - constructor; [|constructor]. rewrite hdr_code_encodePacket.
    symmetry. apply Z.mod_small. lia.
Qed.

Lemma sends_max {A} (m : M A) P (a b : nat) :
  sends P a m \/ sends P b m -> sends P (Nat.max a b) m.
Proof. intros [H|H]; (eapply sends_le; [exact H | lia]). Qed.

Lemma sends_codes {A} (m : M A) (P Q : Z -> Prop) (n : nat) :
  sends P n m -> (forall c, P c -> Q c) -> sends Q n m.
Proof. intros H HPQ. eapply sends_weaken; eauto. Qed.

(** Membership among operation codes, for the side conditions below. *)
Ltac solve_codes :=
  cbn [In]; intros; subst;
  repeat match goal with
         | H : _ \/ _ |- _ => destruct H
         | H : False |- _ => destruct H
         end;
  subst; auto 20.

Create HintDb sends_db.

(** Walks the structure of a computation, leaving the count to be summed
    up at the end. *)
Ltac sends_walk :=
  lazymatch goal with
  | |- sends _ _ (bind _ _) =>
      eapply sends_bind; [sends_walk | intros; sends_walk]
  | |- sends _ _ (try_catch _ _) =>
      eapply sends_try_catch; [sends_walk | intros; sends_walk]
  | |- sends _ _ (try_finally _ _) =>
      eapply sends_try_finally; [sends_walk | sends_walk]
  | |- sends _ _ (match ?x with _ => _ end) =>
      eapply sends_max; destruct x; [left | right]; sends_walk
  | |- sends _ _ (ret _) => apply sends_ret
  | |- sends _ _ (throw _) => apply sends_throw
  | |- sends _ _ (lift _) => apply sends_lift
  | |- sends _ _ (usb_read _) => apply sends_usb_read
  | |- sends _ _ (transferIn _) => apply sends_transferIn
  | |- sends _ _ get_interfaceNumber => apply sends_get_interfaceNumber
  | |- sends _ _ (set_interfaceNumber _) => apply sends_set_interfaceNumber
  | |- sends _ _ (set_endpoints _ _) => apply sends_set_endpoints
  | |- sends _ _ (usb_call _ _) => apply sends_usb_call; reflexivity
  | |- sends _ _ (sendCommand _ _) =>
      eapply sends_codes;
      [apply sends_sendCommand; vm_compute; split; congruence | solve_codes]
  | |- _ =>
      first [ solve [eauto with sends_db]
            | eapply sends_codes; [solve [eauto with sends_db] | solve_codes] ]
  end.

Ltac sends_auto := eapply sends_le; [sends_walk | cbn; lia].

Lemma sends_receiveResponse P : sends P 0 receiveResponse.
Proof. unfold receiveResponse. sends_auto. Qed.

Lemma sends_receiveData_header P n hv : sends P 0 (receiveData_header n hv).
Proof.
  revert hv. induction n as [|n IH]; intros hv; cbn [receiveData_header].
  - apply sends_ret.
  - apply (sends_bind _ _ P 0 0); [apply sends_transferIn|].
    intros [v|].
    + destruct (byteLength v >? 0); [apply sends_ret | apply IH].
    + apply IH.
Qed.

Lemma sends_receiveData_chunks P fuel length buf offset :
  sends P 0 (receiveData_chunks fuel length buf offset).
Proof.
  revert buf offset. induction fuel as [|fuel IH]; intros buf offset;
    cbn [receiveData_chunks].
  - apply sends_ret.
  - destruct (offset <? length); [|apply sends_ret].
    apply (sends_bind _ _ P 0 0); [apply sends_transferIn|].
    intros [data|]; [|apply sends_ret].
    destruct (byteLength data =? 0); [apply sends_ret|].
    apply (sends_bind _ _ P 0 0); [apply sends_lift|].
    intros buf'. apply IH.
Qed.

#[local] Hint Resolve sends_receiveResponse sends_receiveData_header
  sends_receiveData_chunks : sends_db.

Lemma sends_receiveData P : sends P 0 receiveData.
Proof. unfold receiveData. sends_auto. Qed.

#[local] Hint Resolve sends_receiveData : sends_db.

Lemma sends_connect P : sends P 0 connect.
Proof. unfold connect. sends_auto. Qed.

Lemma sends_close P : sends P 0 close.
Proof. unfold close. sends_auto. Qed.

Lemma sends_closeSession :
  sends (fun c => In c [PTP_OC_CloseSession]) 1 closeSession.
Proof. unfold closeSession. sends_auto. Qed.

Lemma sends_getDeviceInfo :
  sends (fun c => In c [PTP_OC_GetDeviceInfo]) 1 getDeviceInfo.
Proof. unfold getDeviceInfo. sends_auto. Qed.

Lemma sends_getDevicePropValue propCode :
  sends (fun c => In c [PTP_OC_GetDevicePropValue]) 1
    (getDevicePropValue propCode).
Proof. unfold getDevicePropValue. sends_auto. Qed.

Lemma sends_getCanonPropChanges :
  sends (fun c => In c [PTP_OC_CANON_EOS_GetEvent]) 1 getCanonPropChanges.
Proof. unfold getCanonPropChanges, getCanonPropChanges_try. sends_auto. Qed.

#[local] Hint Resolve sends_connect sends_close sends_closeSession
  sends_getDeviceInfo sends_getDevicePropValue sends_getCanonPropChanges
  : sends_db.

Lemma sends_initCanon :
  sends (fun c => In c [PTP_OC_CANON_EOS_SetRemoteMode;
                        PTP_OC_CANON_EOS_SetEventMode;
                        PTP_OC_CANON_EOS_SetRequestOLCInfoGroup;
                        PTP_OC_CANON_EOS_PCHDDCapacity]) 4 initCanon.
Proof. unfold initCanon. sends_auto. Qed.

Lemma sends_exitCanon :
  sends (fun c => In c [PTP_OC_CANON_EOS_SetRemoteMode;
                        PTP_OC_CANON_EOS_SetEventMode]) 2 exitCanon.
Proof. unfold exitCanon. sends_auto. Qed.

Lemma sends_drainShutterEvents_loop n :
  sends (fun c => In c [PTP_OC_CANON_EOS_GetEvent]) n
    (drainShutterEvents_loop n).
Proof.
  induction n as [|n IH]; cbn [drainShutterEvents_loop].
  - apply sends_ret.
  - change (S n) with (1 + n)%nat.
    eapply sends_bind; [apply sends_getCanonPropChanges|].
    intros evts. destruct (array_find isShutterEvent evts).
    + eapply sends_le; [apply sends_ret | lia].
    + destruct (Z.of_nat (List.length evts) =? 0); [|exact IH].
      eapply sends_le; [apply sends_ret | lia].
Qed.

Lemma sends_drainShutterEvents :
  sends (fun c => In c [PTP_OC_CANON_EOS_GetEvent]) 5 drainShutterEvents.
Proof.
  unfold drainShutterEvents.
  eapply sends_le;
    [eapply sends_try_catch;
     [apply sends_drainShutterEvents_loop | intros; apply sends_ret] | lia].
Qed.

Lemma sends_queryAndPollShutterProp_loop propCode n :
  sends (fun c => In c [PTP_OC_CANON_EOS_GetEvent]) n
    (queryAndPollShutterProp_loop propCode n).
Proof.
  induction n as [|n IH]; cbn [queryAndPollShutterProp_loop].
  - apply sends_ret.
  - change (S n) with (1 + n)%nat.
    eapply sends_bind; [apply sends_getCanonPropChanges|].
    intros evts. destruct (array_find _ evts); [|exact IH].
    eapply sends_le; [apply sends_ret | lia].
Qed.

#[local] Hint Resolve sends_initCanon sends_exitCanon sends_drainShutterEvents
  sends_queryAndPollShutterProp_loop : sends_db.

Lemma sends_queryAndPollShutterProp propCode :
  sends (fun c => In c [PTP_OC_CANON_EOS_RequestDevicePropValue;
                        PTP_OC_CANON_EOS_GetEvent]) 6
    (queryAndPollShutterProp propCode).
Proof. unfold queryAndPollShutterProp. sends_auto. Qed.

#[local] Hint Resolve sends_queryAndPollShutterProp : sends_db.

Lemma sends_getCanonShutterCount :
  sends (fun c => In c [PTP_OC_CANON_EOS_GetEvent;
                        PTP_OC_CANON_EOS_RequestDevicePropValue;
                        PTP_OC_GetDevicePropValue]) 19 getCanonShutterCount.
Proof. unfold getCanonShutterCount. sends_auto. Qed.

#[local] Hint Resolve sends_getCanonShutterCount : sends_db.

Lemma sends_vendorShutterCount vendorId :
  sends (fun c => In c [PTP_OC_CANON_EOS_SetRemoteMode;
                        PTP_OC_CANON_EOS_SetEventMode;
                        PTP_OC_CANON_EOS_SetRequestOLCInfoGroup;
                        PTP_OC_CANON_EOS_PCHDDCapacity;
                        PTP_OC_CANON_EOS_GetEvent;
                        PTP_OC_CANON_EOS_RequestDevicePropValue;
                        PTP_OC_GetDevicePropValue]) 25
    (vendorShutterCount vendorId).
Proof. unfold vendorShutterCount. cbv zeta. sends_auto. Qed.

#[local] Hint Resolve sends_vendorShutterCount : sends_db.

(* ================================================================== *)
(** ** Session *)

Ltac m_simpl :=
  cbn [fst snd calls transactionId inEndpoint outEndpoint interfaceNumber] in *.

Ltac m_unfold :=
  cbv beta iota delta
    [openSession closeSession sendCommand receiveResponse bind ret throw lift
       get_transactionId set_transactionId transferOut transferIn usb_call];
  m_simpl.

(** Splits on the innermost undecided test of the goal. *)
Ltac m_case :=
  m_simpl;
  match goal with
  | |- context [match ?x with _ => _ end] =>
      lazymatch x with
      | context [match _ with _ => _ end] => fail
      | _ => destruct x eqn:?
      end
  end;
  m_simpl.

(** Whatever the device answers, [openSession] puts on the wire OpenSession
    alone, or OpenSession and CloseSession (and then fails), or OpenSession,
    CloseSession, OpenSession; both OpenSession commands carry id 0. *)
Lemma openSession_outs (e : Env) (d : PtpDevice) :
  exists l,
    calls (snd (openSession e d)) = calls d ++ l
    /\ ((outs l = [openCmd] /\ transactionId (snd (openSession e d)) = 0)
        \/ (outs l = [openCmd; closeCmd]
            /\ exists err, fst (openSession e d) = Throw err)
        \/ (outs l = [openCmd; closeCmd; openCmd]
            /\ transactionId (snd (openSession e d)) = 0)).
Proof.
  m_unfold. repeat m_case.
  all: rewrite <- ?app_assoc; cbn [app].
  all: eexists; split; [reflexivity|].
  all: cbn [outs flat_map app].
  all: first [ left; split; reflexivity
             | right; left; split; [reflexivity | eexists; reflexivity]
             | right; right; split; reflexivity ].
Qed.

Lemma consec_chained (r : list (list byte)) :
  forall t,
    0 <= t -> t + Z.of_nat (List.length r) < 4294967296 ->
    consec t r ->
    Forall (fun b => hdr_code b <> PTP_OC_OpenSession) r ->
    tids_chained t r.
Proof.
  induction r as [|b r IH]; intros t Ht Hlen Hc Hf; cbn [tids_chained].
  - exact I.
  - cbn [consec List.length] in *. destruct Hc as [Hb Hc].
    inversion Hf as [|? ? Hnb Hf']; subst.
    rewrite Z.mod_small in Hb by lia. split.
    + destruct (Z.eqb_spec (hdr_code b) PTP_OC_OpenSession); [contradiction|].
      exact Hb.
    + rewrite Hb. apply IH; auto; lia.
Qed.

Lemma length_0_nil {A} (l : list A) : (List.length l <= 0)%nat -> l = [].
Proof. destruct l; cbn; [reflexivity | lia]. Qed.

Section Query.
Variable toLowerCase : jsstring -> jsstring.

(** What [getCameraInfo_try] does once the session is open. *)
Lemma sends_after_open :
  sends (fun c => c <> PTP_OC_OpenSession) 27
    (bind getDeviceInfo (fun deviceInfo =>
     bind (vendorShutterCount (vendorOf toLowerCase deviceInfo))
       (fun shutterCount =>
     bind closeSession (fun _ =>
     bind close (fun _ =>
     ret (mkCameraInfo (manufacturer deviceInfo) (model deviceInfo)
            (version deviceInfo) (serial deviceInfo) shutterCount)))))).
Proof.
  eapply sends_codes with
    (P := fun c => In c [PTP_OC_GetDeviceInfo; PTP_OC_CloseSession;
                         PTP_OC_CANON_EOS_SetRemoteMode;
                         PTP_OC_CANON_EOS_SetEventMode;
                         PTP_OC_CANON_EOS_SetRequestOLCInfoGroup;
                         PTP_OC_CANON_EOS_PCHDDCapacity;
                         PTP_OC_CANON_EOS_GetEvent;
                         PTP_OC_CANON_EOS_RequestDevicePropValue;
                         PTP_OC_GetDevicePropValue]).
  - sends_auto.
  - cbn [In]. intros c H.
    repeat destruct H as [H|H]; try contradiction; subst c; discriminate.
Qed.

Lemma getCameraInfo_try_tids (e : Env) (d : PtpDevice) :
  exists l,
    calls (snd (getCameraInfo_try toLowerCase e d)) = calls d ++ l
    /\ session_tids (outs l).
Proof.
  unfold getCameraInfo_try.
  unfold bind at 1.
  destruct (sends_connect (fun _ => True) e d) as [l0 (Hc0 & Hl0 & Ht0 & _)].
  apply length_0_nil in Hl0.
  destruct (connect e d) as [[u|err] d1]; cbn [snd] in *.
  2:{ exists l0. rewrite Hl0. split; [assumption | exact I]. }
  unfold bind at 1.
  destruct (openSession_outs e d1) as [lo (Hco & Ho)].
  destruct (openSession e d1) as [[u'|err] d2] eqn:Eo; cbn [fst snd] in *.
  - match goal with |- context [snd (?m e d2)] => set (rest := m) end.
    destruct (sends_after_open e d2) as [lr (Hcr & Hlr & Htr & Hsr & Hfr)].
    fold rest in Hcr. exists (l0 ++ lo ++ lr). split.
    { rewrite Hcr, Hco, Hc0. now rewrite !app_assoc. }
    rewrite !outs_app, Hl0. cbn [app].
    assert (Hch : tids_chained 0 (outs lr)).
    { destruct Ho as [[_ Ht]|[[_ [err Herr]]|[_ Ht]]]; try discriminate;
        rewrite Ht in Hsr; apply consec_chained; auto; lia. }
    destruct Ho as [[Ho _]|[[_ [err Herr]]|[Ho _]]]; try discriminate;
      rewrite Ho; cbn [app session_tids tids_chained];
      repeat split; try reflexivity; exact Hch.
  - exists (l0 ++ lo). split.
    { rewrite Hco, Hc0. now rewrite app_assoc. }
    rewrite outs_app, Hl0. cbn [app].
    destruct Ho as [[Ho _]|[[Ho _]|[Ho _]]]; rewrite Ho;
      cbn [session_tids tids_chained]; repeat split; reflexivity.
Qed.

End Query.

(** C4.  In every run of a query, whatever the device answers, the commands
    handed to the transport start with an OpenSession; every OpenSession
    (the first one and the one retried after a conflict) carries transaction
    id 0 in its encoded header, and every other command carries exactly one
    more than the command before it.  Each [sendCommand] advances the
    counter by one and encodes the new value, and [openSession] overwrites
    the counter before it sends anything: what the counter held before does
    not matter, the reset to -1 is what gives an OpenSession id 0. *)
Theorem transaction_ids_chained
  (toLowerCase : jsstring -> jsstring) (e : Env) (d : PtpDevice) :
  (exists l,
      calls (snd (getCameraInfo_device toLowerCase e d)) = calls d ++ l
      /\ session_tids (outs l))
  /\ (forall code params,
         let d' := snd (sendCommand code params e d) in
         transactionId d' = transactionId d + 1
         /\ calls d'
            = calls d
              ++ [Call_transferOut (outEndpoint d)
                    (encodePacket (transactionId d + 1)
                       PTP_USB_CONTAINER_COMMAND code params)]
         /\ hdr_tid (encodePacket (transactionId d + 1)
                       PTP_USB_CONTAINER_COMMAND code params)
            = (transactionId d + 1) mod 4294967296)
  /\ (forall l, calls (snd (openSession e d)) = calls d ++ l ->
                Forall (fun b => hdr_code b = PTP_OC_OpenSession ->
                                 hdr_tid b = 0) (outs l))
  /\ (forall t, openSession e (with_session d t (calls d)) = openSession e d).
Proof.
  split; [|split; [|split; [|reflexivity]]].
  - unfold getCameraInfo_device, try_finally.
    destruct (getCameraInfo_try_tids toLowerCase e d) as [l (Hc & Hs)].
    destruct (getCameraInfo_try toLowerCase e d) as [r d1]; cbn [snd] in *.
    destruct (sends_close (fun _ => True) e d1) as [lc (Hcc & Hlc & _)].
    apply length_0_nil in Hlc.
    exists (l ++ lc). rewrite outs_app, Hlc, app_nil_r.
    split; [|exact Hs].
    destruct (close e d1) as [[u|err] d2]; cbn [snd] in *;
      rewrite Hcc, Hc; now rewrite app_assoc.
  - intros code params. cbv zeta. repeat split.
    apply hdr_tid_encodePacket.
  - intros l Hl. destruct (openSession_outs e d) as [lo (Hco & Ho)].
    rewrite Hco in Hl. apply app_inv_head in Hl. subst lo.
    destruct Ho as [[Ho _]|[[Ho _]|[Ho _]]]; rewrite Ho;
      repeat (apply Forall_cons || apply Forall_nil);
      intros H; first [reflexivity | vm_compute in H; discriminate H].
Qed.

Lemma transaction_ids_chained_witness :
  Forall (fun b => hdr_code b = PTP_OC_OpenSession -> hdr_tid b = 0)
    [openCmd; closeCmd; openCmd].
Proof.
  apply (proj1 (proj2 (proj2
           (transaction_ids_chained asciiToLowerCase conflictDevice
              (connected 7))))
           [Call_transferOut 2 openCmd; Call_transferIn 1 512;
            Call_transferOut 2 closeCmd; Call_transferIn 1 512;
            Call_transferOut 2 openCmd; Call_transferIn 1 512]).
  vm_compute. reflexivity.
Defined.

(** C3, as stated, fails: after "session already open" the retried
    OpenSession is not always sent.  When the read that follows the
    CloseSession is rejected, or brings a packet of fewer than 12 bytes,
    [openSession] throws that error and only OpenSession and CloseSession
    have gone on the wire. *)
Lemma openSession_close_failure_no_retry :
  openSession (scriptedDevice [response PTP_RC_SessionAlreadyOpened] [])
    (connected 7)
  = (Throw DOMException,
     with_session (connected 7) 1
       [Call_transferOut 2 openCmd; Call_transferIn 1 512;
        Call_transferOut 2 closeCmd; Call_transferIn 1 512])
  /\ openSession
       (scriptedDevice
          [response PTP_RC_SessionAlreadyOpened;
           Ok (Some (firstn 11 (encodePacket 1 PTP_USB_CONTAINER_RESPONSE
                                  PTP_RC_OK [])))] [])
       (connected 7)
     = (Throw Err_InvalidResponsePacket,
        with_session (connected 7) 1
          [Call_transferOut 2 openCmd; Call_transferIn 1 512;
           Call_transferOut 2 closeCmd; Call_transferIn 1 512]).
Proof. split; vm_compute; reflexivity. Qed.

(** C3 (amended).  Let the first OpenSession be sent and answered with a
    response code other than OK.  If the code is not "session already open",
    [openSession] throws at once: the history ends with that response.  If it
    is, exactly one CloseSession is sent and at most one further OpenSession.
    When the CloseSession exchange fails (the command or the read is
    rejected, or the read brings no packet of at least 12 bytes)
    [openSession] throws that error and the history ends there: nothing is
    retried.  Once the CloseSession exchange has completed, whatever the
    code of its response, exactly one OpenSession is sent again, and its
    response decides the outcome: OK returns, any other code throws, and in
    both cases the history ends with that response, so nothing is tried
    again. *)
Theorem openSession_conflict_recovery
  (e : Env) (d : PtpDevice) (first : DataView) (respCode : Z) :
  let h1 := calls d ++ [Call_transferOut (outEndpoint d) openCmd] in
  let h2 := h1 ++ [Call_transferIn (inEndpoint d) 512] in
  let h3 := h2 ++ [Call_transferOut (outEndpoint d) closeCmd] in
  let h4 := h3 ++ [Call_transferIn (inEndpoint d) 512] in
  let h5 := h4 ++ [Call_transferOut (outEndpoint d) openCmd] in
  let h6 := h5 ++ [Call_transferIn (inEndpoint d) 512] in
  usb_transferOut e h1 = Ok tt ->
  usb_transferIn e h2 = Ok (Some first) ->
  PTP_HEADER_SIZE <= byteLength first ->
  getUint16 first 6 = Ok respCode ->
  respCode <> PTP_RC_OK ->
  (respCode <> PTP_RC_SessionAlreadyOpened ->
   openSession e d
   = (Throw (Err_OpenSessionFailed respCode), with_session d 0 h2))
  /\ (respCode = PTP_RC_SessionAlreadyOpened ->
      (exists l,
          calls (snd (openSession e d)) = h2 ++ l
          /\ (outs l = [closeCmd] \/ outs l = [closeCmd; openCmd]))
      /\ (forall err,
             usb_transferOut e h3 = Throw err ->
             openSession e d = (Throw err, with_session d 1 h3))
      /\ (forall err,
             usb_transferOut e h3 = Ok tt ->
             usb_transferIn e h4 = Throw err ->
             openSession e d = (Throw err, with_session d 1 h4))
      /\ (forall r,
             usb_transferOut e h3 = Ok tt ->
             usb_transferIn e h4 = Ok r ->
             (r = None
              \/ exists v, r = Some v /\ byteLength v < PTP_HEADER_SIZE) ->
             openSession e d
             = (Throw Err_InvalidResponsePacket, with_session d 1 h4))
      /\ (forall closeResp,
             usb_transferOut e h3 = Ok tt ->
             usb_transferIn e h4 = Ok (Some closeResp) ->
             PTP_HEADER_SIZE <= byteLength closeResp ->
             (exists l,
                 calls (snd (openSession e d)) = h2 ++ l
                 /\ outs l = [closeCmd; openCmd])
             /\ (forall retryResp retryCode,
                    usb_transferOut e h5 = Ok tt ->
                    usb_transferIn e h6 = Ok (Some retryResp) ->
                    PTP_HEADER_SIZE <= byteLength retryResp ->
                    getUint16 retryResp 6 = Ok retryCode ->
                    openSession e d
                    = (if retryCode =? PTP_RC_OK then Ok tt
                       else Throw (Err_OpenSessionFailedAfterRetry retryCode),
                       with_session d 0 h6)))).
Proof.
  intros h1 h2 h3 h4 h5 h6 H1 H2 Hlen Hcode Hnok.
  subst h1 h2 h3 h4 h5 h6. unfold openCmd, closeCmd, with_session in *.
  split.
  - intros Hother. m_unfold. change (-1 + 1) with 0.
    rewrite H1. m_simpl. rewrite H2. m_simpl.
    destruct (Z.ltb_spec (byteLength first) PTP_HEADER_SIZE); [lia|].
    m_simpl. rewrite Hcode.
    destruct (Z.eqb_spec respCode PTP_RC_OK); [contradiction|].
    destruct (Z.eqb_spec respCode PTP_RC_SessionAlreadyOpened); [contradiction|].
    reflexivity.
  - intros Hconf.
    m_unfold. change (-1 + 1) with 0. change (0 + 1) with 1.
    rewrite H1. m_simpl. rewrite H2. m_simpl.
    destruct (Z.ltb_spec (byteLength first) PTP_HEADER_SIZE); [lia|].
    m_simpl. rewrite Hcode.
    destruct (Z.eqb_spec respCode PTP_RC_OK); [contradiction|].
    destruct (Z.eqb_spec respCode PTP_RC_SessionAlreadyOpened); [|contradiction].
    cbn [negb]. m_simpl. change (0 + 1) with 1.
    split; [|split; [|split; [|split]]].
    + repeat m_case.
      all: eexists; split;
        [rewrite <- ?app_assoc; cbn [app]; reflexivity|];
        cbn [outs flat_map app]; auto.
    + intros err H3. rewrite H3. reflexivity.
    + intros err H3 H4. rewrite H3. m_simpl. rewrite H4. reflexivity.
    + intros r H3 H4 Hr. rewrite H3. m_simpl. rewrite H4.
      destruct Hr as [-> | (v & -> & Hv)]; [reflexivity|]. m_simpl.
      destruct (Z.ltb_spec (byteLength v) PTP_HEADER_SIZE); [reflexivity|lia].
    + intros closeResp H3 H4 Hlen2. rewrite H3. m_simpl. rewrite H4. m_simpl.
      destruct (Z.ltb_spec (byteLength closeResp) PTP_HEADER_SIZE); [lia|].
      m_simpl. split.
      * repeat m_case.
        all: eexists; split;
          [rewrite <- ?app_assoc; cbn [app]; reflexivity|];
          cbn [outs flat_map app]; auto.
      * intros retryResp retryCode H5 H6 Hlen3 Hretry.
        rewrite H5. m_simpl. rewrite H6. m_simpl.
        destruct (Z.ltb_spec (byteLength retryResp) PTP_HEADER_SIZE); [lia|].
        m_simpl. rewrite Hretry.
        destruct (retryCode =? PTP_RC_OK); reflexivity.
Qed.

(** The conflict is resolved on [conflictDevice]; on devices that stop
    answering after the conflict, answer with no packet or reject the
    CloseSession command, the CloseSession exchange fails; a device that
    answers "general error" is not asked again. *)
Lemma openSession_conflict_recovery_witness :
  openSession conflictDevice (connected 7)
  = (Ok tt,
     with_session (connected 7) 0
       [Call_transferOut 2 openCmd; Call_transferIn 1 512;
        Call_transferOut 2 closeCmd; Call_transferIn 1 512;
        Call_transferOut 2 openCmd; Call_transferIn 1 512])
  /\ openSession (scriptedDevice [response PTP_RC_SessionAlreadyOpened] [])
       (connected 7)
     = (Throw DOMException,
        with_session (connected 7) 1
          [Call_transferOut 2 openCmd; Call_transferIn 1 512;
           Call_transferOut 2 closeCmd; Call_transferIn 1 512])
  /\ openSession
       (scriptedDevice [response PTP_RC_SessionAlreadyOpened; Ok None] [])
       (connected 7)
     = (Throw Err_InvalidResponsePacket,
        with_session (connected 7) 1
          [Call_transferOut 2 openCmd; Call_transferIn 1 512;
           Call_transferOut 2 closeCmd; Call_transferIn 1 512])
  /\ openSession (scriptedDevice [response 0x2002] []) (connected 7)
     = (Throw (Err_OpenSessionFailed 0x2002),
        with_session (connected 7) 0
          [Call_transferOut 2 openCmd; Call_transferIn 1 512])
  /\ openSession
       (scriptedDevice [response PTP_RC_SessionAlreadyOpened] [2%nat])
       (connected 7)
     = (Throw DOMException,
        with_session (connected 7) 1
          [Call_transferOut 2 openCmd; Call_transferIn 1 512;
           Call_transferOut 2 closeCmd]).
Proof.
  split; [|split; [|split; [|split]]].
  - refine (proj2 (proj2 (proj2 (proj2 (proj2 (proj2
              (openSession_conflict_recovery conflictDevice (connected 7)
                 (encodePacket 0 PTP_USB_CONTAINER_RESPONSE
                    PTP_RC_SessionAlreadyOpened [])
                 PTP_RC_SessionAlreadyOpened _ _ _ _ _) _))))
              (encodePacket 0 PTP_USB_CONTAINER_RESPONSE PTP_RC_OK [])
              _ _ _)
              (encodePacket 0 PTP_USB_CONTAINER_RESPONSE PTP_RC_OK [])
              PTP_RC_OK _ _ _ _);
      solve [reflexivity | vm_compute; congruence].
  - refine (proj1 (proj2 (proj2 (proj2
              (openSession_conflict_recovery
                 (scriptedDevice [response PTP_RC_SessionAlreadyOpened] [])
                 (connected 7)
                 (encodePacket 0 PTP_USB_CONTAINER_RESPONSE
                    PTP_RC_SessionAlreadyOpened [])
                 PTP_RC_SessionAlreadyOpened _ _ _ _ _) _)))
              DOMException _ _);
      solve [reflexivity | vm_compute; congruence].
  - refine (proj1 (proj2 (proj2 (proj2 (proj2
              (openSession_conflict_recovery
                 (scriptedDevice
                    [response PTP_RC_SessionAlreadyOpened; Ok None] [])
                 (connected 7)
                 (encodePacket 0 PTP_USB_CONTAINER_RESPONSE
                    PTP_RC_SessionAlreadyOpened [])
                 PTP_RC_SessionAlreadyOpened _ _ _ _ _) _))))
              None _ _ _);
      solve [reflexivity | vm_compute; congruence | now left].
  - refine (proj1
              (openSession_conflict_recovery
                 (scriptedDevice [response 0x2002] []) (connected 7)
                 (encodePacket 0 PTP_USB_CONTAINER_RESPONSE 0x2002 [])
                 0x2002 _ _ _ _ _) _);
      solve [reflexivity | vm_compute; congruence].
  - refine (proj1 (proj2 (proj2
              (openSession_conflict_recovery
                 (scriptedDevice [response PTP_RC_SessionAlreadyOpened]
                    [2%nat])
                 (connected 7)
                 (encodePacket 0 PTP_USB_CONTAINER_RESPONSE
                    PTP_RC_SessionAlreadyOpened [])
                 PTP_RC_SessionAlreadyOpened _ _ _ _ _) _))
              DOMException _);
      solve [reflexivity | vm_compute; congruence].
Defined.

(* ================================================================== *)
(** ** Canon events *)

Lemma getCanonPropChanges_never_throws (e : Env) (d : PtpDevice) :
  exists l, fst (getCanonPropChanges e d) = Ok l.
Proof.
  unfold getCanonPropChanges, try_catch.
  destruct (getCanonPropChanges_try e d) as [[l|err] d']; cbn; eauto.
Qed.

(** C10.  [getCanonPropChanges] always returns a list and never throws.
    Whatever is thrown inside it (by the transport or by the protocol code)
    gives the empty list; so does a Response container arriving where the
    Data container was expected, and so does a data packet no longer than
    the 12-byte header. *)
Theorem getCanonPropChanges_total (e : Env) (d : PtpDevice) :
  (exists l, fst (getCanonPropChanges e d) = Ok l)
  /\ (forall err d',
         getCanonPropChanges_try e d = (Throw err, d') ->
         getCanonPropChanges e d = (Ok [], d'))
  /\ (forall d1 data d2,
         sendCommand PTP_OC_CANON_EOS_GetEvent [] e d = (Ok tt, d1) ->
         receiveData e d1 = (Ok data, d2) ->
         (getUint16 data 4 = Ok PTP_USB_CONTAINER_RESPONSE ->
          getCanonPropChanges e d = (Ok [], d2))
         /\ (byteLength data <= PTP_HEADER_SIZE ->
             fst (getCanonPropChanges e d) = Ok [])).
Proof.
  split; [apply getCanonPropChanges_never_throws | split].
  - intros err d' H. unfold getCanonPropChanges, try_catch. now rewrite H.
  - intros d1 data d2 Hs Hr.
    unfold getCanonPropChanges, try_catch, getCanonPropChanges_try, bind.
    rewrite Hs, Hr. unfold lift, ret. split.
    + intros Ht. rewrite Ht. reflexivity.
    + intros Hlen. destruct (getUint16 data 4) as [type|]; [|reflexivity].
      destruct (type =? PTP_USB_CONTAINER_RESPONSE); [reflexivity|].
      destruct (receiveResponse e d2) as [[resp|err] d3]; [|reflexivity].
      destruct (Z.leb_spec (byteLength data) PTP_HEADER_SIZE);
        [reflexivity | lia].
Qed.

Lemma getCanonPropChanges_total_witness :
  getCanonPropChanges (scriptedDevice [] []) (connected 1)
  = (Ok [], snd (getCanonPropChanges_try (scriptedDevice [] []) (connected 1)))
  /\ getCanonPropChanges (scriptedDevice [response 0x2005] []) (connected 1)
     = (Ok [],
        snd (receiveData (scriptedDevice [response 0x2005] [])
               (snd (sendCommand PTP_OC_CANON_EOS_GetEvent []
                       (scriptedDevice [response 0x2005] []) (connected 1)))))
  /\ fst (getCanonPropChanges
            (scriptedDevice [eventData []; response PTP_RC_OK] [])
            (connected 1))
     = Ok [].
Proof.
  split; [|split].
  - apply (proj1 (proj2 (getCanonPropChanges_total (scriptedDevice [] [])
                           (connected 1))) DOMException).
    reflexivity.
  - apply (proj1 (proj2 (proj2 (getCanonPropChanges_total
                                  (scriptedDevice [response 0x2005] [])
                                  (connected 1)))
                    (snd (sendCommand PTP_OC_CANON_EOS_GetEvent []
                            (scriptedDevice [response 0x2005] [])
                            (connected 1)))
                    (encodePacket 0 PTP_USB_CONTAINER_RESPONSE 0x2005 [])
                    _ eq_refl eq_refl));
      reflexivity.
  - apply (proj2 (proj2 (proj2 (getCanonPropChanges_total
                                  (scriptedDevice
                                     [eventData []; response PTP_RC_OK] [])
                                  (connected 1)))
                    (snd (sendCommand PTP_OC_CANON_EOS_GetEvent []
                            (scriptedDevice
                               [eventData []; response PTP_RC_OK] [])
                            (connected 1)))
                    (dataContainer PTP_OC_CANON_EOS_GetEvent 5 [])
                    _ eq_refl eq_refl));
      vm_compute; congruence.
Defined.

(* ================================================================== *)
(** ** The Canon cascade *)

Lemma getCanonShutterCount_firstValue :
  getCanonShutterCount = firstValue canonStages.
Proof. reflexivity. Qed.

Lemma firstValue_skip pre rest e d d1 :
  yield_nothing pre e d d1 ->
  firstValue (pre ++ rest) e d = firstValue rest e d1.
Proof.
  revert d. induction pre as [|s pre IH]; intros d H; cbn in H.
  - now subst d1.
  - destruct H as [d0 [Hs H]]. cbn [app firstValue]. unfold bind at 1.
    rewrite Hs. now apply IH.
Qed.

Lemma firstValue_found pre stage post v e d d1 d2 :
  yield_nothing pre e d d1 ->
  stage e d1 = (Ok (Some v), d2) ->
  firstValue (pre ++ stage :: post) e d = (Ok v, d2).
Proof.
  intros H Hs. rewrite (firstValue_skip pre _ e d d1 H).
  cbn [firstValue]. unfold bind. now rewrite Hs.
Qed.


Lemma firstValue_none stages e d d' :
  yield_nothing stages e d d' -> firstValue stages e d = (Ok (-1), d').
Proof.
  intros H. rewrite <- (app_nil_r stages).
  now rewrite (firstValue_skip stages [] e d d' H).
Qed.

Lemma drainShutterEvents_loop_empty n e d d1 :
  getCanonPropChanges e d = (Ok [], d1) ->
  drainShutterEvents_loop (S n) e d = (Ok None, d1).
Proof.
  intros H. cbn [drainShutterEvents_loop]. unfold bind. now rewrite H.
Qed.

(** C1.  [getCanonShutterCount] runs the stages drain, request+poll 0xD1AC,
    direct read 0xD1AC, request+poll 0xD167, direct read 0xD167 in this
    order.  If the stages before one have all returned no value and that
    stage returns a value, the cascade returns this value and the device is
    left as that stage left it: no later stage has been attempted.  If all
    five return no value the result is -1, returned normally.  The drain
    sends at most five commands, all GetEvent, and a poll that returns zero
    events ends it at once, whichever pass it is. *)
Theorem canon_cascade (e : Env) (d : PtpDevice) :
  (forall pre stage post v d1 d2,
      canonStages = pre ++ stage :: post ->
      yield_nothing pre e d d1 ->
      stage e d1 = (Ok (Some v), d2) ->
      getCanonShutterCount e d = (Ok v, d2))
  /\ (forall d',
         yield_nothing canonStages e d d' ->
         getCanonShutterCount e d = (Ok (-1), d'))
  /\ (exists l,
         calls (snd (drainShutterEvents e d)) = calls d ++ l
         /\ (List.length (outs l) <= 5)%nat
         /\ Forall (fun b => hdr_code b = PTP_OC_CANON_EOS_GetEvent) (outs l))
  /\ (forall n d1,
         getCanonPropChanges e d = (Ok [], d1) ->
         drainShutterEvents_loop (S n) e d = (Ok None, d1))
  /\ (forall d1,
         getCanonPropChanges e d = (Ok [], d1) ->
         drainShutterEvents e d = (Ok None, d1)).
Proof.
  repeat split.
  - intros pre stage post v d1 d2 Hst Hpre Hs.
    rewrite getCanonShutterCount_firstValue, Hst.
    eapply firstValue_found; eassumption.
  - intros d' H. rewrite getCanonShutterCount_firstValue.
    now apply firstValue_none.
  - destruct (sends_drainShutterEvents e d) as [l (Hc & Hl & _ & _ & Hf)].
    exists l. repeat split; auto.
    eapply Forall_impl; [|exact Hf]. cbn [In]. intros b [H|[]]. now symmetry.
  - intros n d1. apply drainShutterEvents_loop_empty.
  - intros d1 H. unfold drainShutterEvents, try_catch.
    now rewrite (drainShutterEvents_loop_empty 4 e d d1 H).
Qed.

Lemma canon_cascade_witness :
  getCanonShutterCount pollingCanon (connected 5)
  = (Ok 1234,
     snd (queryAndPollShutterProp PTP_DPC_CANON_EOS_ShutterCounter pollingCanon
            (snd (drainShutterEvents pollingCanon (connected 5)))))
  /\ drainShutterEvents pollingCanon (connected 5)
     = (Ok None, snd (getCanonPropChanges pollingCanon (connected 5)))
  /\ List.length
       (outs (calls (snd (getCanonShutterCount pollingCanon (connected 5)))))
     = 3%nat.
Proof.
  split; [|split].
  - apply (proj1 (canon_cascade pollingCanon (connected 5))
             [drainShutterEvents]
             (queryAndPollShutterProp PTP_DPC_CANON_EOS_ShutterCounter)
             [getDevicePropValue PTP_DPC_CANON_EOS_ShutterCounter;
              queryAndPollShutterProp PTP_DPC_CANON_EOS_ShutterReleaseCounter;
              getDevicePropValue PTP_DPC_CANON_EOS_ShutterReleaseCounter]
             1234
             (snd (drainShutterEvents pollingCanon (connected 5)))).
    + reflexivity.
    + exists (snd (drainShutterEvents pollingCanon (connected 5))).
      split; [vm_compute; reflexivity | reflexivity].
    + vm_compute. reflexivity.
  - apply (proj2 (proj2 (proj2 (proj2
             (canon_cascade pollingCanon (connected 5)))))).
    vm_compute. reflexivity.
  - vm_compute. reflexivity.
Defined.

(* ================================================================== *)
(** ** Errors inside the vendor strategies *)



Lemma try_catch_swallows (m : M unit) (e : Env) (d : PtpDevice) :
  fst (try_catch m (fun _ => ret tt) e d) = Ok tt.
Proof.
  unfold try_catch. destruct (m e d) as [[[]|err] d']; reflexivity.
Qed.

Lemma exitCanon_never_throws (e : Env) (d : PtpDevice) :
  fst (exitCanon e d) = Ok tt.
Proof.
  unfold exitCanon. unfold bind at 1.
  match goal with
  | |- context [match ?m e d with _ => _ end] =>
      pose proof (try_catch_swallows _ e d : fst (m e d) = Ok tt) as H;
      destruct (m e d) as [[u|err] d1]; cbn [fst] in H; [|discriminate]
  end.
  apply try_catch_swallows.
Qed.




(* ================================================================== *)
(** ** Cleanup *)

(** [close] always ends with [device.close()], and its outcome is the
    outcome of that call: a failure of [releaseInterface] is swallowed. *)
Lemma close_outcome (e : Env) (d : PtpDevice) :
  exists h,
    calls (snd (close e d)) = h ++ [Call_close]
    /\ fst (close e d) = usb_close e (h ++ [Call_close]).
Proof.
  cbv beta iota delta
    [close bind try_catch usb_read get_interfaceNumber set_interfaceNumber
       usb_call ret].
  m_simpl. repeat m_case; eexists; split; reflexivity.
Qed.

(** C6, as stated, fails: session close and transport release can raise.
    [closeSession] throws when the device does not answer or answers with
    no usable packet, and [close] throws when [device.close()] is
    rejected. *)
Lemma cleanup_can_throw :
  fst (closeSession (scriptedDevice [] []) (connected 1)) = Throw DOMException
  /\ fst (closeSession (scriptedDevice [Ok None] []) (connected 1))
     = Throw Err_InvalidResponsePacket
  /\ fst (close closeRejecting (connected 1)) = Throw DOMException.
Proof. repeat split; vm_compute; reflexivity. Qed.

(** C6 (amended).  The Canon exit sequence never throws.  Transport release
    is attempted on every exit path of a query: whatever happened before,
    the last call made on the device is [device.close()].  Inside the
    release, a failure of [releaseInterface] is swallowed and the outcome is
    that of [device.close()]; when this final call succeeds the query ends
    as its steps ended, value or error, so an earlier error is passed on
    unchanged.  Session close is not guarded.  [closeSession] throws the
    error of a rejected command, the error of a rejected read, and "invalid
    response packet" when the read brings no packet of at least 12 bytes;
    it returns normally on any packet of at least 12 bytes, whatever its
    response code.  In a query whose earlier steps have all succeeded, an
    error thrown by [closeSession] is the error the steps end with, and the
    error of the query when the final [device.close()] succeeds. *)
Theorem cleanup_behaviour
  (toLowerCase : jsstring -> jsstring) (e : Env) (d : PtpDevice) :
  let h1 := afterCommand d PTP_OC_CloseSession [] in
  let h2 := h1 ++ [Call_transferIn (inEndpoint d) 512] in
  fst (exitCanon e d) = Ok tt
  /\ (exists h,
         calls (snd (close e d)) = h ++ [Call_close]
         /\ fst (close e d) = usb_close e (h ++ [Call_close]))
  /\ (exists h,
         calls (snd (getCameraInfo_device toLowerCase e d)) = h ++ [Call_close]
         /\ fst (getCameraInfo_device toLowerCase e d)
            = match usb_close e (h ++ [Call_close]) with
              | Ok _ => fst (getCameraInfo_try toLowerCase e d)
              | Throw err => Throw err
              end)
  /\ (forall err,
         usb_transferOut e h1 = Throw err ->
         closeSession e d
         = (Throw err, with_session d (transactionId d + 1) h1))
  /\ (forall err,
         usb_transferOut e h1 = Ok tt ->
         usb_transferIn e h2 = Throw err ->
         closeSession e d
         = (Throw err, with_session d (transactionId d + 1) h2))
  /\ (forall r,
         usb_transferOut e h1 = Ok tt ->
         usb_transferIn e h2 = Ok r ->
         (r = None \/ exists v, r = Some v /\ byteLength v < PTP_HEADER_SIZE) ->
         closeSession e d
         = (Throw Err_InvalidResponsePacket,
            with_session d (transactionId d + 1) h2))
  /\ (forall v,
         usb_transferOut e h1 = Ok tt ->
         usb_transferIn e h2 = Ok (Some v) ->
         PTP_HEADER_SIZE <= byteLength v ->
         closeSession e d
         = (Ok tt, with_session d (transactionId d + 1) h2))
  /\ (forall d1 d2 deviceInfo d3 shutterCount d4 err d5,
         connect e d = (Ok tt, d1) ->
         openSession e d1 = (Ok tt, d2) ->
         getDeviceInfo e d2 = (Ok deviceInfo, d3) ->
         vendorShutterCount (vendorOf toLowerCase deviceInfo) e d3
         = (Ok shutterCount, d4) ->
         closeSession e d4 = (Throw err, d5) ->
         getCameraInfo_try toLowerCase e d = (Throw err, d5)
         /\ (fst (close e d5) = Ok tt ->
             fst (getCameraInfo_device toLowerCase e d) = Throw err)).
Proof.
  cbv zeta.
  split; [apply exitCanon_never_throws | split; [apply close_outcome|]].
  split.
  { unfold getCameraInfo_device, try_finally.
    destruct (getCameraInfo_try toLowerCase e d) as [r d1].
    destruct (close_outcome e d1) as [h [Hc Hr]]. exists h.
    destruct (close e d1) as [[u|err] d2]; cbn [fst snd] in *;
      rewrite <- Hr; split; auto. }
  unfold afterCommand, commandAfter, with_session.
  split; [|split; [|split; [|split]]].
  - intros err H1. m_unfold. rewrite H1. reflexivity.
  - intros err H1 H2. m_unfold. rewrite H1. m_simpl. rewrite H2. reflexivity.
  - intros r H1 H2 Hr. m_unfold. rewrite H1. m_simpl. rewrite H2.
    destruct Hr as [-> | (v & -> & Hv)]; [reflexivity|]. m_simpl.
    destruct (Z.ltb_spec (byteLength v) PTP_HEADER_SIZE); [reflexivity|lia].
  - intros v H1 H2 Hv. m_unfold. rewrite H1. m_simpl. rewrite H2. m_simpl.
    destruct (Z.ltb_spec (byteLength v) PTP_HEADER_SIZE); [lia|]. reflexivity.
  - intros d1 d2 deviceInfo d3 shutterCount d4 err d5 Hc Ho Hi Hv Hs.
    assert (Htry : getCameraInfo_try toLowerCase e d = (Throw err, d5)).
    { unfold getCameraInfo_try, bind. now rewrite Hc, Ho, Hi, Hv, Hs. }
    split; [exact Htry|].
    unfold getCameraInfo_device, try_finally. rewrite Htry.
    destruct (close e d5) as [[u|err'] d6]; cbn [fst]; [reflexivity|].
    discriminate.
Qed.

(** A Fuji camera that reports 4711 shots and then stops answering: the
    session close fails and its error is the outcome of the query. *)
Lemma cleanup_behaviour_witness :
  closeSession (scriptedDevice [] [1%nat]) (connected 1)
  = (Throw DOMException,
     with_session (connected 1) 2
       [Call_transferOut 2 (commandAfter 1 PTP_OC_CloseSession [])])
  /\ closeSession (scriptedDevice [] []) (connected 1)
     = (Throw DOMException,
        with_session (connected 1) 2
          [Call_transferOut 2 (commandAfter 1 PTP_OC_CloseSession []);
           Call_transferIn 1 512])
  /\ closeSession (scriptedDevice [Ok (Some [x01; x02])] []) (connected 1)
     = (Throw Err_InvalidResponsePacket,
        with_session (connected 1) 2
          [Call_transferOut 2 (commandAfter 1 PTP_OC_CloseSession []);
           Call_transferIn 1 512])
  /\ closeSession (scriptedDevice [response 0x2002] []) (connected 1)
     = (Ok tt,
        with_session (connected 1) 2
          [Call_transferOut 2 (commandAfter 1 PTP_OC_CloseSession []);
           Call_transferIn 1 512])
  /\ fst (getCameraInfo_device asciiToLowerCase
            (scriptedDevice
               [response PTP_RC_OK;
                deviceInfoData PTP_VENDOR_FUJI "FUJIFILM" "X";
                response PTP_RC_OK; propData 4711; response PTP_RC_OK] [])
            newPtpDevice)
     = Throw DOMException.
Proof.
  set (fuji := scriptedDevice
                 [response PTP_RC_OK;
                  deviceInfoData PTP_VENDOR_FUJI "FUJIFILM" "X";
                  response PTP_RC_OK; propData 4711; response PTP_RC_OK] []).
  split; [|split; [|split; [|split]]].
  - apply (proj1 (proj2 (proj2 (proj2
             (cleanup_behaviour asciiToLowerCase (scriptedDevice [] [1%nat])
                (connected 1)))))).
    reflexivity.
  - apply (proj1 (proj2 (proj2 (proj2 (proj2
             (cleanup_behaviour asciiToLowerCase (scriptedDevice [] [])
                (connected 1)))))));
      reflexivity.
  - apply (proj1 (proj2 (proj2 (proj2 (proj2 (proj2
             (cleanup_behaviour asciiToLowerCase
                (scriptedDevice [Ok (Some [x01; x02])] [])
                (connected 1)))))))
             (Some [x01; x02]));
      [reflexivity | reflexivity |].
    right. exists [x01; x02]. split; [reflexivity | vm_compute; reflexivity].
  - apply (proj1 (proj2 (proj2 (proj2 (proj2 (proj2 (proj2
             (cleanup_behaviour asciiToLowerCase
                (scriptedDevice [response 0x2002] []) (connected 1))))))))
             (encodePacket 0 PTP_USB_CONTAINER_RESPONSE 0x2002 []));
      [reflexivity | reflexivity | vm_compute; congruence].
  - apply (proj2 (proj2 (proj2 (proj2 (proj2 (proj2 (proj2
             (cleanup_behaviour asciiToLowerCase fuji newPtpDevice)))))))
             (snd (connect fuji newPtpDevice))
             (snd (openSession fuji (snd (connect fuji newPtpDevice))))
             (mkDeviceInfo PTP_VENDOR_FUJI (js "FUJIFILM") (js "X")
                (js "1.0") (js "SN1"))
             (snd (getDeviceInfo fuji
                     (snd (openSession fuji
                             (snd (connect fuji newPtpDevice))))))
             4711
             (snd (vendorShutterCount PTP_VENDOR_FUJI fuji
                     (snd (getDeviceInfo fuji
                             (snd (openSession fuji
                                     (snd (connect fuji newPtpDevice))))))))
             DOMException
             (snd (closeSession fuji
                     (snd (vendorShutterCount PTP_VENDOR_FUJI fuji
                             (snd (getDeviceInfo fuji
                                     (snd (openSession fuji
                                             (snd (connect fuji
                                                     newPtpDevice)))))))))));
      vm_compute; reflexivity.
Defined.

(* ================================================================== *)
(** ** Vendor dispatch *)

(** C9.  The manufacturer string decides before the vendor extension id, and
    "canon" before "fuji": when the lower-cased manufacturer contains
    "canon" the Canon strategy (initialisation, cascade, exit sequence) runs
    whatever the vendor extension id is; "fuji" is looked for only when
    "canon" is absent; when neither is found the vendor extension id
    decides, and a device with neither substring nor either id makes no call
    at all on the device and gets -1. *)
Theorem vendor_dispatch
  (toLowerCase : jsstring -> jsstring) (deviceInfo : DeviceInfo) :
  (includes (toLowerCase (manufacturer deviceInfo)) (js "canon") = true ->
   vendorOf toLowerCase deviceInfo = PTP_VENDOR_CANON
   /\ vendorShutterCount (vendorOf toLowerCase deviceInfo)
      = try_finally (bind initCanon (fun _ => getCanonShutterCount)) exitCanon)
  /\ (includes (toLowerCase (manufacturer deviceInfo)) (js "canon") = false ->
      includes (toLowerCase (manufacturer deviceInfo)) (js "fuji") = true ->
      vendorOf toLowerCase deviceInfo = PTP_VENDOR_FUJI
      /\ forall e d,
          vendorShutterCount (vendorOf toLowerCase deviceInfo) e d
          = match getDevicePropValue PTP_DPC_FUJI_TotalShotCount e d with
            | (Ok (Some val), d') => (Ok val, d')
            | (Ok None, d') => (Ok (-1), d')
            | (Throw err, d') => (Throw err, d')
            end)
  /\ (includes (toLowerCase (manufacturer deviceInfo)) (js "canon") = false ->
      includes (toLowerCase (manufacturer deviceInfo)) (js "fuji") = false ->
      vendorOf toLowerCase deviceInfo = vendorExtensionId deviceInfo
      /\ (vendorExtensionId deviceInfo <> PTP_VENDOR_CANON ->
          vendorExtensionId deviceInfo <> PTP_VENDOR_FUJI ->
          forall e d,
            vendorShutterCount (vendorOf toLowerCase deviceInfo) e d
            = (Ok (-1), d))).
Proof.
  unfold vendorOf. cbv zeta. split; [|split].
  - intros Hc. rewrite Hc. split; reflexivity.
  - intros Hc Hf. rewrite Hc, Hf. split; [reflexivity|].
    intros e d. unfold vendorShutterCount. cbv zeta.
    change (PTP_VENDOR_FUJI =? PTP_VENDOR_CANON) with false.
    change (PTP_VENDOR_FUJI =? PTP_VENDOR_FUJI) with true. cbv iota.
    unfold bind.
    destruct (getDevicePropValue PTP_DPC_FUJI_TotalShotCount e d)
      as [[[v|]|err] d']; reflexivity.
  - intros Hc Hf. rewrite Hc, Hf. split; [reflexivity|].
    intros Hnc Hnf e d. unfold vendorShutterCount. cbv zeta.
    destruct (Z.eqb_spec (vendorExtensionId deviceInfo) PTP_VENDOR_CANON);
      [contradiction|].
    destruct (Z.eqb_spec (vendorExtensionId deviceInfo) PTP_VENDOR_FUJI);
      [contradiction|].
    reflexivity.
Qed.

Lemma vendor_dispatch_witness :
  vendorOf asciiToLowerCase
    (mkDeviceInfo PTP_VENDOR_FUJI (js "Canon Inc.") [] [] [])
  = PTP_VENDOR_CANON
  /\ vendorOf asciiToLowerCase
       (mkDeviceInfo PTP_VENDOR_CANON (js "FUJIFILM") [] [] [])
     = PTP_VENDOR_FUJI
  /\ vendorShutterCount
       (vendorOf asciiToLowerCase (mkDeviceInfo 0x0a (js "Nikon") [] [] []))
       (scriptedDevice [] []) (connected 1)
     = (Ok (-1), connected 1).
Proof.
  split; [|split].
  - apply (proj1 (vendor_dispatch asciiToLowerCase
                    (mkDeviceInfo PTP_VENDOR_FUJI (js "Canon Inc.") [] [] []))).
    reflexivity.
  - apply (proj1 (proj2 (vendor_dispatch asciiToLowerCase
                           (mkDeviceInfo PTP_VENDOR_CANON (js "FUJIFILM")
                              [] [] []))));
      reflexivity.
  - apply (proj2 (proj2 (vendor_dispatch asciiToLowerCase
                           (mkDeviceInfo 0x0a (js "Nikon") [] [] []))));
      solve [reflexivity | vm_compute; congruence].
Defined.

(* ================================================================== *)
(** ** Whole queries on scripted devices *)

(** An unknown vendor: only OpenSession, GetDeviceInfo and CloseSession go
    on the wire and the count is -1. *)
Example getCameraInfo_unknown_vendor :
  let run :=
    getCameraInfo asciiToLowerCase
      (scriptedDevice
         [response PTP_RC_OK; deviceInfoData 0x0a "Nikon" "D1";
          response PTP_RC_OK; response PTP_RC_OK] []) in
  fst run = Ok (mkCameraInfo (js "Nikon") (js "D1") (js "1.0") (js "SN1") (-1))
  /\ map hdr_code (outs (calls (snd run)))
     = [PTP_OC_OpenSession; PTP_OC_GetDeviceInfo; PTP_OC_CloseSession]
  /\ map hdr_tid (outs (calls (snd run))) = [0; 1; 2].
Proof. vm_compute. repeat split; reflexivity. Qed.

(** A camera named Canon that reports the Fuji vendor id: the Canon
    strategy runs and the drain finds the counter. *)
Example getCameraInfo_canon_named :
  let run :=
    getCameraInfo asciiToLowerCase
      (scriptedDevice
         [response PTP_RC_OK;
          deviceInfoData PTP_VENDOR_FUJI "Canon Inc." "EOS";
          response PTP_RC_OK;
          response PTP_RC_OK; response PTP_RC_OK; response PTP_RC_OK;
          response PTP_RC_OK;
          eventData (changeRecord PTP_DPC_CANON_EOS_ShutterCounter 1234);
          response PTP_RC_OK;
          response PTP_RC_OK; response PTP_RC_OK;
          response PTP_RC_OK] []) in
  fst run
  = Ok (mkCameraInfo (js "Canon Inc.") (js "EOS") (js "1.0") (js "SN1") 1234)
  /\ map hdr_code (outs (calls (snd run)))
     = [PTP_OC_OpenSession; PTP_OC_GetDeviceInfo;
        PTP_OC_CANON_EOS_SetRemoteMode; PTP_OC_CANON_EOS_SetEventMode;
        PTP_OC_CANON_EOS_SetRequestOLCInfoGroup;
        PTP_OC_CANON_EOS_PCHDDCapacity; PTP_OC_CANON_EOS_GetEvent;
        PTP_OC_CANON_EOS_SetRemoteMode; PTP_OC_CANON_EOS_SetEventMode;
        PTP_OC_CloseSession].
Proof. vm_compute. repeat split; reflexivity. Qed.

(** The count is obtained, but the device does not answer CloseSession:
    the query fails. *)
Example getCameraInfo_closeSession_fails :
  fst (getCameraInfo asciiToLowerCase
         (scriptedDevice
            [response PTP_RC_OK; deviceInfoData PTP_VENDOR_FUJI "FUJIFILM" "X";
             response PTP_RC_OK; propData 4711; response PTP_RC_OK] []))
  = Throw DOMException.
Proof. vm_compute. reflexivity. Qed.

(** A session conflict at the start of a query: the ids on the wire are
    0, 1, 0, 1, 2. *)
Example getCameraInfo_after_conflict :
  let run :=
    getCameraInfo asciiToLowerCase
      (scriptedDevice
         [response PTP_RC_SessionAlreadyOpened; response PTP_RC_OK;
          response PTP_RC_OK; deviceInfoData 0x0a "Nikon" "D1";
          response PTP_RC_OK; response PTP_RC_OK] []) in
  fst run = Ok (mkCameraInfo (js "Nikon") (js "D1") (js "1.0") (js "SN1") (-1))
  /\ map hdr_code (outs (calls (snd run)))
     = [PTP_OC_OpenSession; PTP_OC_CloseSession; PTP_OC_OpenSession;
        PTP_OC_GetDeviceInfo; PTP_OC_CloseSession]
  /\ map hdr_tid (outs (calls (snd run))) = [0; 1; 0; 1; 2].
Proof. vm_compute. repeat split; reflexivity. Qed.

(* ================================================================== *)
(** ** Reading back what was written *)

Lemma byteAt_app_r (a b : DataView) (i : Z) :
  0 <= i -> byteAt (a ++ b) (byteLength a + i) = byteAt b i.
Proof.
  intros H. unfold byteAt, byteLength.
  replace (Z.to_nat (Z.of_nat (List.length a) + i))
    with (List.length a + Z.to_nat i)%nat by lia.
  now rewrite app_nth2_plus.
Qed.

Lemma byteLength_le16 v : byteLength (le16 v) = 2.
Proof. reflexivity. Qed.

Lemma byteLength_le32 v : byteLength (le32 v) = 4.
Proof. reflexivity. Qed.

Lemma le16_bytes_mod (z : Z) :
  z mod 256 + 256 * ((z / 256) mod 256) = z mod 65536.
Proof.
  change 65536 with (256 * 256). rewrite Z.rem_mul_r by lia. lia.
Qed.

(** A byte, a 16-bit and a 32-bit word read where they were written. *)
Lemma getUint8_at view pre b post offset :
  view = pre ++ b :: post -> offset = byteLength pre ->
  getUint8 view offset = Ok (Z.of_N (Byte.to_N b)).
Proof.
  intros -> ->. unfold getUint8.
  replace (inRange (pre ++ b :: post) (byteLength pre) 1) with true.
  - replace (byteLength pre) with (byteLength pre + 0) by lia.
    rewrite byteAt_app_r by lia. reflexivity.
  - symmetry. apply inRange_true. rewrite byteLength_app.
    pose proof (byteLength_nonneg pre). pose proof (byteLength_nonneg post).
    unfold byteLength in *. cbn [List.length]. lia.
Qed.

Lemma getUint16_at view pre v post offset :
  view = pre ++ le16 v ++ post -> offset = byteLength pre ->
  getUint16 view offset = Ok (v mod 65536).
Proof.
  intros -> ->. rewrite getUint16_in.
  - replace (byteLength pre) with (byteLength pre + 0) at 1 by lia.
    rewrite !byteAt_app_r by lia. unfold byteAt, le16.
    change (Z.to_nat 0) with 0%nat. change (Z.to_nat 1) with 1%nat.
    cbn [app nth]. rewrite !byte_of_Z_value. f_equal. apply le16_bytes_mod.
  - apply byteLength_nonneg.
  - rewrite !byteLength_app, byteLength_le16.
    pose proof (byteLength_nonneg post). lia.
Qed.

Lemma getUint32_at view pre v post offset :
  view = pre ++ le32 v ++ post -> offset = byteLength pre ->
  getUint32 view offset = Ok (v mod 4294967296).
Proof.
  intros -> ->. unfold getUint32.
  replace (inRange (pre ++ le32 v ++ post) (byteLength pre) 4) with true.
  - replace (byteLength pre) with (byteLength pre + 0) at 1 by lia.
    rewrite !byteAt_app_r by lia. unfold byteAt, le32.
    change (Z.to_nat 0) with 0%nat. change (Z.to_nat 1) with 1%nat.
    change (Z.to_nat 2) with 2%nat. change (Z.to_nat 3) with 3%nat.
    cbn [app nth]. rewrite !byte_of_Z_value. f_equal. apply le_bytes_mod.
  - symmetry. apply inRange_true. rewrite !byteLength_app, byteLength_le32.
    pose proof (byteLength_nonneg pre). pose proof (byteLength_nonneg post).
    lia.
Qed.

Lemma byteLength_flat_map_le32 (l : list Z) :
  byteLength (flat_map le32 l) = 4 * Z.of_nat (List.length l).
Proof.
  induction l as [|x l IH]; [reflexivity|].
  cbn [flat_map]. rewrite byteLength_app, byteLength_le32, IH.
  cbn [List.length]. lia.
Qed.

Lemma byteLength_flat_map_le16 (l : list Z) :
  byteLength (flat_map le16 l) = 2 * Z.of_nat (List.length l).
Proof.
  induction l as [|x l IH]; [reflexivity|].
  cbn [flat_map]. rewrite byteLength_app, byteLength_le16, IH.
  cbn [List.length]. lia.
Qed.

Lemma byteLength_encodePacket t type code params :
  byteLength (encodePacket t type code params)
  = PTP_HEADER_SIZE + 4 * Z.of_nat (List.length params).
Proof.
  unfold encodePacket. rewrite !byteLength_app, !byteLength_le32,
    !byteLength_le16, byteLength_flat_map_le32.
  unfold PTP_HEADER_SIZE. lia.
Qed.

(** X1.  A container built by [encodePacket] has 12 + 4n bytes for n
    parameters, and reading it back with the DataView readers gives the
    length, the type, the code and the transaction id that were written
    (as 32-, 16-, 16- and 32-bit values) and each parameter at offset
    12 + 4i. *)
Theorem encodePacket_round_trip (t type code : Z) (params : list Z) :
  let buffer := encodePacket t type code params in
  byteLength buffer = 12 + 4 * Z.of_nat (List.length params)
  /\ getUint32 buffer 0
     = Ok ((12 + 4 * Z.of_nat (List.length params)) mod 4294967296)
  /\ getUint16 buffer 4 = Ok (type mod 65536)
  /\ getUint16 buffer 6 = Ok (code mod 65536)
  /\ getUint32 buffer 8 = Ok (t mod 4294967296)
  /\ (forall i param,
         nth_error params i = Some param ->
         getUint32 buffer (12 + 4 * Z.of_nat i)
         = Ok (param mod 4294967296)).
Proof.
  cbv zeta. split; [apply byteLength_encodePacket|].
  unfold encodePacket, PTP_HEADER_SIZE.
  replace (12 + Z.of_nat (List.length params) * 4)
    with (12 + 4 * Z.of_nat (List.length params)) by lia.
  split; [|split; [|split; [|split]]].
  - eapply (getUint32_at _ []); reflexivity.
  - eapply (getUint16_at _ (le32 _)); reflexivity.
  - eapply (getUint16_at _ (le32 _ ++ le16 _));
      [rewrite <- !app_assoc; reflexivity | reflexivity].
  - eapply (getUint32_at _ (le32 _ ++ le16 _ ++ le16 _));
      [rewrite <- !app_assoc; reflexivity | reflexivity].
  - intros i param Hi.
    apply nth_error_split in Hi. destruct Hi as (l1 & l2 & -> & <-).
    rewrite flat_map_app. cbn [flat_map].
    eapply (getUint32_at _ (le32 _ ++ le16 _ ++ le16 _ ++ le32 _
                             ++ flat_map le32 l1)).
    + rewrite <- !app_assoc. reflexivity.
    + rewrite !byteLength_app, !byteLength_le32, !byteLength_le16,
        byteLength_flat_map_le32. lia.
Qed.

Lemma encodePacket_round_trip_witness :
  getUint32
    (encodePacket 5 PTP_USB_CONTAINER_COMMAND PTP_OC_CANON_EOS_PCHDDCapacity
       [0x0fffffff; 0x1000; 0x1]) 20
  = Ok 1.
Proof.
  exact (proj2 (proj2 (proj2 (proj2 (proj2
           (encodePacket_round_trip 5 PTP_USB_CONTAINER_COMMAND
              PTP_OC_CANON_EOS_PCHDDCapacity [0x0fffffff; 0x1000; 0x1])))))
           2%nat 1 eq_refl).
Defined.

(* ================================================================== *)
(** ** Receiving containers *)

Lemma typedArraySet_keeps buf src offset r :
  typedArraySet buf src offset = Ok r ->
  byteLength r = byteLength buf
  /\ firstn (Z.to_nat offset) r = firstn (Z.to_nat offset) buf.
Proof.
  unfold typedArraySet.
  destruct ((0 <=? offset) && (offset + byteLength src <=? byteLength buf))
    eqn:E; [|discriminate].
  apply andb_true_iff in E. destruct E as [E1 E2].
  apply Z.leb_le in E1, E2. intros H%Ok_inj. subst r.
  unfold byteLength in *.
  assert (Hf : List.length (firstn (Z.to_nat offset) buf) = Z.to_nat offset)
    by (rewrite length_firstn; lia).
  split.
  - rewrite !length_app, length_skipn, Hf. lia.
  - rewrite <- Hf at 1. rewrite <- (Nat.add_0_r (List.length _)).
    rewrite firstn_app_2. cbn [firstn]. apply app_nil_r.
Qed.

(** The chunk loop neither resizes the buffer nor touches what lies before
    [offset]. *)
Lemma receiveData_chunks_keeps (e : Env) (length : Z) :
  forall fuel fullBuffer offset d r d',
    0 <= offset ->
    receiveData_chunks fuel length fullBuffer offset e d = (Ok r, d') ->
    byteLength r = byteLength fullBuffer
    /\ firstn (Z.to_nat offset) r = firstn (Z.to_nat offset) fullBuffer.
Proof.
  induction fuel as [|fuel IH]; intros fullBuffer offset d r d' Hoff H;
    cbn [receiveData_chunks] in H.
  - inversion H; subst. auto.
  - destruct (offset <? length); [|inversion H; subst; auto].
    unfold bind in H.
    destruct (transferIn (length - offset) e d) as [[[data|]|err] d1];
      try (inversion H; subst; auto; fail).
    destruct (byteLength data =? 0); [inversion H; subst; auto|].
    unfold lift in H.
    destruct (typedArraySet fullBuffer data offset) as [buf'|] eqn:Es;
      [|discriminate].
    apply typedArraySet_keeps in Es. destruct Es as [El Ef].
    pose proof (byteLength_nonneg data).
    apply IH in H; [|lia]. destruct H as [Hl Hf]. split; [congruence|].
    rewrite <- Ef.
    replace (Z.to_nat offset)
      with (Nat.min (Z.to_nat offset) (Z.to_nat (offset + byteLength data)))
      by lia.
    rewrite <- !firstn_firstn. now rewrite Hf.
Qed.

Lemma byteAt_firstn (v hv : DataView) (i : Z) :
  firstn (List.length hv) v = hv -> 0 <= i < byteLength hv ->
  byteAt v i = byteAt hv i.
Proof.
  intros Hf Hi. rewrite <- (firstn_skipn (List.length hv) v), Hf.
  now apply byteAt_app_l.
Qed.

Lemma receiveResponse_length e d v d' :
  receiveResponse e d = (Ok v, d') -> PTP_HEADER_SIZE <= byteLength v.
Proof.
  unfold receiveResponse, bind.
  destruct (transferIn 512 e d) as [[[data|]|err] d1]; try discriminate.
  destruct (Z.ltb_spec (byteLength data) PTP_HEADER_SIZE) as [|Hlen];
    [discriminate|].
  intros H. inversion H; subst. assumption.
Qed.

Lemma receiveData_result e d v d' :
  receiveData e d = (Ok v, d') ->
  PTP_HEADER_SIZE <= byteLength v
  /\ (getUint16 v 4 = Ok PTP_USB_CONTAINER_RESPONSE
      \/ getUint16 v 4 = Ok PTP_USB_CONTAINER_DATA
         /\ exists length,
             getUint32 v 0 = Ok length /\ length <= byteLength v).
Proof.
  unfold receiveData. unfold bind at 1.
  destruct (receiveData_header 3 None e d) as [[[hv|]|err] d1];
    try discriminate.
  destruct (Z.ltb_spec (byteLength hv) PTP_HEADER_SIZE) as [|Hlen];
    [discriminate|].
  unfold PTP_HEADER_SIZE in *.
  unfold bind, lift.
  destruct (getUint32 hv 0) as [length|] eqn:EL; [|discriminate].
  destruct (getUint16 hv 4) as [type|] eqn:ET; [|discriminate].
  destruct (Z.eqb_spec type PTP_USB_CONTAINER_DATA) as [->|Hty]; cbn [negb].
  - destruct (Z.geb_spec (byteLength hv) length) as [Hge|Hlt].
    + intros H. inversion H; subst. split; [assumption|]. right. eauto.
    + destruct (typedArraySet (repeat x00 (Z.to_nat length)) hv 0)
        as [fullBuffer|] eqn:Es; [|discriminate].
      intros H.
      apply receiveData_chunks_keeps in H; [|apply byteLength_nonneg].
      destruct H as [Hl Hf].
      pose proof Es as Es'. apply typedArraySet_keeps in Es'.
      destruct Es' as [El _].
      assert (Hbuf : byteLength fullBuffer = length).
      { rewrite El. unfold byteLength. rewrite repeat_length. lia. }
      assert (Hpre : firstn (List.length hv) v = hv).
      { unfold byteLength in Hf at 1 2. rewrite Nat2Z.id in Hf. rewrite Hf.
        unfold typedArraySet in Es.
        destruct ((0 <=? 0) && (0 + byteLength hv <=? byteLength
                    (repeat x00 (Z.to_nat length)))); [|discriminate].
        apply Ok_inj in Es. subst fullBuffer. cbn [Z.to_nat firstn app].
        rewrite <- (Nat.add_0_r (List.length hv)) at 1.
        rewrite firstn_app_2. cbn [firstn]. apply app_nil_r. }
      assert (Hv16 : getUint16 v 4 = getUint16 hv 4).
      { rewrite !getUint16_in by lia.
        now rewrite !(byteAt_firstn v hv) by (assumption || lia). }
      assert (Hv32 : getUint32 v 0 = getUint32 hv 0).
      { unfold getUint32.
        replace (inRange v 0 4) with true
          by (symmetry; apply inRange_true; lia).
        replace (inRange hv 0 4) with true
          by (symmetry; apply inRange_true; lia).
        now rewrite !(byteAt_firstn v hv) by (assumption || lia). }
      split; [lia|]. right. rewrite Hv16, Hv32. split; [assumption|].
      exists length. split; [assumption | lia].
  - destruct (Z.eqb_spec type PTP_USB_CONTAINER_RESPONSE) as [->|];
      [|discriminate].
    intros H. inversion H; subst. split; [assumption|]. now left.
Qed.

(** X2.  A packet handed back by [receiveResponse] or [receiveData] has at
    least the 12 header bytes, so the header reads of the callers cannot run
    out of bounds.  What [receiveData] returns is a Response container or a
    Data container, and a Data container is never shorter than the length
    its header declares: either the first chunk already held it all, or the
    buffer was allocated at the declared length. *)
Theorem received_packets_are_framed (e : Env) (d : PtpDevice) :
  (forall v d',
      receiveResponse e d = (Ok v, d') -> PTP_HEADER_SIZE <= byteLength v)
  /\ (forall v d',
         receiveData e d = (Ok v, d') ->
         PTP_HEADER_SIZE <= byteLength v
         /\ (getUint16 v 4 = Ok PTP_USB_CONTAINER_RESPONSE
             \/ getUint16 v 4 = Ok PTP_USB_CONTAINER_DATA
                /\ exists length,
                    getUint32 v 0 = Ok length /\ length <= byteLength v)).
Proof.
  split; intros v d'.
  - apply receiveResponse_length.
  - apply receiveData_result.
Qed.

(** A data container of 20 bytes arrives as a 16-byte chunk and a 4-byte
    chunk. *)
Lemma received_packets_are_framed_witness :
  PTP_HEADER_SIZE
  <= byteLength (encodePacket 0 PTP_USB_CONTAINER_RESPONSE PTP_RC_OK [])
  /\ PTP_HEADER_SIZE
     <= byteLength (dataContainer PTP_OC_GetDeviceInfo 1
                      [x01; x02; x03; x04; x05; x06; x07; x08]).
Proof.
  split.
  - apply (proj1 (received_packets_are_framed
                    (scriptedDevice [response PTP_RC_OK] []) (connected 0))
             _ (snd (receiveResponse (scriptedDevice [response PTP_RC_OK] [])
                       (connected 0)))).
    vm_compute. reflexivity.
  - apply (proj2 (received_packets_are_framed
                    (scriptedDevice
                       [Ok (Some (firstn 16
                                    (dataContainer PTP_OC_GetDeviceInfo 1
                                       [x01; x02; x03; x04; x05; x06; x07;
                                        x08])));
                        Ok (Some [x05; x06; x07; x08])] [])
                    (connected 0))
             _ (snd (receiveData
                       (scriptedDevice
                          [Ok (Some (firstn 16
                                       (dataContainer PTP_OC_GetDeviceInfo 1
                                          [x01; x02; x03; x04; x05; x06; x07;
                                           x08])));
                           Ok (Some [x05; x06; x07; x08])] [])
                       (connected 0)))).
    vm_compute. reflexivity.
Defined.

(** X3.  Waiting for the header of a data container: three reads that bring
    nothing are tolerated and then [receiveData] gives up with "invalid data
    packet header", having made exactly three reads of 1024 bytes; a first
    read that brings bytes ends the waiting at once; a rejected read is not
    retried. *)
Theorem receiveData_header_retries (e : Env) (d : PtpDevice) :
  let read := Call_transferIn (inEndpoint d) 1024 in
  (emptyRead (usb_transferIn e (calls d ++ [read])) ->
   emptyRead (usb_transferIn e ((calls d ++ [read]) ++ [read])) ->
   emptyRead (usb_transferIn e (((calls d ++ [read]) ++ [read]) ++ [read])) ->
   exists len,
     receiveData e d
     = (Throw (Err_InvalidDataPacketHeader len),
        with_session d (transactionId d)
          (((calls d ++ [read]) ++ [read]) ++ [read])))
  /\ (forall v,
         usb_transferIn e (calls d ++ [read]) = Ok (Some v) ->
         0 < byteLength v ->
         receiveData_header 3 None e d
         = (Ok (Some v),
            with_session d (transactionId d) (calls d ++ [read])))
  /\ (forall err,
         usb_transferIn e (calls d ++ [read]) = Throw err ->
         receiveData e d
         = (Throw err, with_session d (transactionId d) (calls d ++ [read]))).
Proof.
  cbv zeta. unfold with_session. split; [|split].
  - intros H1 H2 H3. unfold receiveData. unfold bind at 1.
    cbn [receiveData_header]. unfold bind, transferIn, usb_call, ret, throw.
    m_simpl.
    destruct H1 as [H1|H1], H2 as [H2|H2], H3 as [H3|H3];
      rewrite H1; m_simpl; try change (byteLength [] >? 0) with false;
      cbv iota; m_simpl; rewrite H2; m_simpl;
      try change (byteLength [] >? 0) with false;
      cbv iota; m_simpl; rewrite H3; m_simpl;
      try change (byteLength [] >? 0) with false; cbv iota;
      try change (byteLength [] <? PTP_HEADER_SIZE) with true; cbv iota;
      eexists; reflexivity.
  - intros v Hv Hlen. cbn [receiveData_header].
    unfold bind, transferIn, usb_call, ret. m_simpl. rewrite Hv.
    destruct (Z.gtb_spec (byteLength v) 0); [reflexivity | lia].
  - intros err Herr. unfold receiveData. unfold bind at 1.
    cbn [receiveData_header]. unfold bind, transferIn, usb_call. m_simpl.
    rewrite Herr. reflexivity.
Qed.

Lemma receiveData_header_retries_witness :
  (exists len,
      receiveData (scriptedDevice [Ok None; Ok (Some []); Ok None] [])
        (connected 0)
      = (Throw (Err_InvalidDataPacketHeader len),
         with_session (connected 0) 0
           [Call_transferIn 1 1024; Call_transferIn 1 1024;
            Call_transferIn 1 1024]))
  /\ receiveData_header 3 None (scriptedDevice [response PTP_RC_OK] [])
       (connected 0)
     = (Ok (Some (encodePacket 0 PTP_USB_CONTAINER_RESPONSE PTP_RC_OK [])),
        with_session (connected 0) 0 [Call_transferIn 1 1024])
  /\ receiveData (scriptedDevice [] []) (connected 0)
     = (Throw DOMException,
        with_session (connected 0) 0 [Call_transferIn 1 1024]).
Proof.
  split; [|split].
  - apply (proj1 (receiveData_header_retries
                    (scriptedDevice [Ok None; Ok (Some []); Ok None] [])
                    (connected 0)));
      [left | right | left]; reflexivity.
  - apply (proj1 (proj2 (receiveData_header_retries
                           (scriptedDevice [response PTP_RC_OK] [])
                           (connected 0))));
      reflexivity.
  - apply (proj2 (proj2 (receiveData_header_retries (scriptedDevice [] [])
                           (connected 0)))).
    reflexivity.
Defined.

(* ================================================================== *)
(** ** What the decoders and the strategies can return *)

Lemma wordAt_range view offset : 0 <= wordAt view offset < 4294967296.
Proof.
  unfold wordAt.
  pose proof (byteAt_range view offset).
  pose proof (byteAt_range view (offset + 1)).
  pose proof (byteAt_range view (offset + 2)).
  pose proof (byteAt_range view (offset + 3)). lia.
Qed.

Lemma decodeEvents_watched view :
  forall fuel offset,
    0 <= offset ->
    Forall watchedChange (decodeEvents fuel view offset)
    /\ 16 * Z.of_nat (List.length (decodeEvents fuel view offset))
       <= Z.max 0 (byteLength view - offset).
Proof.
  induction fuel as [|fuel IH]; intros offset Hoff; cbn [decodeEvents].
  - cbn [List.length]. split; [constructor | lia].
  - cbv zeta.
    destruct (Z.ltb_spec (byteLength view) (offset + 8)); cbn [orb];
      [cbn [List.length]; split; [constructor | lia]|].
    destruct (Z.ltb_spec (wordAt view offset) 8); cbn [orb];
      [cbn [List.length]; split; [constructor | lia]|].
    destruct ((wordAt view offset =? 8) && (wordAt view (offset + 4) =? 0));
      cbn [orb]; [cbn [List.length]; split; [constructor | lia]|].
    destruct (Z.ltb_spec (byteLength view) (offset + wordAt view offset));
      [cbn [List.length]; split; [constructor | lia]|].
    destruct (IH (offset + wordAt view offset) ltac:(lia)) as [IHf IHl].
    destruct (wordAt view (offset + 4) =? PTP_EC_CANON_EOS_PropValueChanged);
      cbn [andb app]; [|split; [assumption | lia]].
    destruct (CAPTURED_PROP_CHANGES_has (wordAt view (offset + 8))) eqn:Ec;
      cbn [andb app]; [|split; [assumption | lia]].
    destruct (Z.leb_spec 16 (wordAt view offset)); cbn [app];
      [|split; [assumption | lia]].
    split.
    + constructor; [|assumption]. split; [exact Ec | apply wordAt_range].
    + cbn [List.length]. lia.
Qed.

Lemma parseCanonPropChanges_watched view l :
  parseCanonPropChanges view = Ok l ->
  Forall watchedChange l
  /\ 16 * Z.of_nat (List.length l)
     <= Z.max 0 (byteLength view - PTP_HEADER_SIZE).
Proof.
  intros H. apply parseCanonPropChanges_decodes in H. subst l.
  apply decodeEvents_watched. unfold PTP_HEADER_SIZE. lia.
Qed.

Lemma getCanonPropChanges_watched e d l d' :
  getCanonPropChanges e d = (Ok l, d') -> Forall watchedChange l.
Proof.
  unfold getCanonPropChanges, try_catch, getCanonPropChanges_try, bind, lift,
    ret.
  destruct (sendCommand PTP_OC_CANON_EOS_GetEvent [] e d) as [[u|err] d1];
    [|intros H; inversion H; constructor].
  destruct (receiveData e d1) as [[data|err] d2];
    [|intros H; inversion H; constructor].
  destruct (getUint16 data 4) as [type|];
    [|intros H; inversion H; constructor].
  destruct (type =? PTP_USB_CONTAINER_RESPONSE);
    [intros H; inversion H; constructor|].
  destruct (receiveResponse e d2) as [[resp|err] d3];
    [|intros H; inversion H; constructor].
  destruct (byteLength data <=? PTP_HEADER_SIZE);
    [intros H; inversion H; constructor|].
  destruct (parseCanonPropChanges data) as [l'|] eqn:Ep;
    intros H; inversion H; subst; [|constructor].
  now apply parseCanonPropChanges_watched in Ep.
Qed.

(** X4.  Every change that event decoding returns carries one of the two
    watched property codes and a value below 2^32, and each one accounts for
    at least 16 bytes of the payload after the header.  The same holds for
    the events [getCanonPropChanges] hands to the strategies. *)
Theorem decoded_changes_are_watched (view : DataView) (e : Env)
  (d : PtpDevice) :
  (forall l,
      parseCanonPropChanges view = Ok l ->
      Forall watchedChange l
      /\ 16 * Z.of_nat (List.length l)
         <= Z.max 0 (byteLength view - PTP_HEADER_SIZE))
  /\ (forall l d',
         getCanonPropChanges e d = (Ok l, d') -> Forall watchedChange l).
Proof.
  split.
  - apply parseCanonPropChanges_watched.
  - apply getCanonPropChanges_watched.
Qed.

Lemma decoded_changes_are_watched_witness :
  Forall watchedChange
    [mkPropValueChange PTP_DPC_CANON_EOS_ShutterCounter 1234]
  /\ Forall watchedChange
       [mkPropValueChange PTP_DPC_CANON_EOS_ShutterReleaseCounter 7].
Proof.
  split.
  - apply (proj1 (decoded_changes_are_watched
                    (dataContainer PTP_OC_CANON_EOS_GetEvent 5
                       (changeRecord 0xd101 9
                        ++ changeRecord PTP_DPC_CANON_EOS_ShutterCounter 1234))
                    (scriptedDevice [] []) (connected 0))).
    vm_compute. reflexivity.
  - apply (proj2 (decoded_changes_are_watched []
                    (scriptedDevice
                       [eventData
                          (changeRecord
                             PTP_DPC_CANON_EOS_ShutterReleaseCounter 7);
                        response PTP_RC_OK] [])
                    (connected 0))
             _ (snd (getCanonPropChanges
                       (scriptedDevice
                          [eventData
                             (changeRecord
                                PTP_DPC_CANON_EOS_ShutterReleaseCounter 7);
                           response PTP_RC_OK] [])
                       (connected 0)))).
    vm_compute. reflexivity.
Defined.

Lemma drainShutterEvents_loop_first n e d evts d1 :
  getCanonPropChanges e d = (Ok evts, d1) ->
  drainShutterEvents_loop (S n) e d
  = (Ok (option_map value (hd_error evts)), d1).
Proof.
  intros H. pose proof (getCanonPropChanges_watched _ _ _ _ H) as Hw.
  cbn [drainShutterEvents_loop]. unfold bind. rewrite H.
  destruct evts as [|c evts]; [reflexivity|].
  inversion Hw as [|? ? [Hc _] _]; subst.
  unfold array_find. cbn [find]. unfold isShutterEvent.
  unfold CAPTURED_PROP_CHANGES_has in Hc. rewrite Hc. reflexivity.
Qed.

(** X5.  The drain never needs its five passes: the events it polls are
    already filtered down to the two shutter codes, so the first poll
    decides.  [drainShutterEvents] makes exactly one event poll and returns
    the value of the first event of that poll, or no value when the poll is
    empty; the device is left as that single poll left it. *)
Theorem drainShutterEvents_single_poll (e : Env) (d : PtpDevice) :
  exists evts,
    getCanonPropChanges e d = (Ok evts, snd (getCanonPropChanges e d))
    /\ drainShutterEvents e d
       = (Ok (option_map value (hd_error evts)),
          snd (getCanonPropChanges e d)).
Proof.
  destruct (getCanonPropChanges_never_throws e d) as [evts He].
  destruct (getCanonPropChanges e d) as [r d1] eqn:E. cbn [fst snd] in *.
  subst r. exists evts. split; [reflexivity|].
  unfold drainShutterEvents, try_catch.
  now rewrite (drainShutterEvents_loop_first 4 e d evts d1 E).
Qed.

Lemma queryAndPollShutterProp_loop_found propCode' (e : Env) :
  forall n d v d',
    queryAndPollShutterProp_loop propCode' n e d = (Ok (Some v), d') ->
    exists d0 evts d1,
      getCanonPropChanges e d0 = (Ok evts, d1)
      /\ In (mkPropValueChange propCode' v) evts.
Proof.
  induction n as [|n IH]; intros d v d' H;
    cbn [queryAndPollShutterProp_loop] in H.
  - discriminate.
  - unfold bind in H.
    destruct (getCanonPropChanges e d) as [[evts|err] d1] eqn:E;
      [|discriminate].
    unfold array_find in H.
    destruct (find (fun c => propCode c =? propCode') evts) as [evt|] eqn:Ef.
    + apply find_some in Ef. destruct Ef as [Hin Hp].
      apply Z.eqb_eq in Hp. inversion H; subst.
      eexists _, _, _. split; [eassumption|]. now destruct evt.
    + eapply IH. eassumption.
Qed.

Lemma queryAndPollShutterProp_found propCode e d v d' :
  queryAndPollShutterProp propCode e d = (Ok (Some v), d') ->
  exists d0 evts d1,
    getCanonPropChanges e d0 = (Ok evts, d1)
    /\ In (mkPropValueChange propCode v) evts.
Proof.
  unfold queryAndPollShutterProp, try_catch. unfold bind at 1.
  destruct (sendCommand PTP_OC_CANON_EOS_RequestDevicePropValue [propCode] e d)
    as [[u|err] d1]; [|discriminate].
  unfold bind at 1.
  destruct (receiveResponse e d1) as [[resp|err] d2]; [|discriminate].
  destruct (queryAndPollShutterProp_loop propCode 5 e d2)
    as [[r|err] d3] eqn:El; [|discriminate].
  intros H. inversion H; subst.
  eapply queryAndPollShutterProp_loop_found. eassumption.
Qed.

Lemma stage_values_in_range (stage : M (option Z)) :
  In stage canonStages ->
  forall e d v d',
    stage e d = (Ok (Some v), d') -> 0 <= v < 4294967296.
Proof.
  intros Hin e d v d' H.
  assert (Hq : forall pc, queryAndPollShutterProp pc e d = (Ok (Some v), d') ->
                          0 <= v < 4294967296).
  { intros pc Hpc. apply queryAndPollShutterProp_found in Hpc.
    destruct Hpc as (d0 & evts & d1 & Hg & Hi).
    apply getCanonPropChanges_watched in Hg.
    rewrite Forall_forall in Hg. apply Hg in Hi. exact (proj2 Hi). }
  assert (Hg : forall pc, getDevicePropValue pc e d = (Ok (Some v), d') ->
                          0 <= v < 4294967296).
  { intros pc. unfold getDevicePropValue, bind, lift, ret.
    destruct (sendCommand PTP_OC_GetDevicePropValue [pc] e d)
      as [[u|err] d1]; [|discriminate].
    destruct (receiveData e d1) as [[data|err] d2]; [|discriminate].
    destruct (getUint16 data 4) as [type|]; [|discriminate].
    destruct (type =? PTP_USB_CONTAINER_RESPONSE); [discriminate|].
    destruct (receiveResponse e d2) as [[resp|err] d3]; [|discriminate].
    destruct (getUint16 resp 6) as [code|]; [|discriminate].
    destruct (negb (code =? PTP_RC_OK)); [discriminate|].
    destruct (byteLength data >=? 16); [|discriminate].
    destruct (getUint32 data PTP_HEADER_SIZE) as [x|] eqn:Ex; [|discriminate].
    intros Hx. inversion Hx; subst. eapply getUint32_range. eassumption. }
  assert (Hd : drainShutterEvents e d = (Ok (Some v), d') ->
               0 <= v < 4294967296).
  { intros Hdr.
    destruct (getCanonPropChanges_never_throws e d) as [l Hl].
    destruct (getCanonPropChanges e d) as [r d1] eqn:E. cbn [fst snd] in *.
    subst r. unfold drainShutterEvents, try_catch in Hdr.
    rewrite (drainShutterEvents_loop_first 4 e d l d1 E) in Hdr.
    apply getCanonPropChanges_watched in E.
    destruct l as [|c l]; [discriminate|].
    cbn [hd_error option_map] in Hdr. inversion Hdr; subst.
    inversion E as [|? ? [_ Hr] _]; subst. exact Hr. }
  cbn [canonStages In] in Hin.
  destruct Hin as [<-|[<-|[<-|[<-|[<-|[]]]]]]; eauto.
Qed.

Lemma getDevicePropValue_range propCode e d v d' :
  getDevicePropValue propCode e d = (Ok (Some v), d') ->
  0 <= v < 4294967296.
Proof.
  unfold getDevicePropValue, bind, lift, ret.
  destruct (sendCommand PTP_OC_GetDevicePropValue [propCode] e d)
    as [[u|err] d1]; [|discriminate].
  destruct (receiveData e d1) as [[data|err] d2]; [|discriminate].
  destruct (getUint16 data 4) as [type|]; [|discriminate].
  destruct (type =? PTP_USB_CONTAINER_RESPONSE); [discriminate|].
  destruct (receiveResponse e d2) as [[resp|err] d3]; [|discriminate].
  destruct (getUint16 resp 6) as [code|]; [|discriminate].
  destruct (negb (code =? PTP_RC_OK)); [discriminate|].
  destruct (byteLength data >=? 16); [|discriminate].
  destruct (getUint32 data PTP_HEADER_SIZE) as [x|] eqn:Ex; [|discriminate].
  intros Hx. inversion Hx; subst. eapply getUint32_range. eassumption.
Qed.

Lemma firstValue_range (stages : list (M (option Z))) :
  (forall stage, In stage stages ->
                 forall e d v d', stage e d = (Ok (Some v), d') ->
                                  0 <= v < 4294967296) ->
  forall e d v d',
    firstValue stages e d = (Ok v, d') -> countOrUnavailable v.
Proof.
  induction stages as [|s stages IH]; intros Hs e d v d' H;
    cbn [firstValue] in H.
  - inversion H. now left.
  - unfold bind in H. destruct (s e d) as [[[x|]|err] d1] eqn:E;
      [| |discriminate].
    + inversion H; subst. right. eapply Hs; [left; reflexivity | eassumption].
    + eapply IH; [|eassumption]. intros stage Hin. apply Hs. now right.
Qed.

Lemma getCanonShutterCount_range e d v d' :
  getCanonShutterCount e d = (Ok v, d') -> countOrUnavailable v.
Proof.
  rewrite getCanonShutterCount_firstValue. apply firstValue_range.
  apply stage_values_in_range.
Qed.

Lemma vendorShutterCount_range vendorId e d v d' :
  vendorShutterCount vendorId e d = (Ok v, d') -> countOrUnavailable v.
Proof.
  unfold vendorShutterCount. cbv zeta.
  destruct (vendorId =? PTP_VENDOR_CANON).
  - unfold try_finally, bind.
    destruct (initCanon e d) as [[u|err] d1].
    + destruct (getCanonShutterCount e d1) as [r d2] eqn:E.
      destruct (exitCanon e d2) as [[u'|err] d3]; [|discriminate].
      intros H. inversion H; subst. eapply getCanonShutterCount_range.
      eassumption.
    + destruct (exitCanon e d1) as [[u'|err'] d3]; discriminate.
  - destruct (vendorId =? PTP_VENDOR_FUJI).
    + unfold bind.
      destruct (getDevicePropValue PTP_DPC_FUJI_TotalShotCount e d)
        as [[[x|]|err] d1] eqn:E; [| |discriminate].
      * intros H. inversion H; subst. right.
        eapply getDevicePropValue_range. eassumption.
      * intros H. inversion H. now left.
    + intros H. inversion H. now left.
Qed.

(** X6.  The count a strategy or a whole query returns is either the
    sentinel -1 or a value in [0, 2^32): every value comes from a 32-bit
    little-endian read, so -1 can only mean that no strategy produced a
    value. *)
Theorem shutter_count_is_u32_or_sentinel
  (toLowerCase : jsstring -> jsstring) (e : Env) (d : PtpDevice) :
  (forall v d',
      getCanonShutterCount e d = (Ok v, d') -> countOrUnavailable v)
  /\ (forall vendorId v d',
         vendorShutterCount vendorId e d = (Ok v, d') -> countOrUnavailable v)
  /\ (forall info d',
         getCameraInfo_device toLowerCase e d = (Ok info, d') ->
         countOrUnavailable (shutterCount info)).
Proof.
  split; [intros; eapply getCanonShutterCount_range; eassumption|].
  split; [intros; eapply vendorShutterCount_range; eassumption|].
  intros info d'. unfold getCameraInfo_device, try_finally.
  destruct (getCameraInfo_try toLowerCase e d) as [r d1] eqn:E.
  destruct (close e d1) as [[u|err] d2]; [|discriminate].
  intros H. inversion H; subst. clear H.
  unfold getCameraInfo_try, bind, ret in E.
  destruct (connect e d) as [[u1|err] d3]; [|discriminate].
  destruct (openSession e d3) as [[u2|err] d4]; [|discriminate].
  destruct (getDeviceInfo e d4) as [[di|err] d5]; [|discriminate].
  destruct (vendorShutterCount (vendorOf toLowerCase di) e d5)
    as [[sc|err] d6] eqn:Ev; [|discriminate].
  destruct (closeSession e d6) as [[u3|err] d7]; [|discriminate].
  destruct (close e d7) as [[u4|err] d8]; [|discriminate].
  inversion E; subst. cbn [shutterCount].
  eapply vendorShutterCount_range. eassumption.
Qed.

Lemma shutter_count_is_u32_or_sentinel_witness :
  countOrUnavailable 1234 /\ countOrUnavailable (-1) /\ countOrUnavailable 4711.
Proof.
  split; [|split].
  - apply (proj1 (shutter_count_is_u32_or_sentinel asciiToLowerCase
                    pollingCanon (connected 5))
             1234 (snd (getCanonShutterCount pollingCanon (connected 5)))).
    vm_compute. reflexivity.
  - apply (proj1 (proj2 (shutter_count_is_u32_or_sentinel asciiToLowerCase
                           (scriptedDevice [response 0x200a] [])
                           (connected 1)))
             PTP_VENDOR_FUJI (-1)
             (snd (vendorShutterCount PTP_VENDOR_FUJI
                     (scriptedDevice [response 0x200a] []) (connected 1)))).
    vm_compute. reflexivity.
  - apply (proj2 (proj2 (shutter_count_is_u32_or_sentinel asciiToLowerCase
                           (scriptedDevice
                              [response PTP_RC_OK;
                               deviceInfoData PTP_VENDOR_FUJI "FUJIFILM" "X";
                               response PTP_RC_OK; propData 4711;
                               response PTP_RC_OK; response PTP_RC_OK] [])
                           newPtpDevice))
             (mkCameraInfo (js "FUJIFILM") (js "X") (js "1.0") (js "SN1") 4711)
             (snd (getCameraInfo_device asciiToLowerCase
                     (scriptedDevice
                        [response PTP_RC_OK;
                         deviceInfoData PTP_VENDOR_FUJI "FUJIFILM" "X";
                         response PTP_RC_OK; propData 4711;
                         response PTP_RC_OK; response PTP_RC_OK] [])
                     newPtpDevice))).
    vm_compute. reflexivity.
Defined.

(* ================================================================== *)
(** ** Command sequences of the strategies *)

Lemma sendCommand_calls code params e d :
  calls (snd (sendCommand code params e d))
  = calls d ++ [Call_transferOut (outEndpoint d)
                  (commandAfter (transactionId d) code params)].
Proof. reflexivity. Qed.

(** A command followed by code that sends at most [n] more. *)
Lemma command_then {A} code params (k : unit -> M A) P (n : nat) :
  (forall u, sends P n (k u)) ->
  forall e d,
    exists l rest,
      calls (snd (bind (sendCommand code params) k e d)) = calls d ++ l
      /\ outs l = commandAfter (transactionId d) code params :: rest
      /\ (List.length rest <= n)%nat
      /\ Forall (fun b => P (hdr_code b)) rest.
Proof.
  intros Hk e d. unfold bind.
  pose proof (sendCommand_calls code params e d) as Hc.
  destruct (sendCommand code params e d) as [[u|err] d1]; cbn [snd] in Hc.
  - destruct (Hk u e d1) as [l2 (Hc2 & Hl2 & _ & _ & Hf2)].
    exists (Call_transferOut (outEndpoint d)
              (commandAfter (transactionId d) code params) :: l2), (outs l2).
    cbv iota beta. rewrite Hc2, Hc, <- app_assoc.
    repeat split; auto.
  - exists [Call_transferOut (outEndpoint d)
              (commandAfter (transactionId d) code params)], [].
    cbv iota beta. cbn [snd]. rewrite Hc. repeat split; auto. cbn. lia.
Qed.

Lemma try_catch_silent_calls {A} (m : M A) (a : A) e d :
  snd (try_catch m (fun _ => ret a) e d) = snd (m e d).
Proof. unfold try_catch. destruct (m e d) as [[x|err] d1]; reflexivity. Qed.

Lemma getDevicePropValue_one_command propCode e d :
  exists l,
    calls (snd (getDevicePropValue propCode e d)) = calls d ++ l
    /\ outs l = [commandAfter (transactionId d) PTP_OC_GetDevicePropValue
                   [propCode]].
Proof.
  unfold getDevicePropValue.
  match goal with
  | |- context [bind (sendCommand ?c ?ps) ?k] =>
      destruct (command_then c ps k (fun _ => True) 0
                  ltac:(intros; sends_auto) e d)
        as (l & rest & Hc & Ho & Hl & _)
  end.
  apply length_0_nil in Hl. subst rest. eauto.
Qed.

(** X7.  The Fuji strategy puts exactly one command on the wire, whatever
    the device answers: GetDevicePropValue for property 0xD310, with the
    next transaction id.  No Canon command is ever sent on this path. *)
Theorem fuji_single_command (e : Env) (d : PtpDevice) :
  exists l,
    calls (snd (vendorShutterCount PTP_VENDOR_FUJI e d)) = calls d ++ l
    /\ outs l = [commandAfter (transactionId d) PTP_OC_GetDevicePropValue
                   [PTP_DPC_FUJI_TotalShotCount]].
Proof.
  destruct (getDevicePropValue_one_command PTP_DPC_FUJI_TotalShotCount e d)
    as (l & Hc & Ho).
  exists l. split; [|exact Ho]. rewrite <- Hc.
  unfold vendorShutterCount. cbv zeta.
  change (PTP_VENDOR_FUJI =? PTP_VENDOR_CANON) with false.
  change (PTP_VENDOR_FUJI =? PTP_VENDOR_FUJI) with true. cbv iota.
  unfold bind.
  destruct (getDevicePropValue PTP_DPC_FUJI_TotalShotCount e d)
    as [[[v|]|err] d1]; reflexivity.
Qed.

Ltac canon_unfold :=
  cbv beta iota delta
    [initCanon exitCanon try_catch sendCommand receiveResponse bind ret throw
       get_transactionId set_transactionId transferOut transferIn usb_call];
  m_simpl.




(** X9.  The Canon exit sequence always sends both of its commands,
    SetRemoteMode(1) and then SetEventMode(0), with consecutive transaction
    ids: a failure of the first step does not keep the second from being
    sent. *)
Theorem exitCanon_sends_both (e : Env) (d : PtpDevice) :
  exists l,
    calls (snd (exitCanon e d)) = calls d ++ l
    /\ outs l = exitCommands (transactionId d).
Proof.
  canon_unfold. repeat m_case.
  all: eexists; rewrite <- ?app_assoc; cbn [app].
  all: split; [reflexivity | reflexivity].
Qed.

(** X10.  A request+poll stage first sends RequestDevicePropValue for its
    property code and then at most five GetEvent polls.  When the request
    cannot be sent, or its response cannot be read, the stage yields no value
    without polling at all.  A value it returns is the value of an event for
    exactly the requested property code, taken from one of its polls. *)
Theorem queryAndPollShutterProp_protocol
  (propCode : Z) (e : Env) (d : PtpDevice) :
  (exists l polls,
      calls (snd (queryAndPollShutterProp propCode e d)) = calls d ++ l
      /\ outs l
         = commandAfter (transactionId d)
             PTP_OC_CANON_EOS_RequestDevicePropValue [propCode] :: polls
      /\ (List.length polls <= 5)%nat
      /\ Forall (fun b => hdr_code b = PTP_OC_CANON_EOS_GetEvent) polls)
  /\ (forall err d1,
         sendCommand PTP_OC_CANON_EOS_RequestDevicePropValue [propCode] e d
         = (Throw err, d1) ->
         queryAndPollShutterProp propCode e d = (Ok None, d1))
  /\ (forall d1 err d2,
         sendCommand PTP_OC_CANON_EOS_RequestDevicePropValue [propCode] e d
         = (Ok tt, d1) ->
         receiveResponse e d1 = (Throw err, d2) ->
         queryAndPollShutterProp propCode e d = (Ok None, d2))
  /\ (forall v d',
         queryAndPollShutterProp propCode e d = (Ok (Some v), d') ->
         exists d0 evts d1,
           getCanonPropChanges e d0 = (Ok evts, d1)
           /\ In (mkPropValueChange propCode v) evts).
Proof.
  split; [|split; [|split]].
  - unfold queryAndPollShutterProp. rewrite try_catch_silent_calls.
    match goal with
    | |- context [bind (sendCommand ?oc ?ps) ?k] =>
        destruct (command_then oc ps k
                    (fun x => In x [PTP_OC_CANON_EOS_GetEvent]) 5
                    ltac:(intros; sends_auto) e d)
          as (l & rest & Hc & Ho & Hl & Hf)
    end.
    exists l, rest. repeat split; auto.
    eapply Forall_impl; [|exact Hf]. cbn [In]. intros b [H|[]]. now symmetry.
  - intros err d1 H. unfold queryAndPollShutterProp, try_catch.
    unfold bind at 1. now rewrite H.
  - intros d1 err d2 H1 H2. unfold queryAndPollShutterProp, try_catch.
    unfold bind at 1. rewrite H1. unfold bind at 1. now rewrite H2.
  - intros v d'. apply queryAndPollShutterProp_found.
Qed.

Lemma queryAndPollShutterProp_protocol_witness :
  queryAndPollShutterProp PTP_DPC_CANON_EOS_ShutterCounter
    (scriptedDevice [] [1%nat]) (connected 0)
  = (Ok None,
     snd (sendCommand PTP_OC_CANON_EOS_RequestDevicePropValue
            [PTP_DPC_CANON_EOS_ShutterCounter]
            (scriptedDevice [] [1%nat]) (connected 0)))
  /\ queryAndPollShutterProp PTP_DPC_CANON_EOS_ShutterCounter
       (scriptedDevice [] []) (connected 0)
     = (Ok None,
        snd (receiveResponse (scriptedDevice [] [])
               (snd (sendCommand PTP_OC_CANON_EOS_RequestDevicePropValue
                       [PTP_DPC_CANON_EOS_ShutterCounter]
                       (scriptedDevice [] []) (connected 0)))))
  /\ (exists d0 evts d1,
         getCanonPropChanges
           (scriptedDevice
              [response PTP_RC_OK;
               eventData
                 (changeRecord PTP_DPC_CANON_EOS_ShutterReleaseCounter 9
                  ++ changeRecord PTP_DPC_CANON_EOS_ShutterCounter 1234);
               response PTP_RC_OK] []) d0
         = (Ok evts, d1)
         /\ In (mkPropValueChange PTP_DPC_CANON_EOS_ShutterCounter 1234) evts).
Proof.
  split; [|split].
  - apply (proj1 (proj2 (queryAndPollShutterProp_protocol
                           PTP_DPC_CANON_EOS_ShutterCounter
                           (scriptedDevice [] [1%nat]) (connected 0)))
             DOMException).
    vm_compute. reflexivity.
  - apply (proj1 (proj2 (proj2 (queryAndPollShutterProp_protocol
                                  PTP_DPC_CANON_EOS_ShutterCounter
                                  (scriptedDevice [] []) (connected 0))))
             (snd (sendCommand PTP_OC_CANON_EOS_RequestDevicePropValue
                     [PTP_DPC_CANON_EOS_ShutterCounter]
                     (scriptedDevice [] []) (connected 0)))
             DOMException);
      vm_compute; reflexivity.
  - apply (proj2 (proj2 (proj2 (queryAndPollShutterProp_protocol
                                  PTP_DPC_CANON_EOS_ShutterCounter
                                  (scriptedDevice
                                     [response PTP_RC_OK;
                                      eventData
                                        (changeRecord
                                           PTP_DPC_CANON_EOS_ShutterReleaseCounter
                                           9
                                         ++ changeRecord
                                              PTP_DPC_CANON_EOS_ShutterCounter
                                              1234);
                                      response PTP_RC_OK] [])
                                  (connected 0))))
             1234
             (snd (queryAndPollShutterProp PTP_DPC_CANON_EOS_ShutterCounter
                     (scriptedDevice
                        [response PTP_RC_OK;
                         eventData
                           (changeRecord
                              PTP_DPC_CANON_EOS_ShutterReleaseCounter 9
                            ++ changeRecord PTP_DPC_CANON_EOS_ShutterCounter
                                 1234);
                         response PTP_RC_OK] [])
                     (connected 0)))).
    vm_compute. reflexivity.
Defined.

(* ================================================================== *)
(** ** The size of a query *)

Lemma drainShutterEvents_state e d :
  snd (drainShutterEvents e d) = snd (getCanonPropChanges e d).
Proof.
  destruct (getCanonPropChanges_never_throws e d) as [evts He].
  destruct (getCanonPropChanges e d) as [r d1] eqn:E. cbn [fst snd] in *.
  subst r. unfold drainShutterEvents, try_catch.
  now rewrite (drainShutterEvents_loop_first 4 e d evts d1 E).
Qed.

Lemma sends_drainShutterEvents_once :
  sends (fun c => In c [PTP_OC_CANON_EOS_GetEvent]) 1 drainShutterEvents.
Proof.
  intros e d. rewrite drainShutterEvents_state.
  apply sends_getCanonPropChanges.
Qed.

(** As [sends_walk], with the facts of the context tried first. *)
Ltac sends_walk_ctx :=
  lazymatch goal with
  | |- sends _ _ (bind _ _) =>
      eapply sends_bind; [sends_walk_ctx | intros; sends_walk_ctx]
  | |- sends _ _ (try_catch _ _) =>
      eapply sends_try_catch; [sends_walk_ctx | intros; sends_walk_ctx]
  | |- sends _ _ (try_finally _ _) =>
      eapply sends_try_finally; [sends_walk_ctx | sends_walk_ctx]
  | |- sends _ _ (match ?x with _ => _ end) =>
      eapply sends_max; destruct x; [left | right]; sends_walk_ctx
  | |- sends _ _ (ret _) => apply sends_ret
  | |- sends _ _ (throw _) => apply sends_throw
  | |- _ =>
      first [ eapply sends_codes; [solve [eauto] | solve_codes]
            | sends_walk ]
  end.

Lemma sends_getCanonShutterCount_tight :
  sends (fun c => In c [PTP_OC_CANON_EOS_GetEvent;
                        PTP_OC_CANON_EOS_RequestDevicePropValue;
                        PTP_OC_GetDevicePropValue]) 15 getCanonShutterCount.
Proof.
  pose proof sends_drainShutterEvents_once as Hd.
  unfold getCanonShutterCount. eapply sends_le; [sends_walk_ctx | cbn; lia].
Qed.

Lemma sends_vendorShutterCount_tight vendorId :
  sends (fun c => In c [PTP_OC_CANON_EOS_SetRemoteMode;
                        PTP_OC_CANON_EOS_SetEventMode;
                        PTP_OC_CANON_EOS_SetRequestOLCInfoGroup;
                        PTP_OC_CANON_EOS_PCHDDCapacity;
                        PTP_OC_CANON_EOS_GetEvent;
                        PTP_OC_CANON_EOS_RequestDevicePropValue;
                        PTP_OC_GetDevicePropValue]) 21
    (vendorShutterCount vendorId).
Proof.
  pose proof sends_getCanonShutterCount_tight as Hc.
  unfold vendorShutterCount. cbv zeta.
  eapply sends_le; [sends_walk_ctx | cbn; lia].
Qed.

Lemma getCameraInfo_device_commands
  (toLowerCase : jsstring -> jsstring) (e : Env) (d : PtpDevice) :
  exists l,
    calls (snd (getCameraInfo_device toLowerCase e d)) = calls d ++ l
    /\ (List.length (outs l) <= 26)%nat.
Proof.
  assert (Hrest : forall k : DeviceInfo -> Z,
             sends (fun _ => True) 23
               (bind getDeviceInfo (fun deviceInfo =>
                bind (vendorShutterCount (k deviceInfo)) (fun shutterCount =>
                bind closeSession (fun _ =>
                bind close (fun _ =>
                ret (mkCameraInfo (manufacturer deviceInfo)
                       (model deviceInfo) (version deviceInfo)
                       (serial deviceInfo) shutterCount))))))).
  { intros k. pose proof sends_vendorShutterCount_tight as Hv.
    eapply sends_le; [sends_walk_ctx | cbn; lia]. }
  unfold getCameraInfo_device, try_finally.
  assert (Htry : exists l,
             calls (snd (getCameraInfo_try toLowerCase e d)) = calls d ++ l
             /\ (List.length (outs l) <= 26)%nat).
  { unfold getCameraInfo_try. unfold bind at 1.
    destruct (sends_connect (fun _ => True) e d) as [l0 (Hc0 & Hl0 & _)].
    apply length_0_nil in Hl0.
    destruct (connect e d) as [[u|err] d1]; cbn [snd] in *.
    2:{ exists l0. rewrite Hl0. split; [assumption | cbn; lia]. }
    unfold bind at 1.
    destruct (openSession_outs e d1) as [lo (Hco & Ho)].
    assert (Hlo : (List.length (outs lo) <= 3)%nat).
    { destruct Ho as [[Ho _]|[[Ho _]|[Ho _]]]; rewrite Ho; cbn; lia. }
    destruct (openSession e d1) as [[u'|err] d2]; cbn [fst snd] in *.
    - destruct (Hrest (vendorOf toLowerCase) e d2)
        as [lr (Hcr & Hlr & _)].
      exists (l0 ++ lo ++ lr). split.
      + rewrite Hcr, Hco, Hc0. now rewrite !app_assoc.
      + rewrite !outs_app, !length_app, Hl0. cbn [List.length]. lia.
    - exists (l0 ++ lo). split.
      + rewrite Hco, Hc0. now rewrite app_assoc.
      + rewrite outs_app, length_app, Hl0. cbn [List.length]. lia. }
  destruct Htry as [l (Hc & Hl)].
  destruct (getCameraInfo_try toLowerCase e d) as [r d1]; cbn [snd] in *.
  destruct (sends_close (fun _ => True) e d1) as [lc (Hcc & Hlc & _)].
  apply length_0_nil in Hlc.
  exists (l ++ lc). rewrite outs_app, Hlc, app_nil_r. split; [|exact Hl].
  destruct (close e d1) as [[u|err] d2]; cbn [snd] in *;
    rewrite Hcc, Hc; now rewrite app_assoc.
Qed.

(** X11.  A query puts at most 26 commands on the wire, whatever the device
    answers: at most 3 to open the session, 1 for the device info, 4 to
    initialise, 1 + 6 + 1 + 6 + 1 in the cascade, 2 to exit and 1 to close
    the session.  The bound is reached by a Canon camera whose session was
    still open and that never reports a counter. *)
Theorem query_sends_at_most_26
  (toLowerCase : jsstring -> jsstring) (e : Env) :
  (List.length (outs (calls (snd (getCameraInfo toLowerCase e)))) <= 26)%nat
  /\ List.length
       (outs (calls (snd (getCameraInfo asciiToLowerCase busiestCanon))))
     = 26%nat.
Proof.
  split; [|vm_compute; reflexivity].
  unfold getCameraInfo.
  destruct (negb (navigator_usb e)); [cbn; lia|].
  destruct (usb_requestDevice e); [|cbn; lia].
  destruct (getCameraInfo_device_commands toLowerCase e newPtpDevice)
    as [l [Hc Hl]].
  rewrite Hc. exact Hl.
Qed.

(* ================================================================== *)
(** ** Closing down *)

Lemma closeSession_one_command e d :
  exists l,
    calls (snd (closeSession e d)) = calls d ++ l
    /\ outs l = [commandAfter (transactionId d) PTP_OC_CloseSession []].
Proof.
  unfold closeSession.
  match goal with
  | |- context [bind (sendCommand ?oc ?ps) ?k] =>
      destruct (command_then oc ps k (fun _ => True) 0
                  ltac:(intros; sends_auto) e d)
        as (l & rest & Hc & Ho & Hl & _)
  end.
  apply length_0_nil in Hl. subst rest. eauto.
Qed.

Ltac close_unfold :=
  cbv beta iota delta
    [close connect bind try_catch usb_read get_interfaceNumber
       set_interfaceNumber set_endpoints usb_call ret throw];
  m_simpl.

(** What [close] does to the history and to the interface number. *)
Lemma close_effect (e : Env) (d : PtpDevice) :
  interfaceNumber (snd (close e d)) = None
  /\ exists mid,
      calls (snd (close e d)) = calls d ++ mid ++ [Call_close]
      /\ outs mid = []
      /\ (interfaceNumber d = None -> mid = [])
      /\ (forall n, interfaceNumber d = Some n ->
                    usb_opened e (calls d) = true ->
                    mid = [Call_releaseInterface n]).
Proof.
  close_unfold. repeat m_case; (split; [reflexivity|]).
  all: first
         [ exists []; split; [reflexivity|]; split; [reflexivity|];
           split; [reflexivity|]; intros; congruence
         | eexists [_]; split; [rewrite <- app_assoc; reflexivity|];
           split; [reflexivity|]; split; intros; congruence ].
Qed.

(** X12.  A query that succeeds has sent CloseSession as its last command,
    and its last two calls on the device are both [device.close()]: the
    release runs once at the end of the steps and once more in the final
    clause. *)
Theorem successful_query_closes_session
  (toLowerCase : jsstring -> jsstring) (e : Env) (d : PtpDevice)
  (info : CameraInfo) (d' : PtpDevice) :
  getCameraInfo_device toLowerCase e d = (Ok info, d') ->
  exists l before t,
    calls d' = calls d ++ l ++ [Call_close; Call_close]
    /\ outs l = before ++ [commandAfter t PTP_OC_CloseSession []].
Proof.
  unfold getCameraInfo_device, try_finally.
  destruct (getCameraInfo_try toLowerCase e d) as [r d1] eqn:E.
  destruct (close_effect e d1) as [_ (mid2 & Hc2 & _ & Hnone & _)].
  destruct (close e d1) as [[u|err] d2]; [|discriminate].
  cbn [snd] in Hc2. intros H. inversion H; subst. clear H.
  unfold getCameraInfo_try in E. unfold bind at 1 in E.
  destruct (sends_connect (fun _ => True) e d) as [l0 (Hc0 & _)].
  destruct (connect e d) as [[u1|err] d3]; [|discriminate].
  unfold bind at 1 in E. cbn [snd] in Hc0.
  destruct (openSession_outs e d3) as [lo (Hco & _)].
  destruct (openSession e d3) as [[u2|err] d4]; [|discriminate].
  unfold bind at 1 in E. cbn [snd] in Hco.
  destruct (sends_getDeviceInfo e d4) as [lg (Hcg & _)].
  destruct (getDeviceInfo e d4) as [[di|err] d5]; [|discriminate].
  unfold bind at 1 in E. cbn [snd] in Hcg.
  destruct (sends_vendorShutterCount (vendorOf toLowerCase di) e d5)
    as [lv (Hcv & _)].
  destruct (vendorShutterCount (vendorOf toLowerCase di) e d5)
    as [[sc|err] d6]; [|discriminate].
  unfold bind at 1 in E. cbn [snd] in Hcv.
  destruct (closeSession_one_command e d6) as [ls (Hcs & Hos)].
  destruct (closeSession e d6) as [[u3|err] d7]; [|discriminate].
  unfold bind at 1 in E. cbn [snd] in Hcs.
  destruct (close_effect e d7) as [Hif (mid1 & Hc1 & Hom & _)].
  destruct (close e d7) as [[u4|err] d8]; [|discriminate].
  cbn [snd] in *. unfold ret in E. inversion E; subst. clear E.
  rewrite (Hnone Hif) in Hc2. cbn [app] in Hc2.
  exists (l0 ++ lo ++ lg ++ lv ++ ls ++ mid1),
    (outs l0 ++ outs lo ++ outs lg ++ outs lv),
    (transactionId d6).
  split.
  - rewrite Hc2, Hc1, Hcs, Hcv, Hcg, Hco, Hc0.
    rewrite <- !app_assoc. reflexivity.
  - rewrite !outs_app, Hos, Hom, app_nil_r, <- !app_assoc. reflexivity.
Qed.

Lemma successful_query_closes_session_witness :
  exists l before t,
    calls (snd (getCameraInfo_device asciiToLowerCase
                  (scriptedDevice
                     [response PTP_RC_OK; deviceInfoData 0x0a "Nikon" "D1";
                      response PTP_RC_OK; response PTP_RC_OK] [])
                  newPtpDevice))
    = calls newPtpDevice ++ l ++ [Call_close; Call_close]
    /\ outs l = before ++ [commandAfter t PTP_OC_CloseSession []].
Proof.
  apply (successful_query_closes_session asciiToLowerCase
           (scriptedDevice
              [response PTP_RC_OK; deviceInfoData 0x0a "Nikon" "D1";
               response PTP_RC_OK; response PTP_RC_OK] [])
           newPtpDevice
           (mkCameraInfo (js "Nikon") (js "D1") (js "1.0") (js "SN1") (-1))).
  vm_compute. reflexivity.
Defined.

(* ------------------------------------------------------------------ *)
(** *** The claimed interface *)

Lemma keeps_ret {A} (a : A) : keeps (ret a).
Proof.
  intros e d. split; [reflexivity|]. exists []. rewrite app_nil_r. auto.
Qed.

Lemma keeps_throw {A} err : keeps (@throw A err).
Proof.
  intros e d. split; [reflexivity|]. exists []. rewrite app_nil_r. auto.
Qed.

Lemma keeps_lift {A} (r : Result A) : keeps (lift r).
Proof.
  intros e d. split; [reflexivity|]. exists []. rewrite app_nil_r. auto.
Qed.

Lemma keeps_transferIn length : keeps (transferIn length).
Proof.
  intros e d. split; [reflexivity|]. eexists [_]. split; [reflexivity|].
  repeat constructor.
Qed.

Lemma keeps_sendCommand code params : keeps (sendCommand code params).
Proof.
  intros e d. split; [reflexivity|]. eexists [_]. split; [reflexivity|].
  repeat constructor.
Qed.

Lemma keeps_bind {A B} (m : M A) (k : A -> M B) :
  keeps m -> (forall a, keeps (k a)) -> keeps (bind m k).
Proof.
  intros Hm Hk e d. unfold bind.
  destruct (Hm e d) as [Hi (l1 & Hc1 & Hf1)].
  destruct (m e d) as [[a|err] d1]; cbn [snd] in *.
  - destruct (Hk a e d1) as [Hi2 (l2 & Hc2 & Hf2)].
    split; [congruence|]. exists (l1 ++ l2). split.
    + rewrite Hc2, Hc1. now rewrite app_assoc.
    + apply Forall_app. auto.
  - split; [assumption|]. eauto.
Qed.

Lemma keeps_try_catch {A} (m : M A) (h : Error -> M A) :
  keeps m -> (forall err, keeps (h err)) -> keeps (try_catch m h).
Proof.
  intros Hm Hh e d. unfold try_catch.
  destruct (Hm e d) as [Hi (l1 & Hc1 & Hf1)].
  destruct (m e d) as [[a|err] d1]; cbn [snd] in *.
  - split; [assumption|]. eauto.
  - destruct (Hh err e d1) as [Hi2 (l2 & Hc2 & Hf2)].
    split; [congruence|]. exists (l1 ++ l2). split.
    + rewrite Hc2, Hc1. now rewrite app_assoc.
    + apply Forall_app. auto.
Qed.

Lemma keeps_try_finally {A} (m : M A) (f : M unit) :
  keeps m -> keeps f -> keeps (try_finally m f).
Proof.
  intros Hm Hf e d. unfold try_finally.
  destruct (Hm e d) as [Hi (l1 & Hc1 & Hf1)].
  destruct (m e d) as [r d1]; cbn [snd] in *.
  destruct (Hf e d1) as [Hi2 (l2 & Hc2 & Hf2)].
  assert (calls (snd (f e d1)) = calls d ++ l1 ++ l2)
    by (rewrite Hc2, Hc1; now rewrite app_assoc).
  assert (Forall (fun c => isTransfer c = true) (l1 ++ l2))
    by (apply Forall_app; auto).
  destruct (f e d1) as [[u|err] d2]; cbn [snd] in *;
    (split; [congruence | eauto]).
Qed.

Create HintDb keeps_db.

Ltac keeps_walk :=
  lazymatch goal with
  | |- keeps (bind _ _) => apply keeps_bind; [keeps_walk | intros; keeps_walk]
  | |- keeps (try_catch _ _) =>
      apply keeps_try_catch; [keeps_walk | intros; keeps_walk]
  | |- keeps (try_finally _ _) =>
      apply keeps_try_finally; [keeps_walk | keeps_walk]
  | |- keeps (match ?x with _ => _ end) => destruct x; keeps_walk
  | |- keeps (ret _) => apply keeps_ret
  | |- keeps (throw _) => apply keeps_throw
  | |- keeps (lift _) => apply keeps_lift
  | |- keeps (transferIn _) => apply keeps_transferIn
  | |- keeps (sendCommand _ _) => apply keeps_sendCommand
  | |- _ => solve [eauto with keeps_db]
  end.

Lemma keeps_receiveResponse : keeps receiveResponse.
Proof. unfold receiveResponse. keeps_walk. Qed.

Lemma keeps_receiveData_header n hv : keeps (receiveData_header n hv).
Proof.
  revert hv. induction n as [|n IH]; intros hv; cbn [receiveData_header].
  - apply keeps_ret.
  - apply keeps_bind; [apply keeps_transferIn|]. intros [v|].
    + destruct (byteLength v >? 0); [apply keeps_ret | apply IH].
    + apply IH.
Qed.

Lemma keeps_receiveData_chunks fuel length buf offset :
  keeps (receiveData_chunks fuel length buf offset).
Proof.
  revert buf offset. induction fuel as [|fuel IH]; intros buf offset;
    cbn [receiveData_chunks].
  - apply keeps_ret.
  - destruct (offset <? length); [|apply keeps_ret].
    apply keeps_bind; [apply keeps_transferIn|].
    intros [data|]; [|apply keeps_ret].
    destruct (byteLength data =? 0); [apply keeps_ret|].
    apply keeps_bind; [apply keeps_lift|]. intros buf'. apply IH.
Qed.

#[local] Hint Resolve keeps_receiveResponse keeps_receiveData_header
  keeps_receiveData_chunks : keeps_db.

Lemma keeps_receiveData : keeps receiveData.
Proof. unfold receiveData. keeps_walk. Qed.

#[local] Hint Resolve keeps_receiveData : keeps_db.

Lemma keeps_set_transactionId t : keeps (set_transactionId t).
Proof.
  intros e d. split; [reflexivity|]. exists []. cbn. rewrite app_nil_r. auto.
Qed.

#[local] Hint Resolve keeps_set_transactionId : keeps_db.

Lemma keeps_closeSession : keeps closeSession.
Proof. unfold closeSession. keeps_walk. Qed.

#[local] Hint Resolve keeps_closeSession : keeps_db.

Lemma keeps_openSession : keeps openSession.
Proof. unfold openSession. keeps_walk. Qed.

Lemma keeps_getDeviceInfo : keeps getDeviceInfo.
Proof. unfold getDeviceInfo. keeps_walk. Qed.

Lemma keeps_getDevicePropValue propCode : keeps (getDevicePropValue propCode).
Proof. unfold getDevicePropValue. keeps_walk. Qed.

Lemma keeps_getCanonPropChanges : keeps getCanonPropChanges.
Proof. unfold getCanonPropChanges, getCanonPropChanges_try. keeps_walk. Qed.

#[local] Hint Resolve keeps_openSession keeps_getDeviceInfo
  keeps_getDevicePropValue keeps_getCanonPropChanges : keeps_db.

Lemma keeps_drainShutterEvents_loop n : keeps (drainShutterEvents_loop n).
Proof.
  induction n as [|n IH]; cbn [drainShutterEvents_loop].
  - apply keeps_ret.
  - apply keeps_bind; [apply keeps_getCanonPropChanges|].
    intros evts. destruct (array_find isShutterEvent evts);
      [apply keeps_ret|].
    destruct (Z.of_nat (List.length evts) =? 0); [apply keeps_ret | exact IH].
Qed.

Lemma keeps_queryAndPollShutterProp_loop propCode n :
  keeps (queryAndPollShutterProp_loop propCode n).
Proof.
  induction n as [|n IH]; cbn [queryAndPollShutterProp_loop].
  - apply keeps_ret.
  - apply keeps_bind; [apply keeps_getCanonPropChanges|].
    intros evts. destruct (array_find _ evts); [apply keeps_ret | exact IH].
Qed.

#[local] Hint Resolve keeps_drainShutterEvents_loop
  keeps_queryAndPollShutterProp_loop : keeps_db.

Lemma keeps_vendorShutterCount vendorId : keeps (vendorShutterCount vendorId).
Proof.
  unfold vendorShutterCount, initCanon, getCanonShutterCount, exitCanon,
    drainShutterEvents, queryAndPollShutterProp.
  cbv zeta. keeps_walk.
Qed.

#[local] Hint Resolve keeps_vendorShutterCount : keeps_db.

(** [connect] claims at most one interface, as the last call it makes, and
    then holds its number. *)
Lemma connect_effect (e : Env) (d : PtpDevice) :
  exists l0,
    calls (snd (connect e d)) = calls d ++ l0
    /\ ((forall n, ~ In (Call_claimInterface n) l0)
        \/ exists n before,
            l0 = before ++ [Call_claimInterface n]
            /\ (forall m, ~ In (Call_claimInterface m) before)
            /\ interfaceNumber (snd (connect e d)) = Some n).
Proof.
  close_unfold. repeat m_case.
  all: eexists; (split; [rewrite <- ?app_assoc; cbn [app]; reflexivity|]).
  all: first
         [ left; intros n Hin; cbn [In] in Hin;
           repeat destruct Hin as [Hin|Hin]; solve [discriminate | contradiction]
         | right; eexists _, [_; _]; split; [reflexivity|]; split;
           [intros m Hin; cbn [In] in Hin;
            repeat destruct Hin as [Hin|Hin];
            solve [discriminate | contradiction]
           | reflexivity]
         | right; eexists _, [_]; split; [reflexivity|]; split;
           [intros m Hin; cbn [In] in Hin;
            repeat destruct Hin as [Hin|Hin];
            solve [discriminate | contradiction]
           | reflexivity] ].
Qed.

Lemma transfers_no_claim (l : list UsbCall) :
  Forall (fun c => isTransfer c = true) l ->
  forall m, ~ In (Call_claimInterface m) l.
Proof.
  intros Hf m Hin. rewrite Forall_forall in Hf. apply Hf in Hin.
  discriminate.
Qed.

(** The calls [close] makes: [releaseInterface] when the device is open and
    an interface number is held, then [device.close()]. *)
Lemma close_calls (e : Env) (d : PtpDevice) :
  calls (snd (close e d))
  = calls d
    ++ match interfaceNumber d with
       | Some n =>
           if usb_opened e (calls d) then [Call_releaseInterface n] else []
       | None => []
       end
    ++ [Call_close].
Proof.
  close_unfold.
  destruct (usb_opened e (calls d)), (interfaceNumber d); m_simpl;
    repeat m_case; rewrite <- ?app_assoc; reflexivity.
Qed.

Section Release.
Variable toLowerCase : jsstring -> jsstring.
Variable e : Env.
Hypothesis opened : forall h, usb_opened e h = true.

(** The steps after [connect]: nothing is claimed, and an interface number
    that is held is either still held at the end or has been released. *)
Lemma steps_after_connect (d1 : PtpDevice) (r : Result CameraInfo)
  (dR : PtpDevice) :
  bind openSession (fun _ =>
  bind getDeviceInfo (fun deviceInfo =>
  bind (vendorShutterCount (vendorOf toLowerCase deviceInfo))
    (fun shutterCount =>
  bind closeSession (fun _ =>
  bind close (fun _ =>
  ret (mkCameraInfo (manufacturer deviceInfo) (model deviceInfo)
         (version deviceInfo) (serial deviceInfo) shutterCount)))))) e d1
  = (r, dR) ->
  exists l,
    calls dR = calls d1 ++ l
    /\ (forall m, ~ In (Call_claimInterface m) l)
    /\ (forall n,
           interfaceNumber d1 = Some n ->
           interfaceNumber dR = Some n \/ In (Call_releaseInterface n) l).
Proof.
  intros H. unfold bind at 1 in H.
  destruct (keeps_openSession e d1) as [Hi1 (l1 & Hc1 & Hf1)].
  destruct (openSession e d1) as [[u1|err] d2]; cbn [snd] in *.
  2:{ inversion H; subst. exists l1. split; [assumption|]. split.
      - now apply transfers_no_claim.
      - intros n Hn. left. congruence. }
  unfold bind at 1 in H.
  destruct (keeps_getDeviceInfo e d2) as [Hi2 (l2 & Hc2 & Hf2)].
  destruct (getDeviceInfo e d2) as [[di|err] d3]; cbn [snd] in *.
  2:{ inversion H; subst. exists (l1 ++ l2).
      split; [rewrite Hc2, Hc1; now rewrite app_assoc|].
      split.
      - apply transfers_no_claim, Forall_app. auto.
      - intros n Hn. left. congruence. }
  unfold bind at 1 in H.
  destruct (keeps_vendorShutterCount (vendorOf toLowerCase di) e d3)
    as [Hi3 (l3 & Hc3 & Hf3)].
  destruct (vendorShutterCount (vendorOf toLowerCase di) e d3)
    as [[sc|err] d4]; cbn [snd] in *.
  2:{ inversion H; subst. exists (l1 ++ l2 ++ l3). split;
        [rewrite Hc3, Hc2, Hc1; now rewrite !app_assoc|].
      split.
      - apply transfers_no_claim. repeat (apply Forall_app; split); auto.
      - intros n Hn. left. congruence. }
  unfold bind at 1 in H.
  destruct (keeps_closeSession e d4) as [Hi4 (l4 & Hc4 & Hf4)].
  destruct (closeSession e d4) as [[u4|err] d5]; cbn [snd] in *.
  2:{ inversion H; subst. exists (l1 ++ l2 ++ l3 ++ l4). split;
        [rewrite Hc4, Hc3, Hc2, Hc1; now rewrite !app_assoc|].
      split.
      - apply transfers_no_claim. repeat (apply Forall_app; split); auto.
      - intros n Hn. left. congruence. }
  unfold bind at 1 in H. pose proof (close_calls e d5) as Hc5.
  rewrite opened in Hc5.
  assert (HdR : calls dR = calls (snd (close e d5))).
  { destruct (close e d5) as [[u|err] d6]; cbn [snd];
      unfold ret in H; inversion H; reflexivity. }
  clear H.
  exists ((l1 ++ l2 ++ l3 ++ l4)
          ++ match interfaceNumber d5 with
             | Some n => [Call_releaseInterface n]
             | None => []
             end ++ [Call_close]).
  split; [rewrite HdR, Hc5, Hc4, Hc3, Hc2, Hc1; now rewrite !app_assoc|].
  split.
  - intros m Hin. apply in_app_or in Hin. destruct Hin as [Hin|Hin].
    + revert Hin. apply transfers_no_claim.
      repeat (apply Forall_app; split); auto.
    + destruct (interfaceNumber d5); cbn [app In] in Hin;
        repeat destruct Hin as [Hin|Hin]; solve [discriminate | contradiction].
  - intros n Hn. right. apply in_or_app. right.
    replace (interfaceNumber d5) with (Some n) by congruence.
    now left.
Qed.

Lemma claimed_then_released (d : PtpDevice) (n : Z) (l : list UsbCall) :
  calls (snd (getCameraInfo_device toLowerCase e d)) = calls d ++ l ->
  In (Call_claimInterface n) l ->
  exists l1 l2,
    l = l1 ++ Call_claimInterface n :: l2
    /\ In (Call_releaseInterface n) l2.
Proof.
  unfold getCameraInfo_device, try_finally.
  destruct (connect_effect e d) as [l0 (Hc0 & Hcase)].
  assert (Htry : forall r dT,
             getCameraInfo_try toLowerCase e d = (r, dT) ->
             exists lr,
               calls dT = calls (snd (connect e d)) ++ lr
               /\ (forall m, ~ In (Call_claimInterface m) lr)
               /\ (forall k, interfaceNumber (snd (connect e d)) = Some k ->
                             interfaceNumber dT = Some k
                             \/ In (Call_releaseInterface k) lr)).
  { intros r dT. unfold getCameraInfo_try. unfold bind at 1.
    destruct (connect e d) as [[u|err] d1]; cbn [snd].
    - apply steps_after_connect.
    - intros H. inversion H; subst. exists []. rewrite app_nil_r.
      repeat split; auto. }
  destruct (getCameraInfo_try toLowerCase e d) as [r dT]. cbn [snd] in *.
  destruct (Htry r dT eq_refl) as (lr & HcT & HncT & HrelT). clear Htry.
  pose proof (close_calls e dT) as Hcl. rewrite opened in Hcl.
  assert (Hsnd : calls (snd (let (r1, d'') := close e dT in
                             match r1 with
                             | Ok _ => (r, d'')
                             | Throw err => (@Throw CameraInfo err, d'')
                             end))
                 = calls (snd (close e dT))).
  { destruct (close e dT) as [[u|err] d6]; reflexivity. }
  rewrite Hsnd, Hcl, HcT, Hc0, <- !app_assoc.
  intros Hl Hin. apply app_inv_head in Hl. subst l.
  set (fin := match interfaceNumber dT with
              | Some k => [Call_releaseInterface k]
              | None => []
              end ++ [Call_close]) in *.
  assert (Hfin : forall m, ~ In (Call_claimInterface m) fin).
  { intros m Hm. subst fin. destruct (interfaceNumber dT);
      cbn [app In] in Hm; repeat destruct Hm as [Hm|Hm];
      solve [discriminate | contradiction]. }
  destruct Hcase as [Hnone | (k & before & -> & Hbefore & Hik)].
  - exfalso. apply in_app_or in Hin. destruct Hin as [Hin|Hin];
      [exact (Hnone n Hin)|].
    apply in_app_or in Hin. destruct Hin as [Hin|Hin];
      [exact (HncT n Hin) | exact (Hfin n Hin)].
  - assert (n = k).
    { apply in_app_or in Hin. destruct Hin as [Hin|Hin].
      - apply in_app_or in Hin. destruct Hin as [Hin|Hin];
          [exfalso; exact (Hbefore n Hin)|].
        cbn [In] in Hin. destruct Hin as [Hin|[]]. congruence.
      - exfalso. apply in_app_or in Hin. destruct Hin as [Hin|Hin];
          [exact (HncT n Hin) | exact (Hfin n Hin)]. }
    subst k. exists before, (lr ++ fin). split.
    + now rewrite <- app_assoc.
    + apply in_or_app. destruct (HrelT n Hik) as [Hheld|Hrel].
      * right. subst fin. rewrite Hheld. now left.
      * now left.
Qed.

End Release.

(** X13.  On a device that reports itself open, an interface that a query
    has claimed is released before the query ends, on every path: each
    [claimInterface n] in the history is followed by a
    [releaseInterface n]. *)
Theorem claimed_interface_is_released
  (toLowerCase : jsstring -> jsstring) (e : Env) (d : PtpDevice)
  (n : Z) (l : list UsbCall) :
  (forall h, usb_opened e h = true) ->
  calls (snd (getCameraInfo_device toLowerCase e d)) = calls d ++ l ->
  In (Call_claimInterface n) l ->
  exists l1 l2,
    l = l1 ++ Call_claimInterface n :: l2
    /\ In (Call_releaseInterface n) l2.
Proof. intros. eapply claimed_then_released; eassumption. Qed.

Lemma claimed_interface_is_released_witness :
  exists l1 l2,
    [Call_open; Call_claimInterface 0; Call_transferOut 2 openCmd;
     Call_transferIn 1 512; Call_releaseInterface 0; Call_close]
    = l1 ++ Call_claimInterface 0 :: l2
    /\ In (Call_releaseInterface 0) l2.
Proof.
  apply (claimed_interface_is_released asciiToLowerCase
           (scriptedDevice [] []) newPtpDevice 0).
  - intros h. reflexivity.
  - vm_compute. reflexivity.
  - cbn. auto.
Defined.

(* ================================================================== *)
(** ** A refusal in the data phase *)

Lemma sendCommand_accepted code params e d :
  usb_transferOut e (afterCommand d code params) = Ok tt ->
  sendCommand code params e d
  = (Ok tt, with_session d (transactionId d + 1) (afterCommand d code params)).
Proof.
  intros H. unfold sendCommand, bind, get_transactionId, set_transactionId,
    transferOut, usb_call. m_simpl.
  unfold afterCommand, commandAfter in H. rewrite H. reflexivity.
Qed.

(** A first read that brings a response container ends [receiveData]. *)
Lemma receiveData_response e d v :
  usb_transferIn e (calls d ++ [Call_transferIn (inEndpoint d) 1024])
  = Ok (Some v) ->
  PTP_HEADER_SIZE <= byteLength v ->
  getUint16 v 4 = Ok PTP_USB_CONTAINER_RESPONSE ->
  receiveData e d
  = (Ok v, with_session d (transactionId d)
             (calls d ++ [Call_transferIn (inEndpoint d) 1024])).
Proof.
  intros Hv Hlen Hty. unfold receiveData. unfold bind at 1.
  cbn [receiveData_header]. unfold bind at 1. unfold transferIn, usb_call.
  rewrite Hv. unfold PTP_HEADER_SIZE in Hlen.
  destruct (Z.gtb_spec (byteLength v) 0); [|lia].
  unfold ret at 1. cbv iota beta.
  destruct (Z.ltb_spec (byteLength v) PTP_HEADER_SIZE) as [Hlt|_];
    [unfold PTP_HEADER_SIZE in Hlt; lia|].
  unfold bind, lift. rewrite Hty.
  destruct (getUint32_in v 0 ltac:(lia) ltac:(lia)) as [len ->].
  reflexivity.
Qed.

(** X14.  The device may answer the data phase of an operation with a
    response container (a refusal).  The three operations that read data
    treat this alike on the wire, one command and one read, and then differ:
    [getDeviceInfo] throws "GetDeviceInfo failed" with the code of the
    response, [getDevicePropValue] returns null, [getCanonPropChanges]
    returns no change.  The transaction counter has advanced by one. *)
Theorem refusal_in_data_phase (e : Env) (d : PtpDevice) (v : DataView) :
  let after code params :=
    with_session d (transactionId d + 1)
      (afterCommand d code params ++ [Call_transferIn (inEndpoint d) 1024]) in
  (refusedInDataPhase e d PTP_OC_GetDeviceInfo [] v ->
   getDeviceInfo e d
   = (Throw (Err_GetDeviceInfoFailed (hdr_code v)),
      after PTP_OC_GetDeviceInfo []))
  /\ (forall propCode,
         refusedInDataPhase e d PTP_OC_GetDevicePropValue [propCode] v ->
         getDevicePropValue propCode e d
         = (Ok None, after PTP_OC_GetDevicePropValue [propCode]))
  /\ (refusedInDataPhase e d PTP_OC_CANON_EOS_GetEvent [] v ->
      getCanonPropChanges e d
      = (Ok [], after PTP_OC_CANON_EOS_GetEvent [])).
Proof.
  cbv zeta.
  assert (Hcode : PTP_HEADER_SIZE <= byteLength v ->
                  getUint16 v 6 = Ok (hdr_code v)).
  { unfold PTP_HEADER_SIZE. intros H. rewrite getUint16_in by lia.
    reflexivity. }
  split; [|split].
  - intros (Hout & Hin & Hlen & Hty).
    unfold getDeviceInfo. unfold bind at 1.
    rewrite (sendCommand_accepted _ _ _ _ Hout). unfold bind at 1.
    rewrite (receiveData_response e
               (with_session d (transactionId d + 1) (afterCommand d _ _))
               v Hin Hlen Hty).
    unfold bind, lift, throw. rewrite Hty.
    change (PTP_USB_CONTAINER_RESPONSE =? PTP_USB_CONTAINER_RESPONSE)
      with true.
    cbv iota. rewrite (Hcode Hlen). reflexivity.
  - intros propCode (Hout & Hin & Hlen & Hty).
    unfold getDevicePropValue. unfold bind at 1.
    rewrite (sendCommand_accepted _ _ _ _ Hout). unfold bind at 1.
    rewrite (receiveData_response e
               (with_session d (transactionId d + 1) (afterCommand d _ _))
               v Hin Hlen Hty).
    unfold bind, lift, ret. rewrite Hty. reflexivity.
  - intros (Hout & Hin & Hlen & Hty).
    unfold getCanonPropChanges, try_catch, getCanonPropChanges_try.
    unfold bind at 1.
    rewrite (sendCommand_accepted _ _ _ _ Hout). unfold bind at 1.
    rewrite (receiveData_response e
               (with_session d (transactionId d + 1) (afterCommand d _ _))
               v Hin Hlen Hty).
    unfold bind, lift, ret. rewrite Hty. reflexivity.
Qed.

(** The device answers with "operation not supported". *)
Lemma refusal_in_data_phase_witness :
  getDeviceInfo (scriptedDevice [response 0x2005] []) (connected 0)
  = (Throw (Err_GetDeviceInfoFailed 0x2005),
     with_session (connected 0) 1
       [Call_transferOut 2 (commandAfter 0 PTP_OC_GetDeviceInfo []);
        Call_transferIn 1 1024])
  /\ getDevicePropValue PTP_DPC_FUJI_TotalShotCount
       (scriptedDevice [response 0x2005] []) (connected 0)
     = (Ok None,
        with_session (connected 0) 1
          [Call_transferOut 2
             (commandAfter 0 PTP_OC_GetDevicePropValue
                [PTP_DPC_FUJI_TotalShotCount]);
           Call_transferIn 1 1024])
  /\ getCanonPropChanges (scriptedDevice [response 0x2005] []) (connected 0)
     = (Ok [],
        with_session (connected 0) 1
          [Call_transferOut 2 (commandAfter 0 PTP_OC_CANON_EOS_GetEvent []);
           Call_transferIn 1 1024]).
Proof.
  split; [|split].
  - apply (proj1 (refusal_in_data_phase (scriptedDevice [response 0x2005] [])
                    (connected 0)
                    (encodePacket 0 PTP_USB_CONTAINER_RESPONSE 0x2005 []))).
    repeat split; vm_compute; congruence.
  - apply (proj1 (proj2 (refusal_in_data_phase
                           (scriptedDevice [response 0x2005] [])
                           (connected 0)
                           (encodePacket 0 PTP_USB_CONTAINER_RESPONSE 0x2005
                              [])))).
    repeat split; vm_compute; congruence.
  - apply (proj2 (proj2 (refusal_in_data_phase
                           (scriptedDevice [response 0x2005] [])
                           (connected 0)
                           (encodePacket 0 PTP_USB_CONTAINER_RESPONSE 0x2005
                              [])))).
    repeat split; vm_compute; congruence.
Defined.

(* ================================================================== *)
(** ** Reassembly *)

Lemma with_session_same (d : PtpDevice) :
  with_session d (transactionId d) (calls d) = d.
Proof. destruct d; reflexivity. Qed.

Lemma skipn_repeat {A} (a : A) (k n : nat) :
  skipn k (repeat a n) = repeat a (n - k).
Proof.
  revert n. induction k as [|k IH]; intros n.
  - now rewrite Nat.sub_0_r.
  - destruct n as [|n]; [reflexivity|]. cbn [repeat skipn Nat.sub]. apply IH.
Qed.

(** Writing a chunk at the end of what has arrived so far. *)
Lemma typedArraySet_append (acc p : list byte) (n : nat) :
  (List.length p <= n)%nat ->
  typedArraySet (acc ++ repeat x00 n) p (byteLength acc)
  = Ok ((acc ++ p) ++ repeat x00 (n - List.length p)).
Proof.
  intros H. unfold typedArraySet.
  replace ((0 <=? byteLength acc)
           && (byteLength acc + byteLength p
               <=? byteLength (acc ++ repeat x00 n))) with true.
  2:{ symmetry. apply andb_true_iff. rewrite !Z.leb_le, byteLength_app.
      unfold byteLength. rewrite repeat_length. lia. }
  unfold byteLength. rewrite Nat2Z.id.
  rewrite firstn_app, firstn_all, Nat.sub_diag. cbn [firstn].
  rewrite app_nil_r, skipn_app, skipn_all2 by lia.
  replace (List.length acc + List.length p - List.length acc)%nat
    with (List.length p) by lia.
  rewrite skipn_repeat. cbn [app]. now rewrite <- app_assoc.
Qed.

Lemma receiveData_chunks_pieces (e : Env) (total : Z) :
  forall (pieces : list DataView) (fuel : nat) (acc : list byte)
         (d : PtpDevice),
    let ep := inEndpoint d in
    let got := byteLength acc + byteLength (List.concat pieces) in
    let reads := chunkReads ep total (byteLength acc) pieces in
    (Z.to_nat (total - byteLength acc) <= fuel)%nat ->
    Forall (fun p => p <> []) pieces ->
    delivers e (calls d) ep total (byteLength acc) pieces ->
    got <= total ->
    (got < total ->
     emptyRead (usb_transferIn e
                  (calls d ++ reads ++ [Call_transferIn ep (total - got)]))) ->
    receiveData_chunks fuel total
      (acc ++ repeat x00 (Z.to_nat (total - byteLength acc)))
      (byteLength acc) e d
    = (Ok (acc ++ List.concat pieces ++ repeat x00 (Z.to_nat (total - got))),
       with_session d (transactionId d)
         (calls d ++ reads
          ++ (if got <? total then [Call_transferIn ep (total - got)]
              else []))).
Proof.
  induction pieces as [|p ps IH]; intros fuel acc d; cbv zeta;
    intros Hfuel Hne Hdel Hgot Hend.
  - cbn [List.concat chunkReads app] in *.
    change (byteLength (@nil byte)) with 0 in *.
    rewrite Z.add_0_r in *. clear Hgot Hdel.
    destruct (Z.ltb_spec (byteLength acc) total) as [Hlt|Hge].
    + destruct fuel as [|fuel]; [lia|]. cbn [receiveData_chunks].
      destruct (Z.ltb_spec (byteLength acc) total); [|lia].
      unfold bind, transferIn, usb_call, ret, with_session. m_simpl.
      destruct (Hend Hlt) as [-> | ->]; reflexivity.
    + assert (Hret : receiveData_chunks fuel total
                       (acc ++ repeat x00 (Z.to_nat (total - byteLength acc)))
                       (byteLength acc) e d
                     = (Ok (acc ++ repeat x00
                                     (Z.to_nat (total - byteLength acc))), d)).
      { destruct fuel; cbn [receiveData_chunks]; [reflexivity|].
        destruct (Z.ltb_spec (byteLength acc) total); [lia | reflexivity]. }
      rewrite Hret, app_nil_r, with_session_same. reflexivity.
  - cbn [List.concat chunkReads delivers] in *. destruct Hdel as [Hp Hdel].
    inversion Hne as [|? ? Hp0 Hne']; subst.
    rewrite byteLength_app in Hgot, Hend |- *.
    pose proof (byteLength_nonneg (List.concat ps)) as Hps.
    assert (Hplen : 0 < byteLength p).
    { unfold byteLength. destruct p; [contradiction | cbn [List.length]; lia]. }
    destruct fuel as [|fuel]; [lia|]. cbn [receiveData_chunks].
    destruct (Z.ltb_spec (byteLength acc) total); [|lia].
    unfold bind at 1. unfold transferIn, usb_call. rewrite Hp.
    destruct (Z.eqb_spec (byteLength p) 0); [lia|].
    unfold bind at 1. unfold lift.
    rewrite typedArraySet_append by (unfold byteLength in *; lia).
    replace (Z.to_nat (total - byteLength acc) - List.length p)%nat
      with (Z.to_nat (total - byteLength (acc ++ p)))
      by (rewrite byteLength_app; unfold byteLength; lia).
    replace (byteLength acc + byteLength p) with (byteLength (acc ++ p))
      by apply byteLength_app.
    rewrite IH; m_simpl.
    + rewrite byteLength_app, <- !app_assoc, !Z.add_assoc. cbn [app].
      reflexivity.
    + rewrite byteLength_app. lia.
    + assumption.
    + rewrite byteLength_app. exact Hdel.
    + rewrite byteLength_app. lia.
    + rewrite byteLength_app. intros H'.
      specialize (Hend ltac:(lia)). cbn [app] in Hend.
      rewrite <- !app_assoc, <- Z.add_assoc. cbn [app]. exact Hend.
Qed.

(** X15.  [receiveData] reassembles a data container that arrives in
    pieces.  The first read brings [first], which holds the header and
    declares [total] bytes; every further read asks for exactly the bytes
    still missing and its chunk is written behind what has arrived.  When
    the chunks add up to [total], the result is their concatenation and no
    further read is made.  When a read brings nothing before that, the loop
    stops without an error and the missing tail of the result is zero. *)
Theorem receiveData_reassembles (e : Env) (d : PtpDevice) (first : DataView)
  (rest : list DataView) (total : Z) :
  let ep := inEndpoint d in
  let h := calls d ++ [Call_transferIn ep 1024] in
  let got := byteLength first + byteLength (List.concat rest) in
  let reads := chunkReads ep total (byteLength first) rest in
  usb_transferIn e h = Ok (Some first) ->
  PTP_HEADER_SIZE <= byteLength first ->
  getUint32 first 0 = Ok total ->
  getUint16 first 4 = Ok PTP_USB_CONTAINER_DATA ->
  Forall (fun p => p <> []) rest ->
  delivers e h ep total (byteLength first) rest ->
  got <= total ->
  (got < total ->
   emptyRead (usb_transferIn e
                (h ++ reads ++ [Call_transferIn ep (total - got)]))) ->
  receiveData e d
  = (Ok (first ++ List.concat rest ++ repeat x00 (Z.to_nat (total - got))),
     with_session d (transactionId d)
       (h ++ reads
        ++ (if got <? total then [Call_transferIn ep (total - got)]
            else []))).
Proof.
  cbv zeta. intros Hfirst Hlen Htotal Hty Hne Hdel Hgot Hend.
  unfold PTP_HEADER_SIZE in Hlen.
  pose proof (byteLength_nonneg (List.concat rest)) as Hrest.
  unfold receiveData. unfold bind at 1. cbn [receiveData_header].
  unfold bind at 1. unfold transferIn at 1, usb_call. rewrite Hfirst.
  destruct (Z.gtb_spec (byteLength first) 0); [|lia].
  unfold ret at 1. cbv iota beta.
  destruct (Z.ltb_spec (byteLength first) PTP_HEADER_SIZE) as [Hlt|_];
    [unfold PTP_HEADER_SIZE in Hlt; lia|].
  unfold bind at 1. unfold lift at 1. rewrite Htotal.
  unfold bind at 1. unfold lift at 1. rewrite Hty.
  change (negb (PTP_USB_CONTAINER_DATA =? PTP_USB_CONTAINER_DATA))
    with false.
  cbv iota.
  set (d1 := {| inEndpoint := inEndpoint d; outEndpoint := outEndpoint d;
                transactionId := transactionId d;
                interfaceNumber := interfaceNumber d;
                calls := calls d ++ [Call_transferIn (inEndpoint d) 1024] |}).
  destruct (Z.geb_spec (byteLength first) total) as [Hge|Hlt].
  - assert (rest = []) as ->.
    { destruct rest as [|p ps]; [reflexivity|]. exfalso.
      inversion Hne as [|? ? Hp0 _]; subst. cbn [List.concat] in *.
      rewrite byteLength_app in *.
      pose proof (byteLength_nonneg (List.concat ps)).
      assert (0 < byteLength p)
        by (unfold byteLength; destruct p;
            [contradiction | cbn [List.length]; lia]).
      lia. }
    cbn [List.concat chunkReads app] in *.
    change (byteLength (@nil byte)) with 0 in *.
    destruct (Z.ltb_spec (byteLength first + 0) total); [lia|].
    replace (total - (byteLength first + 0)) with 0 by lia.
    cbn [Z.to_nat repeat]. rewrite !app_nil_r. reflexivity.
  - pose proof (typedArraySet_append [] first (Z.to_nat total)) as Hs.
    cbn [app] in Hs. change (byteLength (@nil byte)) with 0 in Hs.
    unfold bind at 1. unfold lift at 1.
    rewrite Hs by (unfold byteLength in *; lia). clear Hs.
    replace (Z.to_nat total - List.length first)%nat
      with (Z.to_nat (total - byteLength first))
      by (unfold byteLength; lia).
    rewrite (receiveData_chunks_pieces e total rest
               (Z.to_nat (total - byteLength first)) first d1
               (Nat.le_refl _) Hne Hdel Hgot Hend).
    subst d1. unfold with_session. m_simpl. reflexivity.
Qed.

(** A data container of 20 bytes arrives as 16 bytes, then 3 bytes, then 1
    byte; and another time its last byte never arrives. *)
Lemma receiveData_reassembles_witness :
  receiveData
    (scriptedDevice
       [Ok (Some (le32 20 ++ le16 2 ++ le16 0x1001 ++ le32 1
                  ++ [x01; x02; x03; x04]));
        Ok (Some [x05; x06; x07]); Ok (Some [x08])] [])
    (connected 0)
  = (Ok (dataContainer PTP_OC_GetDeviceInfo 1
           [x01; x02; x03; x04; x05; x06; x07; x08]),
     with_session (connected 0) 0
       [Call_transferIn 1 1024; Call_transferIn 1 4; Call_transferIn 1 1])
  /\ receiveData
       (scriptedDevice
          [Ok (Some (le32 20 ++ le16 2 ++ le16 0x1001 ++ le32 1
                     ++ [x01; x02; x03; x04]));
           Ok (Some [x05; x06; x07]); Ok None] [])
       (connected 0)
     = (Ok (dataContainer PTP_OC_GetDeviceInfo 1
              [x01; x02; x03; x04; x05; x06; x07; x00]),
        with_session (connected 0) 0
          [Call_transferIn 1 1024; Call_transferIn 1 4; Call_transferIn 1 1]).
Proof.
  split.
  - apply (receiveData_reassembles
             (scriptedDevice
                [Ok (Some (le32 20 ++ le16 2 ++ le16 0x1001 ++ le32 1
                           ++ [x01; x02; x03; x04]));
                 Ok (Some [x05; x06; x07]); Ok (Some [x08])] [])
             (connected 0)
             (le32 20 ++ le16 2 ++ le16 0x1001 ++ le32 1
              ++ [x01; x02; x03; x04])
             [[x05; x06; x07]; [x08]] 20).
    + reflexivity.
    + vm_compute. congruence.
    + reflexivity.
    + reflexivity.
    + repeat constructor; discriminate.
    + repeat split.
    + vm_compute. congruence.
    + vm_compute. discriminate.
  - apply (receiveData_reassembles
             (scriptedDevice
                [Ok (Some (le32 20 ++ le16 2 ++ le16 0x1001 ++ le32 1
                           ++ [x01; x02; x03; x04]));
                 Ok (Some [x05; x06; x07]); Ok None] [])
             (connected 0)
             (le32 20 ++ le16 2 ++ le16 0x1001 ++ le32 1
              ++ [x01; x02; x03; x04])
             [[x05; x06; x07]] 20).
    + reflexivity.
    + vm_compute. congruence.
    + reflexivity.
    + reflexivity.
    + repeat constructor; discriminate.
    + repeat split.
    + vm_compute. congruence.
    + intros _. left. reflexivity.
Defined.

(* ================================================================== *)
(** ** Decoding an event stream *)

Lemma getUint32_field view pre v post offset :
  view = pre ++ le32 v ++ post -> offset = byteLength pre ->
  0 <= v < 4294967296 ->
  getUint32 view offset = Ok v.
Proof.
  intros Hv Ho Hr. rewrite (getUint32_at view pre v post offset Hv Ho).
  now rewrite Z.mod_small.
Qed.

Lemma byteLength_encodeEvent ev :
  byteLength (encodeEvent ev)
  = match ev with
    | PropChanged _ _ extra => 16 + byteLength extra
    | OtherEvent _ payload => 8 + byteLength payload
    end.
Proof.
  destruct ev; cbn [encodeEvent]; rewrite !byteLength_app, !byteLength_le32;
    lia.
Qed.

Lemma parseCanonPropChanges_loop_stream (tail : list byte) :
  endOfEvents tail ->
  forall evs pre changes fuel,
    Forall wellFormedEvent evs ->
    byteLength (flat_map encodeEvent evs ++ tail) <= Z.of_nat fuel ->
    parseCanonPropChanges_loop fuel (pre ++ flat_map encodeEvent evs ++ tail)
      (byteLength pre) changes
    = Ok (changes ++ changesOf evs).
Proof.
  intros Htail. induction evs as [|ev evs IH]; intros pre changes fuel Hwf Hfuel.
  - cbn [flat_map app changesOf]. rewrite app_nil_r.
    destruct fuel as [|fuel]; [reflexivity|].
    cbn [parseCanonPropChanges_loop]. rewrite byteLength_app.
    destruct (Z.leb_spec (byteLength pre + 8) (byteLength pre + byteLength tail))
      as [Hin|Hout]; [|reflexivity].
    destruct Htail as [Hshort | (junk & ->)]; [lia|].
    rewrite (getUint32_field _ pre 8 (le32 0 ++ junk) _ eq_refl eq_refl)
      by lia.
    rewrite (getUint32_field _ (pre ++ le32 8) 0 junk _)
      by (try lia; rewrite <- ?app_assoc, ?byteLength_app, ?byteLength_le32;
          reflexivity).
    reflexivity.
  - inversion Hwf as [|? ? Hev Hwf']; subst.
    cbn [flat_map changesOf] in *.
    pose proof (byteLength_encodeEvent ev) as Hsize.
    pose proof (byteLength_nonneg (flat_map encodeEvent evs ++ tail)) as Hrest.
    rewrite <- app_assoc in Hfuel |- *.
    rewrite byteLength_app in Hfuel.
    assert (Hnext : forall changes',
               parseCanonPropChanges_loop (Nat.pred fuel)
                 (pre ++ encodeEvent ev ++ flat_map encodeEvent evs ++ tail)
                 (byteLength pre + byteLength (encodeEvent ev)) changes'
               = Ok (changes' ++ changesOf evs)).
    { intros changes'. rewrite app_assoc, <- byteLength_app.
      apply IH; [assumption|].
      destruct ev as [? ? x | ? x]; pose proof (byteLength_nonneg x); lia. }
    destruct ev as [pc v extra | ty payload]; cbn [encodeEvent] in *.
    + destruct Hev as (Hpc & Hv & Hlen).
      pose proof (byteLength_nonneg extra) as Hextra.
      destruct fuel as [|fuel]; [lia|]. cbn [Nat.pred] in Hnext.
      cbn [parseCanonPropChanges_loop].
      rewrite <- !app_assoc.
      rewrite <- !app_assoc in Hnext.
      set (rest := extra ++ flat_map encodeEvent evs ++ tail) in *.
      set (size := 16 + byteLength extra) in *.
      set (view := pre ++ le32 size ++ le32 PTP_EC_CANON_EOS_PropValueChanged
                   ++ le32 pc ++ le32 v ++ rest) in *.
      assert (Hview : byteLength view
                      = byteLength pre + 16 + byteLength rest).
      { subst view. rewrite !byteLength_app, !byteLength_le32. lia. }
      assert (Hrest' : byteLength extra <= byteLength rest).
      { subst rest. rewrite byteLength_app.
        pose proof (byteLength_nonneg (flat_map encodeEvent evs ++ tail)).
        lia. }
      destruct (Z.leb_spec (byteLength pre + 8) (byteLength view)); [|lia].
      rewrite (getUint32_field view pre size _ _ eq_refl eq_refl)
        by (subst size; lia).
      rewrite (getUint32_field view (pre ++ le32 size)
                 PTP_EC_CANON_EOS_PropValueChanged
                 (le32 pc ++ le32 v ++ rest) _)
        by (unfold PTP_EC_CANON_EOS_PropValueChanged; try lia;
            subst view; rewrite <- ?app_assoc, ?byteLength_app,
              ?byteLength_le32; reflexivity).
      cbn [rbind].
      destruct (Z.ltb_spec size 8); [subst size; lia|].
      destruct (Z.eqb_spec size 8); [subst size; lia|]. cbn [andb].
      destruct (Z.gtb_spec (byteLength pre + size) (byteLength view));
        [subst size; lia|].
      change (PTP_EC_CANON_EOS_PropValueChanged
              =? PTP_EC_CANON_EOS_PropValueChanged) with true.
      cbv iota.
      rewrite (getUint32_field view
                 (pre ++ le32 size ++ le32 PTP_EC_CANON_EOS_PropValueChanged)
                 pc (le32 v ++ rest) _)
        by (try lia; subst view;
            rewrite <- ?app_assoc, ?byteLength_app, ?byteLength_le32;
            reflexivity || lia).
      cbn [rbind].
      destruct (Z.geb_spec size 16); [|subst size; lia].
      unfold PTP_HEADER_SIZE at 1.
      rewrite (getUint32_field view
                 (pre ++ le32 size ++ le32 PTP_EC_CANON_EOS_PropValueChanged
                  ++ le32 pc)
                 v rest _)
        by (try lia; subst view;
            rewrite <- ?app_assoc, ?byteLength_app, ?byteLength_le32;
            reflexivity || lia).
      rewrite !byteLength_app, !byteLength_le32 in Hnext.
      replace (byteLength pre + (4 + (4 + (4 + (4 + byteLength extra)))))
        with (byteLength pre + size) in Hnext by (subst size; lia).
      destruct (CAPTURED_PROP_CHANGES_has pc); cbn [rbind app];
        rewrite Hnext; [now rewrite <- app_assoc | reflexivity].
    + destruct Hev as (Hty & Hnot & Hlen & Hsent).
      pose proof (byteLength_nonneg payload) as Hpay.
      destruct fuel as [|fuel]; [lia|]. cbn [Nat.pred] in Hnext.
      cbn [parseCanonPropChanges_loop].
      rewrite <- !app_assoc.
      rewrite <- !app_assoc in Hnext.
      set (rest := payload ++ flat_map encodeEvent evs ++ tail) in *.
      set (size := 8 + byteLength payload) in *.
      set (view := pre ++ le32 size ++ le32 ty ++ rest) in *.
      assert (Hview : byteLength view = byteLength pre + 8 + byteLength rest).
      { subst view. rewrite !byteLength_app, !byteLength_le32. lia. }
      assert (Hrest' : byteLength payload <= byteLength rest).
      { subst rest. rewrite byteLength_app.
        pose proof (byteLength_nonneg (flat_map encodeEvent evs ++ tail)).
        lia. }
      destruct (Z.leb_spec (byteLength pre + 8) (byteLength view)); [|lia].
      rewrite (getUint32_field view pre size _ _ eq_refl eq_refl)
        by (subst size; lia).
      rewrite (getUint32_field view (pre ++ le32 size) ty rest _)
        by (try lia; subst view;
            rewrite <- ?app_assoc, ?byteLength_app, ?byteLength_le32;
            reflexivity).
      cbn [rbind].
      destruct (Z.ltb_spec size 8); [subst size; lia|].
      assert (Hs : (size =? 8) && (ty =? 0) = false).
      { apply andb_false_iff.
        destruct (Z.eqb_spec size 8) as [E8|]; [|now left]. right.
        destruct (Z.eqb_spec ty 0) as [E0|]; [|reflexivity].
        exfalso. apply (Hsent E0). subst size.
        unfold byteLength in E8. destruct payload; [reflexivity|].
        cbn [List.length] in E8. lia. }
      rewrite Hs.
      destruct (Z.gtb_spec (byteLength pre + size) (byteLength view));
        [subst size; lia|].
      destruct (Z.eqb_spec ty PTP_EC_CANON_EOS_PropValueChanged);
        [contradiction|].
      cbn [rbind].
      rewrite !byteLength_app, !byteLength_le32 in Hnext.
      replace (byteLength pre + (4 + (4 + byteLength payload)))
        with (byteLength pre + size) in Hnext by (subst size; lia).
      rewrite Hnext. reflexivity.
Qed.

(** X16.  Decoding inverts the layout of an event stream.  For a GetEvent
    container made of the 12 header bytes, any well-formed records and an
    end of stream, [parseCanonPropChanges] returns exactly the changes of
    the two watched properties, in the order of the records: changes of
    other properties and records of other types are skipped by their
    declared size, bytes after the property value are ignored, and nothing
    behind the end-of-stream record is read. *)
Theorem parseCanonPropChanges_round_trip (header tail : list byte)
  (evs : list CanonEvent) :
  byteLength header = PTP_HEADER_SIZE ->
  Forall wellFormedEvent evs ->
  endOfEvents tail ->
  parseCanonPropChanges (header ++ flat_map encodeEvent evs ++ tail)
  = Ok (changesOf evs).
Proof.
  intros Hh Hwf Htail. unfold parseCanonPropChanges. rewrite <- Hh.
  rewrite (parseCanonPropChanges_loop_stream tail Htail evs header []);
    [reflexivity | assumption |].
  rewrite length_app. pose proof (byteLength_nonneg header).
  unfold byteLength in *. lia.
Qed.

(** A stream with a record of another type, a ShutterCounter change, a
    change of an unwatched property, a ShutterReleaseCounter change with
    four more bytes, the end-of-stream record and a stray byte. *)
Lemma parseCanonPropChanges_round_trip_witness :
  parseCanonPropChanges
    (encodePacket 5 PTP_USB_CONTAINER_DATA PTP_OC_CANON_EOS_GetEvent []
     ++ flat_map encodeEvent
          [OtherEvent 0xc18a [x01; x02; x03; x04];
           PropChanged PTP_DPC_CANON_EOS_ShutterCounter 1234 [];
           PropChanged 0xd105 7 [x09];
           PropChanged PTP_DPC_CANON_EOS_ShutterReleaseCounter 99
             [x00; x00; x00; x00]]
     ++ le32 8 ++ le32 0 ++ [xff])
  = Ok [mkPropValueChange PTP_DPC_CANON_EOS_ShutterCounter 1234;
        mkPropValueChange PTP_DPC_CANON_EOS_ShutterReleaseCounter 99].
Proof.
  apply (parseCanonPropChanges_round_trip
           (encodePacket 5 PTP_USB_CONTAINER_DATA PTP_OC_CANON_EOS_GetEvent [])
           (le32 8 ++ le32 0 ++ [xff])
           [OtherEvent 0xc18a [x01; x02; x03; x04];
            PropChanged PTP_DPC_CANON_EOS_ShutterCounter 1234 [];
            PropChanged 0xd105 7 [x09];
            PropChanged PTP_DPC_CANON_EOS_ShutterReleaseCounter 99
              [x00; x00; x00; x00]]).
  - reflexivity.
  - repeat constructor; unfold byteLength; cbn [List.length];
      unfold PTP_EC_CANON_EOS_PropValueChanged,
        PTP_DPC_CANON_EOS_ShutterCounter,
        PTP_DPC_CANON_EOS_ShutterReleaseCounter; try lia; discriminate.
  - right. exists [xff]. reflexivity.
Defined.

(* ================================================================== *)
(** ** Decoding strings and the DeviceInfo dataset *)

(** The code units of an encoded sequence, read back one by one. *)
Lemma codeUnits_encoded (pre : list byte) (cnt : byte) :
  forall (s done : jsstring) (post : list byte),
    Forall (fun c => 0 <= c < 65536) s ->
    codeUnits (pre ++ cnt :: flat_map le16 done ++ flat_map le16 s ++ post)
      (byteLength pre) (Z.of_nat (List.length done)) (List.length s)
    = s.
Proof.
  induction s as [|c s IH]; intros done post Hs; cbn [List.length codeUnits].
  - reflexivity.
  - inversion Hs as [|? ? Hc Hs']; subst. f_equal.
    + unfold codeUnitAt.
      set (view := pre ++ cnt :: flat_map le16 done
                   ++ flat_map le16 (c :: s) ++ post).
      assert (Hread : getUint16 view
                        (byteLength pre + 1 + Z.of_nat (List.length done) * 2)
                      = Ok (c mod 65536)).
      { apply (getUint16_at view (pre ++ cnt :: flat_map le16 done) c
                 (flat_map le16 s ++ post)).
        - subst view. cbn [flat_map]. now rewrite <- !app_assoc.
        - rewrite byteLength_app.
          change (cnt :: flat_map le16 done)
            with ([cnt] ++ flat_map le16 done).
          rewrite byteLength_app, byteLength_flat_map_le16.
          change (byteLength [cnt]) with 1. lia. }
      unfold getUint16 in Hread.
      destruct (inRange view
                  (byteLength pre + 1 + Z.of_nat (List.length done) * 2) 2);
        [|discriminate].
      apply Ok_inj in Hread. rewrite Hread. now apply Z.mod_small.
    + specialize (IH (done ++ [c]) post Hs').
      rewrite flat_map_app, length_app in IH. cbn [flat_map List.length] in IH.
      rewrite app_nil_r, <- !app_assoc in IH. cbn [flat_map].
      rewrite <- !app_assoc.
      replace (Z.of_nat (List.length done) + 1)
        with (Z.of_nat (List.length done + 1)) by lia.
      exact IH.
Qed.

Lemma byteLength_encodePtpString (s : jsstring) :
  byteLength (encodePtpString s)
  = match s with
    | [] => 1
    | _ :: _ => 1 + 2 * (Z.of_nat (List.length s) + 1)
    end.
Proof.
  destruct s as [|c s]; [reflexivity|]. unfold encodePtpString.
  change (byte_of_Z (Z.of_nat (List.length (c :: s)) + 1)
          :: flat_map le16 (c :: s) ++ le16 0)
    with ([byte_of_Z (Z.of_nat (List.length (c :: s)) + 1)]
          ++ flat_map le16 (c :: s) ++ le16 0).
  rewrite !byteLength_app, byteLength_flat_map_le16, byteLength_le16.
  change (byteLength [byte_of_Z (Z.of_nat (List.length (c :: s)) + 1)])
    with 1.
  lia.
Qed.

Lemma filter_nonNul_text (s : jsstring) :
  Forall (fun c => 0 < c < 65536) s -> filter nonNul (s ++ [0]) = s.
Proof.
  induction 1 as [|c s Hc Hs IH]; [reflexivity|].
  cbn [app filter]. unfold nonNul at 1.
  destruct (Z.eqb_spec c 0); [lia|]. cbn [negb]. now rewrite IH.
Qed.

(** An encoded string is decoded to itself, and the offset ends up right
    behind it. *)
Lemma parsePtpString_at view pre s post offset :
  view = pre ++ encodePtpString s ++ post -> offset = byteLength pre ->
  ptpText s ->
  parsePtpString view offset
  = Ok (mkPtpString s (offset + byteLength (encodePtpString s))).
Proof.
  intros -> -> [Hlen Hs].
  pose proof (byteLength_nonneg pre) as Hpre.
  pose proof (byteLength_nonneg post) as Hpost.
  pose proof (byteLength_encodePtpString s) as Hbytes.
  rewrite parsePtpString_inside.
  2:{ rewrite !byteLength_app. destruct s; lia. }
  assert (Hb : byteAt (pre ++ encodePtpString s ++ post) (byteLength pre)
               = byteAt (encodePtpString s) 0).
  { replace (byteLength pre) with (byteLength pre + 0) by lia.
    rewrite byteAt_app_r by lia. apply byteAt_app_l. destruct s; lia. }
  rewrite Hb. clear Hb.
  destruct s as [|c s].
  - change (byteAt (encodePtpString []) 0) with 0.
    cbn [Z.to_nat Nat.min codeUnits filter]. rewrite Hbytes.
    f_equal. f_equal. lia.
  - set (n := List.length (c :: s)) in *.
    unfold encodePtpString. fold n.
    assert (Hcnt : byteAt (byte_of_Z (Z.of_nat n + 1)
                           :: flat_map le16 (c :: s) ++ le16 0) 0
                   = Z.of_nat n + 1).
    { unfold byteAt. change (Z.to_nat 0) with 0%nat. cbn [nth].
      rewrite byte_of_Z_value. apply Z.mod_small. lia. }
    rewrite Hcnt.
    replace (Nat.min (Z.to_nat (Z.of_nat n + 1)) _) with (S n).
    2:{ unfold unitsThatFit. rewrite !byteLength_app.
        unfold encodePtpString in Hbytes. fold n in Hbytes. rewrite Hbytes.
        pose proof (Z.div_le_lower_bound
                      (byteLength pre + (1 + 2 * (Z.of_nat n + 1)
                                         + byteLength post)
                       - byteLength pre - 1) 2 (Z.of_nat n + 1)
                      ltac:(lia) ltac:(lia)).
        lia. }
    f_equal. f_equal.
    + transitivity (filter nonNul ((c :: s) ++ [0]));
        [f_equal | now apply filter_nonNul_text].
      pose proof (codeUnits_encoded pre (byte_of_Z (Z.of_nat n + 1))
                    ((c :: s) ++ [0]) [] post) as Hcu.
      rewrite flat_map_app, length_app in Hcu.
      cbn [flat_map List.length app] in Hcu.
      rewrite app_nil_r, <- !app_assoc in Hcu.
      replace (S n) with (S (List.length s) + 1)%nat
        by (subst n; cbn [List.length]; lia).
      cbn [flat_map app]. rewrite <- !app_assoc. cbn [app].
      apply Hcu. change (c :: s ++ [0]) with ((c :: s) ++ [0]).
      apply Forall_app. split.
      * eapply Forall_impl; [|exact Hs]. cbv beta. intros; lia.
      * constructor; [lia | constructor].
    + unfold encodePtpString in Hbytes. fold n in Hbytes. lia.
Qed.

Lemma codeUnits_range view offset :
  forall (k : nat) i,
    Forall (fun c => 0 <= c < 65536) (codeUnits view offset i k)
    /\ List.length (codeUnits view offset i k) = k.
Proof.
  induction k as [|k IH]; intros i; cbn [codeUnits List.length].
  - split; [constructor | reflexivity].
  - destruct (IH (i + 1)) as [Hf Hl]. split; [|now rewrite Hl].
    constructor; [|exact Hf]. unfold codeUnitAt.
    pose proof (byteAt_range view (offset + 1 + i * 2)).
    pose proof (byteAt_range view (offset + 1 + i * 2 + 1)). lia.
Qed.

Lemma filter_nonNul_range (l : jsstring) :
  Forall (fun c => 0 <= c < 65536) l ->
  Forall (fun c => 0 < c < 65536) (filter nonNul l)
  /\ (List.length (filter nonNul l) <= List.length l)%nat.
Proof.
  induction 1 as [|c l Hc Hl [IH1 IH2]]; cbn [filter List.length].
  - split; [constructor | lia].
  - destruct (nonNul c) eqn:E; cbn [List.length].
    + unfold nonNul in E. destruct (Z.eqb_spec c 0); [discriminate|].
      split; [constructor; [lia | assumption] | lia].
    + split; [assumption | lia].
Qed.

Lemma parsePtpString_text view offset r :
  0 <= offset -> parsePtpString view offset = Ok r ->
  (List.length (text r) <= 255)%nat
  /\ Forall (fun c => 0 < c < 65536) (text r).
Proof.
  intros Hoff H. destruct (Z_lt_le_dec offset (byteLength view)).
  - rewrite parsePtpString_inside in H by lia. apply Ok_inj in H. subst r.
    cbn [text].
    set (k := Nat.min (Z.to_nat (byteAt view offset))
                (unitsThatFit view offset 0)).
    destruct (codeUnits_range view offset k 0) as [Hr Hl].
    destruct (filter_nonNul_range _ Hr) as [Hf Hle].
    split; [|exact Hf]. rewrite Hl in Hle.
    pose proof (byteAt_range view offset). subst k. lia.
  - rewrite parsePtpString_past_end in H by lia. apply Ok_inj in H. subst r.
    cbn [text List.length]. split; [lia | constructor].
Qed.

(** X17.  PTP strings round-trip through [parsePtpString].  A text of at
    most 254 code units without NUL, laid out with its count byte and its
    terminating NUL anywhere in a buffer, is decoded to itself and the
    offset ends up right behind it.  Conversely every text the decoder
    returns, from any buffer, is such a text but for the length: it has no
    NUL and at most 255 code units. *)
Theorem parsePtpString_round_trip (pre post : list byte) (s : jsstring)
  (view : DataView) (offset : Z) (r : PtpString) :
  (ptpText s ->
   parsePtpString (pre ++ encodePtpString s ++ post) (byteLength pre)
   = Ok (mkPtpString s (byteLength pre + byteLength (encodePtpString s))))
  /\ (0 <= offset -> parsePtpString view offset = Ok r ->
      (List.length (text r) <= 255)%nat
      /\ Forall (fun c => 0 < c < 65536) (text r)).
Proof.
  split.
  - intros Hs. now apply (parsePtpString_at _ pre s post).
  - apply parsePtpString_text.
Qed.

(** "EOS" between two stray bytes; and a buffer whose count byte promises
    255 code units. *)
Lemma parsePtpString_round_trip_witness :
  parsePtpString ([xff] ++ encodePtpString (js "EOS") ++ [x07]) 1
  = Ok (mkPtpString (js "EOS") 10)
  /\ (List.length (js "A") <= 255)%nat
  /\ Forall (fun c => 0 < c < 65536) (js "A").
Proof.
  split.
  - apply (proj1 (parsePtpString_round_trip [xff] [x07] (js "EOS") [] 0
                    (mkPtpString [] 0))).
    split; [cbn; lia | repeat constructor].
  - apply (proj2 (parsePtpString_round_trip [] [] [] [xff; x41; x00; x00] 0
                    (mkPtpString (js "A") 511))).
    + lia.
    + reflexivity.
Defined.

Lemma byteLength_encodeCodeArray (codes : list Z) :
  byteLength (encodeCodeArray codes)
  = 4 + Z.of_nat (List.length codes) * 2.
Proof.
  unfold encodeCodeArray.
  rewrite byteLength_app, byteLength_le32, byteLength_flat_map_le16. lia.
Qed.

(** The count of an encoded array, read at its first byte. *)
Lemma getUint32_count view pre codes post offset :
  view = pre ++ encodeCodeArray codes ++ post -> offset = byteLength pre ->
  Z.of_nat (List.length codes) < 4294967296 ->
  getUint32 view offset = Ok (Z.of_nat (List.length codes)).
Proof.
  intros -> -> H. unfold encodeCodeArray. rewrite <- !app_assoc.
  apply (getUint32_field _ pre _ (flat_map le16 codes ++ post));
    [reflexivity | reflexivity | lia].
Qed.

(** Side conditions of a read at a known place of the dataset. *)
Ltac field_eq :=
  match goal with
  | |- @eq (list byte) _ _ =>
      unfold encodeDeviceInfo; rewrite <- ?app_assoc; reflexivity
  | |- @eq Z _ _ =>
      rewrite ?byteLength_app, ?byteLength_le16, ?byteLength_le32,
        ?byteLength_encodeCodeArray;
      unfold PTP_HEADER_SIZE in *; lia
  | |- _ => assumption || lia
  end.

Lemma parseDeviceInfo_encoded (header junk : list byte)
  (ds : DeviceInfoDataset) :
  byteLength header = PTP_HEADER_SIZE ->
  wellFormedDataset ds ->
  parseDeviceInfo (header ++ encodeDeviceInfo ds ++ junk)
  = Ok (keptFields ds).
Proof.
  intros Hh (Hvid & Hdesc & Harr & Hstr).
  inversion Harr as [|? ? Hops Harr1]; subst.
  inversion Harr1 as [|? ? Hevs Harr2]; subst.
  inversion Harr2 as [|? ? Hprops Harr3]; subst.
  inversion Harr3 as [|? ? Hcaps Harr4]; subst.
  inversion Harr4 as [|? ? Himgs _]; subst.
  inversion Hstr as [|? ? Hman Hstr1]; subst.
  inversion Hstr1 as [|? ? Hmod Hstr2]; subst.
  inversion Hstr2 as [|? ? Hver Hstr3]; subst.
  inversion Hstr3 as [|? ? Hser _]; subst.
  clear Harr Harr1 Harr2 Harr3 Harr4 Hstr Hstr1 Hstr2 Hstr3.
  destruct ds as [sv vid vev desc fm ops evs props caps imgs man mdl ver ser].
  cbn [ds_standardVersion ds_vendorExtensionId ds_vendorExtensionVersion
       ds_vendorExtensionDesc ds_functionalMode ds_operationsSupported
       ds_eventsSupported ds_devicePropertiesSupported ds_captureFormats
       ds_imageFormats ds_manufacturer ds_model ds_deviceVersion
       ds_serialNumber keptFields] in *.
  set (view := header ++ _).
  set (b1 := le16 sv). set (b2 := le32 vid). set (b3 := le16 vev).
  set (b4 := encodePtpString desc). set (b5 := le16 fm).
  set (b6 := encodeCodeArray ops). set (b7 := encodeCodeArray evs).
  set (b8 := encodeCodeArray props). set (b9 := encodeCodeArray caps).
  set (b10 := encodeCodeArray imgs). set (b11 := encodePtpString man).
  set (b12 := encodePtpString mdl). set (b13 := encodePtpString ver).
  set (b14 := encodePtpString ser).
  unfold parseDeviceInfo. cbv zeta.
  rewrite (getUint16_at view header sv
             (b2 ++ b3 ++ b4 ++ b5 ++ b6 ++ b7 ++ b8 ++ b9 ++ b10 ++ b11
              ++ b12 ++ b13 ++ b14 ++ junk))
    by (subst view; field_eq).
  cbn [rbind].
  rewrite (getUint32_field view (header ++ b1) vid
             (b3 ++ b4 ++ b5 ++ b6 ++ b7 ++ b8 ++ b9 ++ b10 ++ b11 ++ b12
              ++ b13 ++ b14 ++ junk))
    by (subst view b1; field_eq).
  cbn [rbind].
  rewrite (getUint16_at view (header ++ b1 ++ b2) vev
             (b4 ++ b5 ++ b6 ++ b7 ++ b8 ++ b9 ++ b10 ++ b11 ++ b12 ++ b13
              ++ b14 ++ junk))
    by (subst view b1 b2; field_eq).
  cbn [rbind].
  rewrite (parsePtpString_at view (header ++ b1 ++ b2 ++ b3) desc
             (b5 ++ b6 ++ b7 ++ b8 ++ b9 ++ b10 ++ b11 ++ b12 ++ b13 ++ b14
              ++ junk))
    by (subst view b1 b2 b3; field_eq).
  cbn [rbind newOffset text]. fold b4.
  rewrite (getUint16_at view (header ++ b1 ++ b2 ++ b3 ++ b4) fm
             (b6 ++ b7 ++ b8 ++ b9 ++ b10 ++ b11 ++ b12 ++ b13 ++ b14
              ++ junk))
    by (subst view b1 b2 b3; field_eq).
  cbn [rbind].
  rewrite (getUint32_count view (header ++ b1 ++ b2 ++ b3 ++ b4 ++ b5) ops
             (b7 ++ b8 ++ b9 ++ b10 ++ b11 ++ b12 ++ b13 ++ b14 ++ junk))
    by (subst view b1 b2 b3 b5; field_eq).
  cbn [rbind].
  rewrite (getUint32_count view
             (header ++ b1 ++ b2 ++ b3 ++ b4 ++ b5 ++ b6) evs
             (b8 ++ b9 ++ b10 ++ b11 ++ b12 ++ b13 ++ b14 ++ junk))
    by (subst view b1 b2 b3 b5 b6; field_eq).
  cbn [rbind].
  rewrite (getUint32_count view
             (header ++ b1 ++ b2 ++ b3 ++ b4 ++ b5 ++ b6 ++ b7) props
             (b9 ++ b10 ++ b11 ++ b12 ++ b13 ++ b14 ++ junk))
    by (subst view b1 b2 b3 b5 b6 b7; field_eq).
  cbn [rbind].
  rewrite (getUint32_count view
             (header ++ b1 ++ b2 ++ b3 ++ b4 ++ b5 ++ b6 ++ b7 ++ b8) caps
             (b10 ++ b11 ++ b12 ++ b13 ++ b14 ++ junk))
    by (subst view b1 b2 b3 b5 b6 b7 b8; field_eq).
  cbn [rbind].
  rewrite (getUint32_count view
             (header ++ b1 ++ b2 ++ b3 ++ b4 ++ b5 ++ b6 ++ b7 ++ b8 ++ b9)
             imgs (b11 ++ b12 ++ b13 ++ b14 ++ junk))
    by (subst view b1 b2 b3 b5 b6 b7 b8 b9; field_eq).
  cbn [rbind].
  rewrite (parsePtpString_at view
             (header ++ b1 ++ b2 ++ b3 ++ b4 ++ b5 ++ b6 ++ b7 ++ b8 ++ b9
              ++ b10) man (b12 ++ b13 ++ b14 ++ junk))
    by (subst view b1 b2 b3 b5 b6 b7 b8 b9 b10; field_eq).
  cbn [rbind newOffset text]. fold b11.
  rewrite (parsePtpString_at view
             (header ++ b1 ++ b2 ++ b3 ++ b4 ++ b5 ++ b6 ++ b7 ++ b8 ++ b9
              ++ b10 ++ b11) mdl (b13 ++ b14 ++ junk))
    by (subst view b1 b2 b3 b5 b6 b7 b8 b9 b10; field_eq).
  cbn [rbind newOffset text]. fold b12.
  rewrite (parsePtpString_at view
             (header ++ b1 ++ b2 ++ b3 ++ b4 ++ b5 ++ b6 ++ b7 ++ b8 ++ b9
              ++ b10 ++ b11 ++ b12) ver (b14 ++ junk))
    by (subst view b1 b2 b3 b5 b6 b7 b8 b9 b10; field_eq).
  cbn [rbind newOffset text]. fold b13.
  rewrite (parsePtpString_at view
             (header ++ b1 ++ b2 ++ b3 ++ b4 ++ b5 ++ b6 ++ b7 ++ b8 ++ b9
              ++ b10 ++ b11 ++ b12 ++ b13) ser junk)
    by (subst view b1 b2 b3 b5 b6 b7 b8 b9 b10; field_eq).
  reflexivity.
Qed.

(** X18.  [parseDeviceInfo] inverts the layout of the DeviceInfo dataset.
    For a well-formed dataset behind the 12 header bytes (a 32-bit vendor
    id, array counts below 2^32, strings of at most 254 code units without
    NUL), whatever the standard version, the extension version, the
    extension description, the functional mode and the five arrays of codes
    are, the parse steps over them by their declared sizes and returns the
    vendor extension id and the four trailing strings unchanged.  Bytes
    behind the dataset are not read. *)
Theorem parseDeviceInfo_round_trip (header junk : list byte)
  (ds : DeviceInfoDataset) :
  byteLength header = PTP_HEADER_SIZE ->
  wellFormedDataset ds ->
  parseDeviceInfo (header ++ encodeDeviceInfo ds ++ junk)
  = Ok (keptFields ds).
Proof. apply parseDeviceInfo_encoded. Qed.

Ltac text_ok :=
  split;
  [vm_compute; lia
  |repeat (constructor; [split; reflexivity|]); constructor].

(** A dataset with an extension description and three non-empty arrays. *)
Lemma parseDeviceInfo_round_trip_witness :
  parseDeviceInfo
    (encodePacket 2 PTP_USB_CONTAINER_DATA PTP_OC_GetDeviceInfo []
     ++ encodeDeviceInfo
          (mkDeviceInfoDataset 100 PTP_VENDOR_CANON 100 (js "ptp") 0
             [0x1001; 0x1002; 0x9116] [] [0xd1ac] [] [0x3801; 0xb103]
             (js "Canon Inc.") (js "Canon EOS") (js "3-1.2.0") (js "0123"))
     ++ [xff])
  = Ok (mkDeviceInfo PTP_VENDOR_CANON (js "Canon Inc.") (js "Canon EOS")
          (js "3-1.2.0") (js "0123")).
Proof.
  apply (parseDeviceInfo_round_trip
           (encodePacket 2 PTP_USB_CONTAINER_DATA PTP_OC_GetDeviceInfo [])
           [xff]
           (mkDeviceInfoDataset 100 PTP_VENDOR_CANON 100 (js "ptp") 0
              [0x1001; 0x1002; 0x9116] [] [0xd1ac] [] [0x3801; 0xb103]
              (js "Canon Inc.") (js "Canon EOS") (js "3-1.2.0") (js "0123"))).
  - reflexivity.
  - split; [cbn [ds_vendorExtensionId]; unfold PTP_VENDOR_CANON; lia|]. split; [text_ok|]. split.
    + repeat (constructor; [reflexivity|]). constructor.
    + repeat (constructor; [text_ok|]). constructor.
Defined.

(* ================================================================== *)
(** ** A data phase that succeeds *)

Lemma dataContainer_split code tid payload :
  dataContainer code tid payload = dataHeader code tid payload ++ payload
  /\ byteLength (dataHeader code tid payload) = PTP_HEADER_SIZE.
Proof.
  unfold dataContainer, dataHeader. split.
  - now rewrite <- !app_assoc.
  - rewrite !byteLength_app, !byteLength_le32, !byteLength_le16. reflexivity.
Qed.

(** A first read that brings a whole data container ends [receiveData]. *)
Lemma receiveData_whole e d code tid payload :
  usb_transferIn e (calls d ++ [Call_transferIn (inEndpoint d) 1024])
  = Ok (Some (dataContainer code tid payload)) ->
  receiveData e d
  = (Ok (dataContainer code tid payload),
     with_session d (transactionId d)
       (calls d ++ [Call_transferIn (inEndpoint d) 1024])).
Proof.
  intros Hv.
  destruct (dataContainer_split code tid payload) as [Hsplit Hhdr].
  pose proof (byteLength_nonneg payload) as Hpay.
  assert (Hlen : byteLength (dataContainer code tid payload)
                 = 12 + byteLength payload).
  { rewrite Hsplit, byteLength_app, Hhdr. reflexivity. }
  set (v := dataContainer code tid payload) in *.
  assert (Hty : getUint16 v 4 = Ok PTP_USB_CONTAINER_DATA).
  { apply (getUint16_at v (le32 (PTP_HEADER_SIZE + byteLength payload))
             PTP_USB_CONTAINER_DATA (le16 code ++ le32 tid ++ payload));
      reflexivity. }
  assert (Htot : getUint32 v 0
                 = Ok ((PTP_HEADER_SIZE + byteLength payload)
                       mod 4294967296)).
  { apply (getUint32_at v [] (PTP_HEADER_SIZE + byteLength payload)
             (le16 PTP_USB_CONTAINER_DATA ++ le16 code ++ le32 tid
              ++ payload)); reflexivity. }
  unfold receiveData. unfold bind at 1. cbn [receiveData_header].
  unfold bind at 1. unfold transferIn, usb_call. rewrite Hv.
  destruct (Z.gtb_spec (byteLength v) 0); [|lia].
  unfold ret at 1. cbv iota beta.
  destruct (Z.ltb_spec (byteLength v) PTP_HEADER_SIZE) as [Hlt|_];
    [unfold PTP_HEADER_SIZE in Hlt; lia|].
  unfold bind, lift. rewrite Htot, Hty.
  change (negb (PTP_USB_CONTAINER_DATA =? PTP_USB_CONTAINER_DATA))
    with false.
  cbv iota.
  pose proof (Z.mod_le (PTP_HEADER_SIZE + byteLength payload) 4294967296
                ltac:(unfold PTP_HEADER_SIZE; lia) ltac:(lia)) as Hmod.
  unfold PTP_HEADER_SIZE in Hmod.
  destruct (Z.geb_spec (byteLength v)
              ((PTP_HEADER_SIZE + byteLength payload) mod 4294967296));
    [reflexivity | unfold PTP_HEADER_SIZE in *; lia].
Qed.

Lemma receiveResponse_accepted e d v :
  usb_transferIn e (calls d ++ [Call_transferIn (inEndpoint d) 512])
  = Ok (Some v) ->
  PTP_HEADER_SIZE <= byteLength v ->
  receiveResponse e d
  = (Ok v, with_session d (transactionId d)
             (calls d ++ [Call_transferIn (inEndpoint d) 512])).
Proof.
  intros Hv Hlen. unfold receiveResponse, bind, transferIn, usb_call.
  rewrite Hv. destruct (Z.ltb_spec (byteLength v) PTP_HEADER_SIZE); [lia|].
  reflexivity.
Qed.

(** The two packets of a data phase, as [answeredWithData] delivers them. *)
Lemma data_phase_packets e d code params code' tid' payload resp
  {A} (k : DataView -> M A) :
  answeredWithData e d code params (dataContainer code' tid' payload) resp ->
  let d1 := with_session d (transactionId d + 1)
              (afterCommand d code params
               ++ [Call_transferIn (inEndpoint d) 1024]) in
  let d2 := with_session d (transactionId d + 1)
              ((afterCommand d code params
                ++ [Call_transferIn (inEndpoint d) 1024])
               ++ [Call_transferIn (inEndpoint d) 512]) in
  bind (sendCommand code params) (fun _ => bind receiveData k) e d
  = k (dataContainer code' tid' payload) e d1
  /\ receiveResponse e d1 = (Ok resp, d2).
Proof.
  intros (Hout & Hin & Hresp & Hlen). cbv zeta. split.
  - unfold bind at 1. rewrite (sendCommand_accepted _ _ _ _ Hout).
    unfold bind at 1.
    rewrite (receiveData_whole e
               (with_session d (transactionId d + 1)
                  (afterCommand d code params)) code' tid' payload Hin).
    reflexivity.
  - apply (receiveResponse_accepted e
             (with_session d (transactionId d + 1)
                (afterCommand d code params
                 ++ [Call_transferIn (inEndpoint d) 1024])) resp Hresp Hlen).
Qed.

Lemma dataContainer_type code tid payload :
  getUint16 (dataContainer code tid payload) 4 = Ok PTP_USB_CONTAINER_DATA.
Proof.
  apply (getUint16_at _ (le32 (PTP_HEADER_SIZE + byteLength payload))
           PTP_USB_CONTAINER_DATA (le16 code ++ le32 tid ++ payload));
    reflexivity.
Qed.

Lemma response_code (resp : DataView) :
  PTP_HEADER_SIZE <= byteLength resp ->
  getUint16 resp 6 = Ok (hdr_code resp).
Proof.
  unfold PTP_HEADER_SIZE. intros H. rewrite getUint16_in by lia. reflexivity.
Qed.

Lemma parseCanonPropChanges_stream (header tail : list byte)
  (evs : list CanonEvent) :
  byteLength header = PTP_HEADER_SIZE ->
  Forall wellFormedEvent evs ->
  endOfEvents tail ->
  parseCanonPropChanges (header ++ flat_map encodeEvent evs ++ tail)
  = Ok (changesOf evs).
Proof.
  intros Hh Hwf Htail. unfold parseCanonPropChanges. rewrite <- Hh.
  rewrite (parseCanonPropChanges_loop_stream tail Htail evs header []);
    [reflexivity | assumption |].
  rewrite length_app. pose proof (byteLength_nonneg header).
  unfold byteLength in *. lia.
Qed.

Ltac data_phase Hans E1 E2 :=
  match goal with
  | |- context [bind (sendCommand ?c ?p) (fun _ => bind receiveData ?k) ?e ?d] =>
      destruct (data_phase_packets e d c p _ _ _ _ k Hans) as [E1 E2];
      rewrite E1
  end.

(** X19.  A data phase that succeeds, from the command to the value.  The
    device takes the command, answers the first read with a data container
    and the next read with a response.  Then [getDeviceInfo] returns the
    kept fields of the dataset in the container and [getDevicePropValue]
    the 32-bit value at the start of the payload, both provided that the
    response says OK; [getCanonPropChanges] returns the watched changes of
    the event stream whatever the response says.  None of them looks at the
    operation code or the transaction id in the header of the data
    container. *)
Theorem data_phase_delivers (e : Env) (d : PtpDevice) (code' tid' : Z)
  (payload : list byte) (resp : DataView) :
  let data := dataContainer code' tid' payload in
  let after code params :=
    with_session d (transactionId d + 1)
      ((afterCommand d code params ++ [Call_transferIn (inEndpoint d) 1024])
       ++ [Call_transferIn (inEndpoint d) 512]) in
  (forall ds junk,
      payload = encodeDeviceInfo ds ++ junk ->
      wellFormedDataset ds ->
      answeredWithData e d PTP_OC_GetDeviceInfo [] data resp ->
      hdr_code resp = PTP_RC_OK ->
      getDeviceInfo e d = (Ok (keptFields ds), after PTP_OC_GetDeviceInfo []))
  /\ (forall propCode v junk,
         payload = le32 v ++ junk ->
         0 <= v < 4294967296 ->
         answeredWithData e d PTP_OC_GetDevicePropValue [propCode] data resp ->
         hdr_code resp = PTP_RC_OK ->
         getDevicePropValue propCode e d
         = (Ok (Some v), after PTP_OC_GetDevicePropValue [propCode]))
  /\ (forall evs tail,
         payload = flat_map encodeEvent evs ++ tail ->
         Forall wellFormedEvent evs ->
         endOfEvents tail ->
         answeredWithData e d PTP_OC_CANON_EOS_GetEvent [] data resp ->
         getCanonPropChanges e d
         = (Ok (changesOf evs), after PTP_OC_CANON_EOS_GetEvent [])).
Proof.
  cbv zeta.
  destruct (dataContainer_split code' tid' payload) as [Hsplit Hhdr].
  pose proof (dataContainer_type code' tid' payload) as Hty.
  split; [|split].
  - intros ds junk -> Hds Hans Hok.
    pose proof Hans as (_ & _ & _ & Hlen).
    unfold getDeviceInfo. data_phase Hans E1 E2.
    unfold bind at 1. unfold lift at 1. rewrite Hty.
    change (PTP_USB_CONTAINER_DATA =? PTP_USB_CONTAINER_RESPONSE) with false.
    cbv iota. unfold bind at 1. rewrite E2.
    unfold bind, lift. rewrite (response_code resp Hlen), Hok.
    change (negb (PTP_RC_OK =? PTP_RC_OK)) with false. cbv iota.
    rewrite Hsplit, (parseDeviceInfo_encoded _ junk ds Hhdr Hds).
    reflexivity.
  - intros propCode v junk -> Hv Hans Hok.
    pose proof Hans as (_ & _ & _ & Hlen).
    unfold getDevicePropValue. data_phase Hans E1 E2.
    unfold bind at 1. unfold lift at 1. rewrite Hty.
    change (PTP_USB_CONTAINER_DATA =? PTP_USB_CONTAINER_RESPONSE) with false.
    cbv iota. unfold bind at 1. rewrite E2.
    unfold bind, lift, ret. rewrite (response_code resp Hlen), Hok.
    change (negb (PTP_RC_OK =? PTP_RC_OK)) with false. cbv iota.
    pose proof (byteLength_nonneg junk) as Hjunk.
    assert (Hsize : 16 <= byteLength (dataContainer code' tid'
                                        (le32 v ++ junk))).
    { rewrite Hsplit, !byteLength_app, Hhdr, byteLength_le32.
      unfold PTP_HEADER_SIZE. lia. }
    destruct (Z.geb_spec (byteLength (dataContainer code' tid'
                                        (le32 v ++ junk))) 16); [|lia].
    rewrite (getUint32_field _ (dataHeader code' tid' (le32 v ++ junk)) v
               junk PTP_HEADER_SIZE Hsplit (eq_sym Hhdr) Hv).
    reflexivity.
  - intros evs tail -> Hwf Htail Hans.
    unfold getCanonPropChanges, try_catch, getCanonPropChanges_try.
    data_phase Hans E1 E2.
    unfold bind at 1. unfold lift at 1. rewrite Hty.
    change (PTP_USB_CONTAINER_DATA =? PTP_USB_CONTAINER_RESPONSE) with false.
    cbv iota. unfold bind at 1. rewrite E2.
    unfold lift, ret.
    destruct (Z.leb_spec
                (byteLength (dataContainer code' tid'
                               (flat_map encodeEvent evs ++ tail)))
                PTP_HEADER_SIZE) as [Hle|_].
    + assert (evs = []) as ->; [|reflexivity].
      destruct evs as [|ev evs]; [reflexivity|]. exfalso.
      rewrite Hsplit, byteLength_app, Hhdr in Hle. cbn [flat_map] in Hle.
      rewrite !byteLength_app, byteLength_encodeEvent in Hle.
      pose proof (byteLength_nonneg (flat_map encodeEvent evs)).
      pose proof (byteLength_nonneg tail).
      destruct ev as [? ? x | ? x]; pose proof (byteLength_nonneg x); lia.
    + rewrite Hsplit.
      rewrite (parseCanonPropChanges_stream _ tail evs Hhdr Hwf Htail).
      reflexivity.
Qed.

(** A Canon camera describes itself, a Fuji camera reports 4711 shots, and
    a GetEvent container carries one ShutterCounter change. *)
Lemma data_phase_delivers_witness :
  fst (getDeviceInfo
         (scriptedDevice
            [deviceInfoData PTP_VENDOR_CANON "Canon Inc." "EOS";
             response PTP_RC_OK] [])
         (connected 0))
  = Ok (mkDeviceInfo PTP_VENDOR_CANON (js "Canon Inc.") (js "EOS")
          (js "1.0") (js "SN1"))
  /\ fst (getDevicePropValue PTP_DPC_FUJI_TotalShotCount
            (scriptedDevice [propData 4711; response PTP_RC_OK] [])
            (connected 0))
     = Ok (Some 4711)
  /\ fst (getCanonPropChanges
            (scriptedDevice
               [eventData (changeRecord PTP_DPC_CANON_EOS_ShutterCounter
                             1234);
                response PTP_RC_OK] [])
            (connected 0))
     = Ok [mkPropValueChange PTP_DPC_CANON_EOS_ShutterCounter 1234].
Proof.
  split; [|split].
  - rewrite (proj1 (data_phase_delivers
                      (scriptedDevice
                         [deviceInfoData PTP_VENDOR_CANON "Canon Inc." "EOS";
                          response PTP_RC_OK] [])
                      (connected 0) PTP_OC_GetDeviceInfo 1
                      (encodeDeviceInfo
                         (mkDeviceInfoDataset 100 PTP_VENDOR_CANON 100 [] 0
                            [] [] [] [] [] (js "Canon Inc.") (js "EOS")
                            (js "1.0") (js "SN1")))
                      (encodePacket 0 PTP_USB_CONTAINER_RESPONSE PTP_RC_OK
                         []))
               (mkDeviceInfoDataset 100 PTP_VENDOR_CANON 100 [] 0
                  [] [] [] [] [] (js "Canon Inc.") (js "EOS")
                  (js "1.0") (js "SN1")) []).
    + reflexivity.
    + symmetry. apply app_nil_r.
    + split; [cbn [ds_vendorExtensionId]; unfold PTP_VENDOR_CANON; lia|].
      split; [split; [cbn; lia | constructor]|]. split.
      * repeat (constructor; [reflexivity|]). constructor.
      * repeat (constructor; [text_ok|]). constructor.
    + repeat split; vm_compute; congruence.
    + reflexivity.
  - rewrite (proj1 (proj2 (data_phase_delivers
                             (scriptedDevice
                                [propData 4711; response PTP_RC_OK] [])
                             (connected 0) PTP_OC_GetDevicePropValue 0
                             (le32 4711)
                             (encodePacket 0 PTP_USB_CONTAINER_RESPONSE
                                PTP_RC_OK [])))
               PTP_DPC_FUJI_TotalShotCount 4711 []).
    + reflexivity.
    + reflexivity.
    + lia.
    + repeat split; vm_compute; congruence.
    + reflexivity.
  - rewrite (proj2 (proj2 (data_phase_delivers
                             (scriptedDevice
                                [eventData
                                   (changeRecord
                                      PTP_DPC_CANON_EOS_ShutterCounter 1234);
                                 response PTP_RC_OK] [])
                             (connected 0) PTP_OC_CANON_EOS_GetEvent 5
                             (changeRecord PTP_DPC_CANON_EOS_ShutterCounter
                                1234)
                             (encodePacket 0 PTP_USB_CONTAINER_RESPONSE
                                PTP_RC_OK [])))
               [PropChanged PTP_DPC_CANON_EOS_ShutterCounter 1234 []] []).
    + reflexivity.
    + reflexivity.
    + repeat constructor; unfold byteLength; cbn [List.length];
        unfold PTP_DPC_CANON_EOS_ShutterCounter; lia.
    + left. vm_compute. reflexivity.
    + repeat split; vm_compute; congruence.
Defined.

(* ================================================================== *)
(** ** A chunk that does not fit *)

Lemma typedArraySet_overrun (buf src : list byte) (offset : Z) :
  byteLength buf < offset + byteLength src ->
  typedArraySet buf src offset = Throw RangeError.
Proof.
  intros H. unfold typedArraySet.
  destruct (Z.leb_spec (offset + byteLength src) (byteLength buf)); [lia|].
  now rewrite andb_false_r.
Qed.

Lemma receiveData_chunks_overrun (e : Env) (total : Z) (p : DataView) :
  forall (pieces : list DataView) (fuel : nat) (acc : list byte)
         (d : PtpDevice),
    let ep := inEndpoint d in
    let got := byteLength acc + byteLength (List.concat pieces) in
    let reads := chunkReads ep total (byteLength acc) pieces in
    (Z.to_nat (total - byteLength acc) <= fuel)%nat ->
    Forall (fun p => p <> []) pieces ->
    delivers e (calls d) ep total (byteLength acc) pieces ->
    got < total ->
    usb_transferIn e (calls d ++ reads ++ [Call_transferIn ep (total - got)])
    = Ok (Some p) ->
    total < got + byteLength p ->
    receiveData_chunks fuel total
      (acc ++ repeat x00 (Z.to_nat (total - byteLength acc)))
      (byteLength acc) e d
    = (Throw RangeError,
       with_session d (transactionId d)
         (calls d ++ reads ++ [Call_transferIn ep (total - got)])).
Proof.
  induction pieces as [|q qs IH]; intros fuel acc d; cbv zeta;
    intros Hfuel Hne Hdel Hgot Hp Hover.
  - cbn [List.concat chunkReads app] in *.
    change (byteLength (@nil byte)) with 0 in *.
    rewrite Z.add_0_r in *.
    destruct fuel as [|fuel]; [lia|]. cbn [receiveData_chunks].
    destruct (Z.ltb_spec (byteLength acc) total); [|lia].
    unfold bind at 1. unfold transferIn, usb_call. rewrite Hp.
    destruct (Z.eqb_spec (byteLength p) 0); [lia|].
    unfold bind, lift.
    rewrite typedArraySet_overrun; [reflexivity|].
    rewrite byteLength_app. unfold byteLength at 2.
    rewrite repeat_length. lia.
  - cbn [List.concat chunkReads delivers] in *. destruct Hdel as [Hq Hdel].
    inversion Hne as [|? ? Hq0 Hne']; subst.
    rewrite byteLength_app in Hgot, Hp, Hover |- *.
    pose proof (byteLength_nonneg (List.concat qs)) as Hqs.
    assert (Hqlen : 0 < byteLength q).
    { unfold byteLength. destruct q; [contradiction | cbn [List.length]; lia]. }
    destruct fuel as [|fuel]; [lia|]. cbn [receiveData_chunks].
    destruct (Z.ltb_spec (byteLength acc) total); [|lia].
    unfold bind at 1. unfold transferIn, usb_call. rewrite Hq.
    destruct (Z.eqb_spec (byteLength q) 0); [lia|].
    unfold bind at 1. unfold lift.
    rewrite typedArraySet_append by (unfold byteLength in *; lia).
    replace (Z.to_nat (total - byteLength acc) - List.length q)%nat
      with (Z.to_nat (total - byteLength (acc ++ q)))
      by (rewrite byteLength_app; unfold byteLength; lia).
    replace (byteLength acc + byteLength q) with (byteLength (acc ++ q))
      by apply byteLength_app.
    rewrite IH; m_simpl.
    + rewrite byteLength_app, <- !app_assoc, <- !Z.add_assoc. cbn [app].
      reflexivity.
    + rewrite byteLength_app. lia.
    + assumption.
    + rewrite byteLength_app. exact Hdel.
    + rewrite byteLength_app. lia.
    + rewrite byteLength_app, <- !app_assoc, <- Z.add_assoc. cbn [app].
      cbn [app] in Hp. exact Hp.
    + rewrite byteLength_app. lia.
Qed.

(** X20.  A chunk that does not fit.  After the header and any number of
    chunks that fit, a chunk with more bytes than are still missing makes
    the copy into the buffer fail: [receiveData] throws a RangeError right
    after that read, and what had arrived is dropped. *)
Theorem receiveData_chunk_overrun (e : Env) (d : PtpDevice)
  (first : DataView) (rest : list DataView) (p : DataView) (total : Z) :
  let ep := inEndpoint d in
  let h := calls d ++ [Call_transferIn ep 1024] in
  let got := byteLength first + byteLength (List.concat rest) in
  let reads := chunkReads ep total (byteLength first) rest in
  usb_transferIn e h = Ok (Some first) ->
  PTP_HEADER_SIZE <= byteLength first ->
  getUint32 first 0 = Ok total ->
  getUint16 first 4 = Ok PTP_USB_CONTAINER_DATA ->
  Forall (fun p => p <> []) rest ->
  delivers e h ep total (byteLength first) rest ->
  got < total ->
  usb_transferIn e (h ++ reads ++ [Call_transferIn ep (total - got)])
  = Ok (Some p) ->
  total < got + byteLength p ->
  receiveData e d
  = (Throw RangeError,
     with_session d (transactionId d)
       (h ++ reads ++ [Call_transferIn ep (total - got)])).
Proof.
  cbv zeta. intros Hfirst Hlen Htotal Hty Hne Hdel Hgot Hp Hover.
  unfold PTP_HEADER_SIZE in Hlen.
  pose proof (byteLength_nonneg (List.concat rest)) as Hrest.
  unfold receiveData. unfold bind at 1. cbn [receiveData_header].
  unfold bind at 1. unfold transferIn at 1, usb_call. rewrite Hfirst.
  destruct (Z.gtb_spec (byteLength first) 0); [|lia].
  unfold ret at 1. cbv iota beta.
  destruct (Z.ltb_spec (byteLength first) PTP_HEADER_SIZE) as [Hlt|_];
    [unfold PTP_HEADER_SIZE in Hlt; lia|].
  unfold bind at 1. unfold lift at 1. rewrite Htotal.
  unfold bind at 1. unfold lift at 1. rewrite Hty.
  change (negb (PTP_USB_CONTAINER_DATA =? PTP_USB_CONTAINER_DATA))
    with false.
  cbv iota.
  set (d1 := {| inEndpoint := inEndpoint d; outEndpoint := outEndpoint d;
                transactionId := transactionId d;
                interfaceNumber := interfaceNumber d;
                calls := calls d ++ [Call_transferIn (inEndpoint d) 1024] |}).
  destruct (Z.geb_spec (byteLength first) total) as [Hge|Hlt]; [lia|].
  pose proof (typedArraySet_append [] first (Z.to_nat total)) as Hs.
  cbn [app] in Hs. change (byteLength (@nil byte)) with 0 in Hs.
  unfold bind at 1. unfold lift at 1.
  rewrite Hs by (unfold byteLength in *; lia). clear Hs.
  replace (Z.to_nat total - List.length first)%nat
    with (Z.to_nat (total - byteLength first))
    by (unfold byteLength; lia).
  rewrite (receiveData_chunks_overrun e total p rest
             (Z.to_nat (total - byteLength first)) first d1
             (Nat.le_refl _) Hne Hdel Hgot Hp Hover).
  subst d1. unfold with_session. m_simpl. reflexivity.
Qed.

(** A container that declares 20 bytes: 16 arrive, then 3, then 2. *)
Lemma receiveData_chunk_overrun_witness :
  receiveData
    (scriptedDevice
       [Ok (Some (le32 20 ++ le16 2 ++ le16 0x1001 ++ le32 1
                  ++ [x01; x02; x03; x04]));
        Ok (Some [x05; x06; x07]); Ok (Some [x08; x09])] [])
    (connected 0)
  = (Throw RangeError,
     with_session (connected 0) 0
       [Call_transferIn 1 1024; Call_transferIn 1 4; Call_transferIn 1 1]).
Proof.
  apply (receiveData_chunk_overrun
           (scriptedDevice
              [Ok (Some (le32 20 ++ le16 2 ++ le16 0x1001 ++ le32 1
                         ++ [x01; x02; x03; x04]));
               Ok (Some [x05; x06; x07]); Ok (Some [x08; x09])] [])
           (connected 0)
           (le32 20 ++ le16 2 ++ le16 0x1001 ++ le32 1
            ++ [x01; x02; x03; x04])
           [[x05; x06; x07]] [x08; x09] 20).
  - reflexivity.
  - vm_compute. congruence.
  - reflexivity.
  - reflexivity.
  - repeat constructor; discriminate.
  - repeat split.
  - vm_compute. reflexivity.
  - reflexivity.
  - vm_compute. reflexivity.
Defined.
